(** * Calendar heat map of daily returns: a shallow embedding

    The development follows [calendar_heatmap.py] (and its variant
    [calendar_heatmap_test.py]).  Python integers are [Z]; strings are
    [string]; the axes object of the plotting library is a record that is
    threaded through the drawing code; exceptions are an error monad.

    A float of the return column is the rational it denotes, or an
    infinity, the negative zero or not-a-number ([Float64.float64]).
    The arithmetic that the scripts do on floats, the percentage change
    of the closes and the mean of a month, is binary64 arithmetic, round
    to nearest even, as [SpecFloat] defines it.  The colour map of
    matplotlib is evaluated on the exact values.  The library functions
    the scripts call ([calendar], [datetime], string formatting, pandas,
    numpy, [matplotlib.colors]) are written out after the libraries' own
    code, as far as the scripts use them. *)

From Stdlib Require Import ZArith QArith Qabs Qround List String Ascii Bool Lia.
From Stdlib Require Import DecimalString Permutation Sorted Lqa.
From Stdlib Require SpecFloat.
Import ListNotations.

#[local] Open Scope Z_scope.

(** ** Errors *)

Inductive exn : Type :=
| IllegalMonthError (month : Z)
| ValueError (msg : string)
| TypeError (msg : string)
| IndexError (msg : string).

Inductive result (A : Type) : Type :=
| Ok (a : A)
| Raise (e : exn).

Arguments Ok {A} a.
Arguments Raise {A} e.

Definition bind {A B : Type} (m : result A) (k : A -> result B) : result B :=
  match m with
  | Ok a => k a
  | Raise e => Raise e
  end.

Notation "x <- m ;; k" := (bind m (fun x => k))
  (at level 61, m at next level, right associativity).

(** ** The parts of Python's [datetime] and [calendar] that the program calls *)

Module PyDatetime.

Definition MINYEAR : Z := 1.
Definition MAXYEAR : Z := 9999.

Definition _DAYS_IN_MONTH : list Z :=
  [-1; 31; 28; 31; 30; 31; 30; 31; 31; 30; 31; 30; 31].

(* The module-level loop that accumulates the days before each month. *)
Definition _DAYS_BEFORE_MONTH : list Z :=
  fst (fold_left (fun '(acc, dbm) dim => (acc ++ [dbm], dbm + dim))
                 (tl _DAYS_IN_MONTH) ([-1], 0)).

Definition _is_leap (year : Z) : bool :=
  (year mod 4 =? 0) && (negb (year mod 100 =? 0) || (year mod 400 =? 0)).

Definition _days_before_year (year : Z) : Z :=
  let y := year - 1 in
  y * 365 + y / 4 - y / 100 + y / 400.

Definition _days_in_month (year month : Z) : Z :=
  if (month =? 2) && _is_leap year then 29
  else nth (Z.to_nat month) _DAYS_IN_MONTH 0.

Definition _days_before_month (year month : Z) : Z :=
  nth (Z.to_nat month) _DAYS_BEFORE_MONTH 0
  + (if (month >? 2) && _is_leap year then 1 else 0).

Definition _ymd2ord (year month day : Z) : Z :=
  _days_before_year year + _days_before_month year month + day.

(** [datetime.date]: the constructor checks its fields. *)
Record date : Type := mkdate { year : Z; month : Z; day : Z }.

Definition _check_date_fields (y m d : Z) : result date :=
  if negb ((MINYEAR <=? y) && (y <=? MAXYEAR)) then
    Raise (ValueError "year must be in 1..9999")
  else if negb ((1 <=? m) && (m <=? 12)) then
    Raise (ValueError "month must be in 1..12")
  else if negb ((1 <=? d) && (d <=? _days_in_month y m)) then
    Raise (ValueError "day is out of range for month")
  else Ok (mkdate y m d).

Definition toordinal (self : date) : Z :=
  _ymd2ord (year self) (month self) (day self).

Definition weekday (self : date) : Z :=
  (toordinal self + 6) mod 7.

End PyDatetime.

Module PyCalendar.

Definition February : Z := 2.

Definition mdays : list Z :=
  [0; 31; 28; 31; 30; 31; 30; 31; 31; 30; 31; 30; 31].

Definition isleap (year : Z) : bool :=
  (year mod 4 =? 0) && (negb (year mod 100 =? 0) || (year mod 400 =? 0)).

Definition weekday (year month day : Z) : result Z :=
  let year :=
    if negb ((PyDatetime.MINYEAR <=? year) && (year <=? PyDatetime.MAXYEAR))
    then 2000 + year mod 400 else year in
  d <- PyDatetime._check_date_fields year month day ;;
  Ok (PyDatetime.weekday d).

Definition monthrange (year month : Z) : result (Z * Z) :=
  if negb ((1 <=? month) && (month <=? 12)) then
    Raise (IllegalMonthError month)
  else
    day1 <- weekday year month 1 ;;
    let ndays := nth (Z.to_nat month) mdays 0
                 + (if (month =? February) && isleap year then 1 else 0) in
    Ok (day1, ndays).

(* range(start, stop) with step 1 *)
Definition range (start stop : Z) : list Z :=
  map (fun i => start + Z.of_nat i) (seq 0 (Z.to_nat (stop - start))).

(* range(0, stop, 7) *)
Definition range7 (stop : Z) : list Z :=
  map (fun i => 7 * Z.of_nat i) (seq 0 (Z.to_nat ((stop + 6) / 7))).

(* days[i:j] for 0 <= i <= j *)
Definition slice {A : Type} (l : list A) (i j : Z) : list A :=
  firstn (Z.to_nat (j - i)) (skipn (Z.to_nat i) l).

(** [Calendar(firstweekday).itermonthdays(year, month)], as the list
    that the generator yields. *)
Definition itermonthdays (firstweekday year month : Z) : result (list Z) :=
  r <- monthrange year month ;;
  let '(day1, ndays) := r in
  let days_before := (day1 - firstweekday) mod 7 in
  let days_after := (firstweekday - day1 - ndays) mod 7 in
  Ok (repeat 0 (Z.to_nat days_before)
      ++ range 1 (ndays + 1)
      ++ repeat 0 (Z.to_nat days_after)).

Definition monthdayscalendar (firstweekday year month : Z)
  : result (list (list Z)) :=
  days <- itermonthdays firstweekday year month ;;
  Ok (map (fun i => slice days i (i + 7))
          (range7 (Z.of_nat (List.length days)))).

End PyCalendar.

(** ** Floats

    [binary64] is the type of the doubles themselves, with the rounded
    operations of IEEE 754.  [float64] is what the rest of the
    development computes with: the exact rational value of a float, or
    one of its special values. *)

Inductive float64 : Type :=
| Finite (v : Q)
| NegZero
| PosInf
| NegInf
| NaN.

Module Float64.

Definition prec : Z := 53.
Definition emax : Z := 1024.

Definition binary64 : Type := SpecFloat.spec_float.

Definition add : binary64 -> binary64 -> binary64 := SpecFloat.SFadd prec emax.
Definition sub : binary64 -> binary64 -> binary64 := SpecFloat.SFsub prec emax.
Definition mul : binary64 -> binary64 -> binary64 := SpecFloat.SFmul prec emax.
Definition div : binary64 -> binary64 -> binary64 := SpecFloat.SFdiv prec emax.

Definition is_nan (x : binary64) : bool :=
  match x with
  | SpecFloat.S754_nan => true
  | _ => false
  end.

(** The double of an integer, rounded when it has more than 53 bits. *)
Definition of_Z (n : Z) : binary64 :=
  SpecFloat.binary_normalize prec emax n 0 false.

(** The double nearest to a rational, ties to even: the correctly
    rounded quotient of the numerator by the denominator.  A double is
    mapped to itself. *)
Definition of_Q (q : Q) : binary64 :=
  match Qnum q with
  | Z0 => SpecFloat.S754_zero false
  | Zpos n => div (SpecFloat.S754_finite false n 0)
                  (SpecFloat.S754_finite false (Qden q) 0)
  | Zneg n => div (SpecFloat.S754_finite true n 0)
                  (SpecFloat.S754_finite false (Qden q) 0)
  end.

(** The value [(-1)^s * m * 2^e]. *)
Definition value_of (s : bool) (m : positive) (e : Z) : Q :=
  let n := if s then Zneg m else Zpos m in
  match e with
  | Z0 => inject_Z n
  | Zpos p => inject_Z (n * Z.pow_pos 2 p)
  | Zneg p => Qred (n # Pos.pow 2 p)
  end.

Definition of_binary64 (x : binary64) : float64 :=
  match x with
  | SpecFloat.S754_zero false => Finite 0
  | SpecFloat.S754_zero true => NegZero
  | SpecFloat.S754_infinity false => PosInf
  | SpecFloat.S754_infinity true => NegInf
  | SpecFloat.S754_nan => NaN
  | SpecFloat.S754_finite s m e => Finite (value_of s m e)
  end.

Definition to_binary64 (x : float64) : binary64 :=
  match x with
  | Finite v => of_Q v
  | NegZero => SpecFloat.S754_zero true
  | PosInf => SpecFloat.S754_infinity false
  | NegInf => SpecFloat.S754_infinity true
  | NaN => SpecFloat.S754_nan
  end.

Definition isnan (x : float64) : bool :=
  match x with
  | NaN => true
  | _ => false
  end.

(** [a < b]: false as soon as one side is not-a-number; the two zeros
    are equal. *)
Definition ltb (a b : float64) : bool :=
  match a, b with
  | NaN, _ | _, NaN => false
  | _, NegInf => false
  | NegInf, _ => true
  | PosInf, _ => false
  | _, PosInf => true
  | Finite x, Finite y => negb (Qle_bool y x)
  | Finite x, NegZero => negb (Qle_bool 0 x)
  | NegZero, Finite y => negb (Qle_bool y 0)
  | NegZero, NegZero => false
  end.

End Float64.

(** ** Python's string formatting, as far as the program uses it *)

Module PyFormat.

(** [str(n)] for an integer. *)
Definition str (n : Z) : string := NilZero.string_of_int (Z.to_int n).

Fixpoint zeros (n : nat) : string :=
  match n with
  | O => EmptyString
  | S k => String "0" (zeros k)
  end.

(** [s.zfill(width)] for a string of digits. *)
Definition zfill (width : nat) (s : string) : string :=
  (zeros (width - String.length s) ++ s)%string.

(** [format(n, "02d")]: the sign counts in the width. *)
Definition format_02d (n : Z) : string :=
  if n <? 0 then ("-" ++ zfill 1 (str (- n)))%string
  else zfill 2 (str n).

(** Rounding of a non-negative rational to the nearest integer, ties to
    the even one: the rounding of Python's float formatting, applied to
    the exact value of the float. *)
Definition round_half_even (q : Q) : Z :=
  let n := Qnum q in
  let d := Zpos (Qden q) in
  let fl := n / d in
  match 2 * (n mod d) ?= d with
  | Lt => fl
  | Gt => fl + 1
  | Eq => if Z.even fl then fl else fl + 1
  end.

Definition digits_2f (v : Q) : string :=
  let n := round_half_even (Qabs v * 100) in
  (str (n / 100) ++ "." ++ zfill 2 (str (n mod 100)))%string.

(** [format(v, ".2f")] for a finite float [v]. *)
Definition format_2f (v : Q) : string :=
  let sign : string := if Qnum v <? 0 then "-"%string else EmptyString in
  (sign ++ digits_2f v)%string.

(** [format(v, "+.2f")] for a finite float [v]. *)
Definition format_plus_2f (v : Q) : string :=
  let sign : string := if Qnum v <? 0 then "-"%string else "+"%string in
  (sign ++ digits_2f v)%string.

(** [format(x, ".2f")] and [format(x, "+.2f")] for any float. *)
Definition format_2f_float64 (x : float64) : string :=
  match x with
  | Finite v => format_2f v
  | NegZero => "-0.00"
  | PosInf => "inf"
  | NegInf => "-inf"
  | NaN => "nan"
  end.

Definition format_plus_2f_float64 (x : float64) : string :=
  match x with
  | Finite v => format_plus_2f v
  | NegZero => "-0.00"
  | PosInf => "+inf"
  | NegInf => "-inf"
  | NaN => "+nan"
  end.

(** The newline character of ["\n"]. *)
Definition nl : string := String (ascii_of_nat 10) EmptyString.

End PyFormat.

(** ** The parts of matplotlib's [colors] module that the program calls

    [Normalize.__call__] without clipping, the lookup table that
    [LinearSegmentedColormap] builds from its segment data, and
    [Colormap.__call__] on a float: first on the rational value of a
    finite float, then on any float. *)

Module Mpl.

#[local] Open Scope Q_scope.

Definition rgba : Type := (Q * Q * Q * Q)%type.

Record Normalize : Type := mkNormalize { vmin : Q; vmax : Q }.

(** [norm(value)] with [clip=False]: a linear map, not confined to [0, 1].
    (The library raises when [vmin > vmax]; the program builds
    [Normalize(-5, 5)].) *)
Definition Normalize_call (self : Normalize) (value : Q) : Q :=
  if Qeq_bool (vmin self) (vmax self) then 0
  else (value - vmin self) / (vmax self - vmin self).

(** [norm(value)] on any float: an infinity stays one, not-a-number
    stays not-a-number, and everything becomes 0 when [vmin == vmax]. *)
Definition Normalize__call__ (self : Normalize) (value : float64) : float64 :=
  if Qeq_bool (vmin self) (vmax self) then Finite 0
  else
    match value with
    | Finite v => Finite (Normalize_call self v)
    | NegZero => Finite (Normalize_call self 0)
    | PosInf =>
        if Qle_bool (vmin self) (vmax self) then PosInf else NegInf
    | NegInf =>
        if Qle_bool (vmin self) (vmax self) then NegInf else PosInf
    | NaN => NaN
    end.

(** One row [(x, y0, y1)] of the segment data of a colour channel. *)
Definition segment : Type := (Q * Q * Q)%type.
Definition seg_x (r : segment) : Q := fst (fst r).
Definition seg_y0 (r : segment) : Q := snd (fst r).
Definition seg_y1 (r : segment) : Q := snd r.

(** [np.searchsorted(x, v)], side left, on an increasing [x]. *)
Fixpoint searchsorted (x : list Q) (v : Q) : nat :=
  match x with
  | [] => O
  | xk :: rest => if Qle_bool v xk then O else S (searchsorted rest v)
  end.

Definition clip01 (v : Q) : Q :=
  if Qle_bool v 0 then 0 else if Qle_bool 1 v then 1 else v.

(** [_create_lookup_table(N, data, gamma=1.0)] for [N > 1]; the entries
    are kept in lowest terms. *)
Definition _create_lookup_table (N : Z) (data : list segment) : list Q :=
  let x := map (fun r => seg_x r * inject_Z (N - 1)) data in
  let y0 := map seg_y0 data in
  let y1 := map seg_y1 data in
  let interior :=
    map (fun i : nat =>
           let xind := inject_Z (Z.of_nat i) in
           let ind := searchsorted x xind in
           let distance := (xind - nth (ind - 1) x 0)
                           / (nth ind x 0 - nth (ind - 1) x 0) in
           distance * (nth ind y0 0 - nth (ind - 1) y1 0)
           + nth (ind - 1) y1 0)
        (seq 1 (Z.to_nat (N - 2))) in
  map (fun v => Qred (clip01 v))
      ([hd 0 y1] ++ interior ++ [last y0 0]).

Record Colormap : Type := mkColormap {
  N : Z;
  _lut : list rgba   (* N + 3 rows: the table, then under, over, bad *)
}.

Definition _i_under (self : Colormap) : Z := N self.
Definition _i_over (self : Colormap) : Z := (N self + 1)%Z.
Definition _i_bad (self : Colormap) : Z := (N self + 2)%Z.

(** [LinearSegmentedColormap(name, segmentdata, N)] after [_init]: the
    three channel tables side by side with alpha 1, followed by the
    default extremes (under = first row, over = last row, bad =
    transparent). *)
Definition LinearSegmentedColormap
           (red green blue : list segment) (N : Z) : Colormap :=
  let r := _create_lookup_table N red in
  let g := _create_lookup_table N green in
  let b := _create_lookup_table N blue in
  let table :=
    map (fun i => (nth i r 1, nth i g 1, nth i b 1, 1))
        (seq 0 (Z.to_nat N)) in
  let first := hd (1, 1, 1, 1) table in
  let final := last table (1, 1, 1, 1) in
  mkColormap N (table ++ [first; final; (0, 0, 0, 0)]).

(** [lut.take(xa, axis=0, mode='clip')] *)
Definition take (lut : list rgba) (xa : Z) : rgba :=
  let top := (Z.of_nat (List.length lut) - 1)%Z in
  nth (Z.to_nat (Z.max 0%Z (Z.min xa top))) lut (0, 0, 0, 0).

(** [cmap(X)] for a float [X] that is not NaN. *)
Definition Colormap_index (self : Colormap) (X : Q) : Z :=
  let xa := X * inject_Z (N self) in
  let xa := if Qeq_bool xa (inject_Z (N self))
            then inject_Z (N self - 1) else xa in
  let mask_under := negb (Qle_bool 0 xa) in
  let mask_over := Qle_bool (inject_Z (N self)) xa in
  if mask_over then _i_over self
  else if mask_under then _i_under self
  else Qfloor xa.

Definition Colormap_call (self : Colormap) (X : Q) : rgba :=
  take (_lut self) (Colormap_index self X).

(** [cmap(X)] on any float: plus infinity is over, minus infinity is
    under, not-a-number is bad. *)
Definition Colormap__call__ (self : Colormap) (X : float64) : rgba :=
  match X with
  | Finite x => Colormap_call self x
  | NegZero => Colormap_call self 0
  | PosInf => take (_lut self) (_i_over self)
  | NegInf => take (_lut self) (_i_under self)
  | NaN => take (_lut self) (_i_bad self)
  end.

(** [to_rgba] on a colour written ["#RRGGBB"]. *)
Definition hex_digit (c : ascii) : Z :=
  let n := Z.of_nat (nat_of_ascii c) in
  (if (48 <=? n) && (n <=? 57) then n - 48
   else if (65 <=? n) && (n <=? 70) then n - 55
   else if (97 <=? n) && (n <=? 102) then n - 87
   else 0)%Z.

Definition hex_byte (hi lo : ascii) : Q :=
  Qred (inject_Z (16 * hex_digit hi + hex_digit lo) / 255).

Definition to_rgba (c : string) : rgba :=
  match c with
  | String _ (String r1 (String r2 (String g1 (String g2
      (String b1 (String b2 EmptyString)))))) =>
      (hex_byte r1 r2, hex_byte g1 g2, hex_byte b1 b2, 1)
  | _ => (0, 0, 0, 1)
  end.

(** [LinearSegmentedColormap.from_list(name, colors)] on a list of
    [(value, color)] pairs, with the default [N = 256]. *)
Definition from_list (colors : list (Q * string)) : Colormap :=
  let chan (f : rgba -> Q) :=
    map (fun vc => (fst vc, f (to_rgba (snd vc)), f (to_rgba (snd vc))))
        colors in
  LinearSegmentedColormap
    (chan (fun c => fst (fst (fst c))))
    (chan (fun c => snd (fst (fst c))))
    (chan (fun c => snd (fst c)))
    256.

End Mpl.

(** ** The objects behind [norm(...)] and [cmap(...)]

    Both are Python objects with fields that a call may write: a
    [Normalize] whose bounds were not given takes them from the first
    value it is called on ([autoscale_None]), and a colour map builds its
    lookup table when it is called for the first time ([_init]).  The
    scripts create one of each and share it among all cells. *)

Module MplObject.

(** Subtraction, division and equality on floats: exact on finite
    values, as in [Mpl.Normalize_call], with the special cases of
    IEEE 754. *)
Definition fsub (a b : float64) : float64 :=
  match a, b with
  | NaN, _ | _, NaN => NaN
  | PosInf, PosInf | NegInf, NegInf => NaN
  | PosInf, _ | _, NegInf => PosInf
  | NegInf, _ | _, PosInf => NegInf
  | Finite x, Finite y => Finite (x - y)
  | Finite x, NegZero => Finite (x - 0)
  | NegZero, Finite y => Finite (0 - y)
  | NegZero, NegZero => Finite 0
  end.

Definition is_negative (a : float64) : bool :=
  match a with
  | Finite x => negb (Qle_bool 0 x)
  | NegZero | NegInf => true
  | _ => false
  end.

Definition signed_inf (negative : bool) : float64 :=
  if negative then NegInf else PosInf.

Definition signed_zero (negative : bool) : float64 :=
  if negative then NegZero else Finite 0.

Definition fdiv (a b : float64) : float64 :=
  match a, b with
  | NaN, _ | _, NaN => NaN
  | (PosInf | NegInf), (PosInf | NegInf) => NaN
  | (PosInf | NegInf), _ => signed_inf (xorb (is_negative a) (is_negative b))
  | _, (PosInf | NegInf) => signed_zero (xorb (is_negative a) (is_negative b))
  | Finite x, Finite y =>
      if Qeq_bool y 0 then
        if Qeq_bool x 0 then NaN else signed_inf (is_negative a)
      else Finite (x / y)
  | Finite x, NegZero =>
      if Qeq_bool x 0 then NaN else signed_inf (negb (is_negative a))
  | NegZero, Finite y =>
      if Qeq_bool y 0 then NaN else signed_zero (negb (is_negative b))
  | NegZero, NegZero => NaN
  end.

Definition feqb (a b : float64) : bool :=
  match a, b with
  | NaN, _ | _, NaN => false
  | PosInf, PosInf | NegInf, NegInf => true
  | Finite x, Finite y => Qeq_bool x y
  | Finite x, NegZero | NegZero, Finite x => Qeq_bool x 0
  | NegZero, NegZero => true
  | _, _ => false
  end.

Record Normalize : Type := mkNormalize {
  vmin : option float64;
  vmax : option float64
}.

(** [autoscale_None(A)] on the value of the call: a bound that is not
    set becomes the smallest, respectively largest, element of [A]. *)
Definition autoscale_None (self : Normalize) (A : float64) : Normalize :=
  mkNormalize (match vmin self with None => Some A | Some lo => Some lo end)
              (match vmax self with None => Some A | Some hi => Some hi end).

(** [norm(value)] with [clip=False]: the result and the object after the
    call. *)
Definition Normalize__call__ (self : Normalize) (value : float64)
  : result (float64 * Normalize) :=
  let self := match vmin self, vmax self with
              | Some _, Some _ => self
              | _, _ => autoscale_None self value
              end in
  let lo := match vmin self with Some lo => lo | None => value end in
  let hi := match vmax self with Some hi => hi | None => value end in
  if feqb lo hi then Ok (Finite 0, self)
  else if Float64.ltb hi lo then
    Raise (ValueError "minvalue must be less than or equal to maxvalue")
  else Ok (fdiv (fsub value lo) (fsub hi lo), self).

Record LinearSegmentedColormap : Type := mkLinearSegmentedColormap {
  red : list Mpl.segment;
  green : list Mpl.segment;
  blue : list Mpl.segment;
  N : Z;
  _isinit : bool;
  _lut : list Mpl.rgba     (* meaningful once [_isinit] *)
}.

(** [LinearSegmentedColormap(name, segmentdata, N)]: no table yet. *)
Definition new (red green blue : list Mpl.segment) (N : Z)
  : LinearSegmentedColormap :=
  mkLinearSegmentedColormap red green blue N false [].

(** [LinearSegmentedColormap.from_list(name, colors)] *)
Definition from_list (colors : list (Q * string)) : LinearSegmentedColormap :=
  let chan (f : Mpl.rgba -> Q) :=
    map (fun vc => (fst vc, f (Mpl.to_rgba (snd vc)), f (Mpl.to_rgba (snd vc))))
        colors in
  new (chan (fun c => fst (fst (fst c))))
      (chan (fun c => snd (fst (fst c))))
      (chan (fun c => snd (fst c)))
      256.

Definition _init (self : LinearSegmentedColormap) : LinearSegmentedColormap :=
  mkLinearSegmentedColormap
    (red self) (green self) (blue self) (N self) true
    (Mpl._lut (Mpl.LinearSegmentedColormap (red self) (green self) (blue self)
                                           (N self))).

(** [cmap(X)]: the colour and the object after the call. *)
Definition Colormap__call__ (self : LinearSegmentedColormap) (X : float64)
  : Mpl.rgba * LinearSegmentedColormap :=
  let self := if _isinit self then self else _init self in
  (Mpl.Colormap__call__ (Mpl.mkColormap (N self) (_lut self)) X, self).

(** The two objects of a script, and [cmap(norm(val))] on them. *)
Record Mapper : Type := mkMapper {
  norm : Normalize;
  cmap : LinearSegmentedColormap
}.

Definition map_value (m : Mapper) (val : float64) : result (Mpl.rgba * Mapper) :=
  r <- Normalize__call__ (norm m) val ;;
  let '(c, cm) := Colormap__call__ (cmap m) (fst r) in
  Ok (c, mkMapper (snd r) cm).

(** The colours of a sequence of values, mapped one after the other on
    the same objects. *)
Fixpoint map_values (m : Mapper) (vals : list float64)
  : result (list Mpl.rgba * Mapper) :=
  match vals with
  | [] => Ok ([], m)
  | val :: rest =>
      r <- map_value m val ;;
      r' <- map_values (snd r) rest ;;
      Ok (fst r :: fst r', snd r')
  end.

End MplObject.

(** ** The axes object of the plotting library *)

Inductive color : Type :=
| Named (name : string)
| RGBA (c : Mpl.rgba).

Record Rectangle : Type := mkRectangle {
  xy : Z * Z;
  width : Z;
  height : Z;
  linewidth : Q;
  edgecolor : string;
  facecolor : color
}.

Record Text : Type := mkText {
  text_x : Q;
  text_y : Q;
  text_s : string;
  ha : string;
  va : string;
  fontsize : Z;
  text_color : option string
}.

Record Title : Type := mkTitle {
  title_s : string;
  title_fontsize : Z;
  title_fontweight : string;
  title_pad : option Z
}.

(** The state of one [Axes].  [subplotspec] (its row and column in the
    figure) and [ax_facecolor] survive [cla()]; everything else is reset
    by it. *)
Record Axes : Type := mkAxes {
  subplotspec : Z * Z;
  ax_facecolor : option string;
  patches : list Rectangle;
  texts : list Text;
  xlim : Q * Q;
  ylim : Q * Q;
  xticks : option (list Z);
  xticklabels : option (list string);
  yticks : option (list Z);
  tick_left : bool;
  tick_bottom : bool;
  title : option Title;
  axison : bool
}.

Module Ax.

Definition new (spec : Z * Z) : Axes :=
  mkAxes spec None [] [] (0, 1)%Q (0, 1)%Q None None None true true None true.

Definition cla (ax : Axes) : Axes :=
  mkAxes (subplotspec ax) (ax_facecolor ax)
         [] [] (0, 1)%Q (0, 1)%Q None None None true true None true.

Definition set_facecolor (c : string) (ax : Axes) : Axes :=
  mkAxes (subplotspec ax) (Some c) (patches ax) (texts ax) (xlim ax)
         (ylim ax) (xticks ax) (xticklabels ax) (yticks ax) (tick_left ax)
         (tick_bottom ax) (title ax) (axison ax).

Definition add_patch (p : Rectangle) (ax : Axes) : Axes :=
  mkAxes (subplotspec ax) (ax_facecolor ax) (patches ax ++ [p]) (texts ax)
         (xlim ax) (ylim ax) (xticks ax) (xticklabels ax) (yticks ax)
         (tick_left ax) (tick_bottom ax) (title ax) (axison ax).

Definition text (t : Text) (ax : Axes) : Axes :=
  mkAxes (subplotspec ax) (ax_facecolor ax) (patches ax) (texts ax ++ [t])
         (xlim ax) (ylim ax) (xticks ax) (xticklabels ax) (yticks ax)
         (tick_left ax) (tick_bottom ax) (title ax) (axison ax).

Definition set_xlim (lo hi : Q) (ax : Axes) : Axes :=
  mkAxes (subplotspec ax) (ax_facecolor ax) (patches ax) (texts ax)
         (lo, hi) (ylim ax) (xticks ax) (xticklabels ax) (yticks ax)
         (tick_left ax) (tick_bottom ax) (title ax) (axison ax).

Definition set_ylim (lo hi : Q) (ax : Axes) : Axes :=
  mkAxes (subplotspec ax) (ax_facecolor ax) (patches ax) (texts ax)
         (xlim ax) (lo, hi) (xticks ax) (xticklabels ax) (yticks ax)
         (tick_left ax) (tick_bottom ax) (title ax) (axison ax).

Definition set_xticks (t : list Z) (ax : Axes) : Axes :=
  mkAxes (subplotspec ax) (ax_facecolor ax) (patches ax) (texts ax)
         (xlim ax) (ylim ax) (Some t) (xticklabels ax) (yticks ax)
         (tick_left ax) (tick_bottom ax) (title ax) (axison ax).

Definition set_xticklabels (l : list string) (ax : Axes) : Axes :=
  mkAxes (subplotspec ax) (ax_facecolor ax) (patches ax) (texts ax)
         (xlim ax) (ylim ax) (xticks ax) (Some l) (yticks ax)
         (tick_left ax) (tick_bottom ax) (title ax) (axison ax).

Definition tick_params (left bottom : bool) (ax : Axes) : Axes :=
  mkAxes (subplotspec ax) (ax_facecolor ax) (patches ax) (texts ax)
         (xlim ax) (ylim ax) (xticks ax) (xticklabels ax) (yticks ax)
         left bottom (title ax) (axison ax).

Definition set_yticks (t : list Z) (ax : Axes) : Axes :=
  mkAxes (subplotspec ax) (ax_facecolor ax) (patches ax) (texts ax)
         (xlim ax) (ylim ax) (xticks ax) (xticklabels ax) (Some t)
         (tick_left ax) (tick_bottom ax) (title ax) (axison ax).

Definition set_title (t : Title) (ax : Axes) : Axes :=
  mkAxes (subplotspec ax) (ax_facecolor ax) (patches ax) (texts ax)
         (xlim ax) (ylim ax) (xticks ax) (xticklabels ax) (yticks ax)
         (tick_left ax) (tick_bottom ax) (Some t) (axison ax).

(** [ax.axis('off')] *)
Definition axis_off (ax : Axes) : Axes :=
  mkAxes (subplotspec ax) (ax_facecolor ax) (patches ax) (texts ax)
         (xlim ax) (ylim ax) (xticks ax) (xticklabels ax) (yticks ax)
         (tick_left ax) (tick_bottom ax) (title ax) false.

End Ax.

(** ** Loops and sequences *)

(** [enumerate(l)] *)
Definition enumerate {A : Type} (l : list A) : list (Z * A) :=
  combine (PyCalendar.range 0 (Z.of_nat (List.length l))) l.

(** A [for] loop whose body may raise. *)
Fixpoint for_each {A S : Type} (l : list A) (body : S -> A -> result S)
         (s : S) : result S :=
  match l with
  | [] => Ok s
  | a :: rest => s1 <- body s a ;; for_each rest body s1
  end.

(** [calendar.month_name] in the C locale. *)
Definition month_name : list string :=
  [EmptyString; "January"; "February"; "March"; "April"; "May"; "June";
   "July"; "August"; "September"; "October"; "November";
   "December"]%string.

(** ** The data frame after the index has been set to [Date_str] *)

Record Row : Type := mkRow {
  Date_str : string;
  Date : PyDatetime.date;
  Daily_Return : float64
}.

(** [Series.dt.strftime('%Y-%m-%d')] on one timestamp. *)
Definition strftime_Ymd (d : PyDatetime.date) : string :=
  (PyFormat.zfill 4 (PyFormat.str (PyDatetime.year d)) ++ "-"
   ++ PyFormat.zfill 2 (PyFormat.str (PyDatetime.month d)) ++ "-"
   ++ PyFormat.zfill 2 (PyFormat.str (PyDatetime.day d)))%string.

(** [df_month]: index label and the single column ['Daily Return %']. *)
Definition MonthFrame : Type := list (string * float64).

(** [data[(data['Date'].dt.year == year) & (data['Date'].dt.month == month)]
    [['Daily Return %']]] *)
Definition select_month (data : list Row) (year month : Z) : MonthFrame :=
  map (fun r => (Date_str r, Daily_Return r))
      (filter (fun r => (PyDatetime.year (Date r) =? year)
                        && (PyDatetime.month (Date r) =? month)) data).

(** [date_str in df_month.index] *)
Definition index_contains (df_month : MonthFrame) (date_str : string) : bool :=
  existsb (String.eqb date_str) (map fst df_month).

(** [df_month.loc[date_str, 'Daily Return %']]: the values of all rows
    with that label; a scalar when there is exactly one. *)
Definition loc (df_month : MonthFrame) (date_str : string) : list float64 :=
  map snd (filter (fun r => String.eqb date_str (fst r)) df_month).

(** numpy's sum of a float array ([DOUBLE_pairwise_sum] of
    loops_utils.h.src): fewer than 8 numbers are added one after the
    other, starting from -0.0; up to 128 numbers are added in 8
    interleaved accumulators that are then combined in pairs, followed by
    the numbers left over; a longer array is split in two. *)
Definition sum_sequential (res : Float64.binary64) (a : list Float64.binary64)
  : Float64.binary64 :=
  fold_left Float64.add a res.

Fixpoint add_lanes (r a : list Float64.binary64) : list Float64.binary64 :=
  match r, a with
  | x :: r', y :: a' => Float64.add x y :: add_lanes r' a'
  | _, _ => r
  end.

Definition sum_unrolled (a : list Float64.binary64) : Float64.binary64 :=
  let n := List.length a in
  let full := (n - n mod 8)%nat in
  let r := fold_left (fun r i => add_lanes r (firstn 8 (skipn (8 * i) a)))
                     (seq 1 (full / 8 - 1)) (firstn 8 a) in
  let lane i := nth i r (SpecFloat.S754_zero true) in
  let res := Float64.add
               (Float64.add (Float64.add (lane 0%nat) (lane 1%nat))
                            (Float64.add (lane 2%nat) (lane 3%nat)))
               (Float64.add (Float64.add (lane 4%nat) (lane 5%nat))
                            (Float64.add (lane 6%nat) (lane 7%nat))) in
  sum_sequential res (skipn full a).

Fixpoint pairwise_sum (fuel : nat) (a : list Float64.binary64)
  : Float64.binary64 :=
  let n := List.length a in
  if (n <? 8)%nat then sum_sequential (SpecFloat.S754_zero true) a
  else if (n <=? 128)%nat then sum_unrolled a
  else
    match fuel with
    | O => sum_unrolled a
    | S fuel' =>
        let n2 := (n / 2)%nat in
        let n2 := (n2 - n2 mod 8)%nat in
        Float64.add (pairwise_sum fuel' (firstn n2 a))
                    (pairwise_sum fuel' (skipn n2 a))
    end.

(** [values.sum()]: the reduction starts from -0.0. *)
Definition np_sum (a : list Float64.binary64) : Float64.binary64 :=
  Float64.add (SpecFloat.S754_zero true) (pairwise_sum (List.length a) a).

(** [df_month['Daily Return %'].mean()] (pandas' [nanmean]):
    not-a-number entries are skipped, the others are summed by numpy and
    the sum is divided by their count; not-a-number when there is none. *)
Definition mean (df_month : MonthFrame) : float64 :=
  let values := map snd df_month in
  let kept := filter (fun x => negb (Float64.isnan x)) values in
  let filled := map (fun x => if Float64.isnan x then SpecFloat.S754_zero false
                              else Float64.to_binary64 x) values in
  match kept with
  | [] => NaN
  | _ => Float64.of_binary64
           (Float64.div (np_sum filled)
                        (Float64.of_Z (Z.of_nat (List.length kept))))
  end.

(** [sorted(set(pairs))] on pairs of integers: the set drops duplicates,
    the sort orders tuples lexicographically. *)
Definition ym_eq_dec (a b : Z * Z) : {a = b} + {a <> b}.
Proof. decide equality; apply Z.eq_dec. Defined.

Definition tuple_leb (a b : Z * Z) : bool :=
  (fst a <? fst b) || ((fst a =? fst b) && (snd a <=? snd b)).

Fixpoint insert_sorted (a : Z * Z) (l : list (Z * Z)) : list (Z * Z) :=
  match l with
  | [] => [a]
  | b :: rest => if tuple_leb a b then a :: l else b :: insert_sorted a rest
  end.

Definition sorted (l : list (Z * Z)) : list (Z * Z) :=
  fold_right insert_sorted [] l.

Definition set_of (l : list (Z * Z)) : list (Z * Z) := nodup ym_eq_dec l.

(** ** The figure *)

Record Colorbar : Type := mkColorbar {
  cbar_rect : Q * Q * Q * Q;
  cbar_cmap : Mpl.Colormap;
  cbar_norm : Mpl.Normalize;
  cbar_orientation : string;
  cbar_label : string
}.

Record Figure : Type := mkFigure {
  fig_axes : list Axes;
  fig_colorbar : Colorbar;
  fig_suptitle : string
}.

(** [plt.subplots(n_rows, n_cols)]: a grid of fresh axes, row by row. *)
Definition subplots (n_rows n_cols : Z) : result (list (list Axes)) :=
  if n_rows <=? 0 then
    Raise (ValueError "Number of rows must be a positive integer")
  else if n_cols <=? 0 then
    Raise (ValueError "Number of columns must be a positive integer")
  else
    Ok (map (fun r => map (fun c => Ax.new (r, c)) (PyCalendar.range 0 n_cols))
            (PyCalendar.range 0 n_rows)).

(** [axes.flatten()] *)
Definition flatten (axes : list (list Axes)) : list Axes := List.concat axes.

(** [axes[idx]] and the write-back of the mutated object. *)
Definition getitem (axes : list Axes) (idx : Z) : result Axes :=
  match nth_error axes (Z.to_nat idx) with
  | Some ax => Ok ax
  | None => Raise (IndexError "index out of bounds")
  end.

Fixpoint setitem (axes : list Axes) (idx : nat) (ax : Axes) : list Axes :=
  match axes, idx with
  | [], _ => []
  | _ :: rest, O => ax :: rest
  | a :: rest, S k => a :: setitem rest k ax
  end.

(** ** The downloaded table and its preparation (shared by both scripts) *)

Inductive Columns : Type :=
| Index (names : list string)
| MultiIndex (tuples : list (list string)).

(** The table that [yf.download] returns: the column labels, the dates
    of the index and the numbers of the table, one row per date, each the
    rational that the float denotes (a table without missing entries). *)
Record Download : Type := mkDownload {
  columns : Columns;
  index : list PyDatetime.date;
  values : list (list Q)    (* one row per index entry *)
}.

Module PyStr.

Definition isspace (c : ascii) : bool :=
  let n := nat_of_ascii c in
  ((9 <=? n) && (n <=? 13) || (28 <=? n) && (n <=? 32))%nat.

Fixpoint lstrip (s : string) : string :=
  match s with
  | EmptyString => EmptyString
  | String c rest => if isspace c then lstrip rest else s
  end.

Fixpoint rev (s acc : string) : string :=
  match s with
  | EmptyString => acc
  | String c rest => rev rest (String c acc)
  end.

Definition strip (s : string) : string :=
  rev (lstrip (rev (lstrip s) EmptyString)) EmptyString.

Definition lower_char (c : ascii) : ascii :=
  let n := nat_of_ascii c in
  if ((65 <=? n) && (n <=? 90))%nat then ascii_of_nat (n + 32) else c.

Fixpoint lower (s : string) : string :=
  match s with
  | EmptyString => EmptyString
  | String c rest => String (lower_char c) (lower rest)
  end.

Definition startswith (s p : string) : bool := String.prefix p s.

Definition join (sep : string) (l : list string) : string :=
  String.concat sep l.

End PyStr.

Definition len_columns (c : Columns) : nat :=
  match c with
  | Index names => List.length names
  | MultiIndex tuples => List.length tuples
  end.

(** [data.empty] *)
Definition empty (data : Download) : bool :=
  (List.length (index data) =? 0)%nat || (len_columns (columns data) =? 0)%nat.

(** The column labels after the flattening of a [MultiIndex]. *)
Definition flatten_columns (c : Columns) : list string :=
  match c with
  | Index names => names
  | MultiIndex tuples =>
      map (fun col => PyStr.strip (PyStr.join " " col)) tuples
  end.

Definition possible_close_cols (cols : list string) : list string :=
  filter (fun col => PyStr.startswith (PyStr.lower col) "close") cols.

Fixpoint position (name : string) (cols : list string) : nat :=
  match cols with
  | [] => O
  | c :: rest => if String.eqb c name then O else S (position name rest)
  end.

(** [Series.pct_change()], that is [data / data.shift(1) - 1] in
    binary64: not-a-number on the first row, and where 0 is divided by 0;
    an infinity where a close other than 0 follows a close of 0. *)
Fixpoint pct_change (prev : option Float64.binary64) (l : list Float64.binary64)
  : list Float64.binary64 :=
  match l with
  | [] => []
  | p :: rest =>
      match prev with
      | None => SpecFloat.S754_nan
      | Some q => Float64.sub (Float64.div p q) (Float64.of_Z 1)
      end :: pct_change (Some p) rest
  end.

(** Lines 103 to 111: the return column, [dropna], and the string index.
    When the label of the close column occurs more than once,
    [data[close_col]] is a frame of several columns, and the assignment
    of the return column raises. *)
Definition prepare (data : Download) (close_col : string) : result (list Row) :=
  let cols := flatten_columns (columns data) in
  if (1 <? count_occ string_dec cols close_col)%nat then
    Raise (ValueError
      "Cannot set a DataFrame with multiple columns to the single column Daily Return %")
  else
    let k := position close_col cols in
    let close := map (fun row => Float64.of_Q (nth k row 0%Q)) (values data) in
    let returns := map (fun r => Float64.mul r (Float64.of_Z 100))
                       (pct_change None close) in
    Ok (flat_map (fun dr =>
                    if Float64.is_nan (snd dr) then []
                    else [mkRow (strftime_Ymd (fst dr)) (fst dr)
                                (Float64.of_binary64 (snd dr))])
                 (combine (index data) returns)).

(** [months = sorted(set((d.year, d.month) for d in data['Date']))] *)
Definition months_of (data : list Row) : list (Z * Z) :=
  sorted (set_of (map (fun r => (PyDatetime.year (Date r),
                                 PyDatetime.month (Date r))) data)).

(** What one run of the script leaves behind. *)
Inductive Status : Type :=
| Completed
| Exited
| Failed (e : exn).

Record Outcome : Type := mkOutcome {
  stdout : list string;
  saved : option (string * Figure);
  status : Status
}.

(** [for j in range(start, len(axes)): axes[j].axis('off')] *)
Definition hide_from (start : Z) (axes : list Axes) : list Axes :=
  fold_left (fun axes j =>
               match nth_error axes (Z.to_nat j) with
               | Some ax => setitem axes (Z.to_nat j) (Ax.axis_off ax)
               | None => axes
               end)
            (PyCalendar.range start (Z.of_nat (List.length axes))) axes.

Definition SAVE_DIR : string := "D:\Users\Mberr\OneDrive\Desktop\HistData".

Definition output_path (ticker : string) : string :=
  (SAVE_DIR ++ String (ascii_of_nat 92) EmptyString
   ++ ticker ++ "_calendar_heatmap.png")%string.

Definition suptitle_text (ticker : string) (start_date end_date : PyDatetime.date)
  : string :=
  (ticker ++ " Daily Return Calendar Heatmap" ++ PyFormat.nl
   ++ "(" ++ strftime_Ymd start_date ++ " to " ++ strftime_Ymd end_date ++ ")")%string.

Definition Qltb (a b : Q) : bool := negb (Qle_bool b a).

(** Python's [min(a, b)] and [max(a, b)]: the first argument wins ties. *)
Definition py_min (a b : Q) : Q := if Qltb b a then b else a.
Definition py_max (a b : Q) : Q := if Qltb a b then b else a.

(** The same on any float: a comparison with not-a-number is false, so
    that a not-a-number in the first place is returned. *)
Definition py_min_float (a b : float64) : float64 :=
  if Float64.ltb b a then b else a.
Definition py_max_float (a b : float64) : float64 :=
  if Float64.ltb a b then b else a.

(** The f-string [f"{year}-{month:02d}-{day:02d}"] of [draw_calendar]. *)
Definition date_str (year month day : Z) : string :=
  (PyFormat.str year ++ "-" ++ PyFormat.format_02d month ++ "-"
   ++ PyFormat.format_02d day)%string.

(** ** [calendar_heatmap.py] *)

Module CalendarHeatmap.

Definition cdict_red : list Mpl.segment :=
  [(0, 55 # 100, 55 # 100); (1 # 2, 1, 1); (1, 0, 0)]%Q.
Definition cdict_green : list Mpl.segment :=
  [(0, 0, 0); (1 # 2, 1, 1); (1, 55 # 100, 55 # 100)]%Q.
Definition cdict_blue : list Mpl.segment :=
  [(0, 0, 0); (1 # 2, 1, 1); (1, 0, 0)]%Q.

Definition heatmap_cmap : Mpl.Colormap :=
  Mpl.LinearSegmentedColormap cdict_red cdict_green cdict_blue 256.

Definition RETURN_MIN : Q := -5.
Definition RETURN_MAX : Q := 5.

(** The body of the inner loop of [draw_calendar]. *)
Definition draw_day (year month : Z) (df_month : MonthFrame)
           (norm : float64 -> float64) (cmap : float64 -> Mpl.rgba) (week_idx : Z)
           (ax : Axes) (slot : Z * Z) : result Axes :=
  let '(day_idx, day) := slot in
  if day =? 0 then Ok ax
  else if day_idx >=? 5 then Ok ax
  else
    let date_str := date_str year month day in
    cl <- (if index_contains df_month date_str then
             match loc df_month date_str with
             | [val] =>
                 Ok (RGBA (cmap (norm val)),
                     (PyFormat.str day ++ PyFormat.nl
                      ++ PyFormat.format_2f_float64 val ++ "%")%string)
             | _ => Raise (TypeError
                      "unsupported format string passed to Series.__format__")
             end
           else Ok (Named "white", EmptyString)) ;;
    let '(color, label) := cl in
    let rect := mkRectangle (day_idx, - week_idx) 1 1 (8 # 10)
                            "lightgray" color in
    let ax := Ax.add_patch rect ax in
    Ok (Ax.text (mkText (inject_Z day_idx + (1 # 2))
                        (inject_Z (- week_idx) + (6 # 10))
                        label "center" "top" 7 None) ax).

Definition draw_week (year month : Z) (df_month : MonthFrame)
           (norm : float64 -> float64) (cmap : float64 -> Mpl.rgba)
           (ax : Axes) (w : Z * list Z) : result Axes :=
  let '(week_idx, week) := w in
  for_each (enumerate week) (draw_day year month df_month norm cmap week_idx) ax.

Definition draw_calendar (ax : Axes) (year month : Z) (df_month : MonthFrame)
           (norm : float64 -> float64) (cmap : float64 -> Mpl.rgba) : result Axes :=
  month_days <- PyCalendar.monthdayscalendar 0 year month ;;
  let ax := Ax.cla ax in
  ax <- for_each (enumerate month_days)
                 (draw_week year month df_month norm cmap) ax ;;
  let ax := Ax.set_xlim 0 5 ax in
  let ax := Ax.set_ylim (inject_Z (- Z.of_nat (List.length month_days)))
                        (1 # 2) ax in
  let ax := Ax.set_xticks (PyCalendar.range 0 5) ax in
  let ax := Ax.set_xticklabels ["Mon"; "Tue"; "Wed"; "Thu"; "Fri"]%string ax in
  let ax := Ax.tick_params false false ax in
  let ax := Ax.set_yticks [] ax in
  let ax := Ax.set_title
              (mkTitle (nth (Z.to_nat month) month_name EmptyString
                        ++ " " ++ PyFormat.str year)%string
                       12 "bold" None) ax in
  Ok (Ax.axis_off ax).

(** The body of the loop over [months]. *)
Definition panel (data : list Row) (norm : float64 -> float64) (cmap : float64 -> Mpl.rgba)
           (axes : list Axes) (im : Z * (Z * Z)) : result (list Axes) :=
  let '(idx, (year, month)) := im in
  ax <- getitem axes idx ;;
  let df_month := select_month data year month in
  ax <- draw_calendar ax year month df_month norm cmap ;;
  month_days <- PyCalendar.monthdayscalendar 0 year month ;;
  let month_weeks := Z.of_nat (List.length month_days) in
  let avg_return := mean df_month in
  let txt := ("Avg Daily Return:" ++ PyFormat.nl
              ++ PyFormat.format_2f_float64 avg_return ++ "%")%string in
  let ax := Ax.text (mkText (25 # 10)
                            (inject_Z (- month_weeks) - (3 # 10))
                            txt "center" "top" 8 (Some "black"%string)) ax in
  Ok (setitem axes (Z.to_nat idx) ax).

(** Lines 113 to 144: the figure built from the prepared frame. *)
Definition render (ticker : string) (start_date end_date : PyDatetime.date)
           (data : list Row) : result Figure :=
  let months := months_of data in
  let n_cols := 4 in
  let n_rows := (Z.of_nat (List.length months) + n_cols - 1) / n_cols in
  grid <- subplots n_rows n_cols ;;
  let axes := flatten grid in
  let norm := Mpl.mkNormalize RETURN_MIN RETURN_MAX in
  let cmap := heatmap_cmap in
  axes <- for_each (enumerate months)
                   (panel data (Mpl.Normalize__call__ norm) (Mpl.Colormap__call__ cmap))
                   axes ;;
  let idx := Z.of_nat (List.length months) - 1 in
  let axes := hide_from (idx + 1) axes in
  let cb := mkColorbar (2 # 10, 4 # 100, 6 # 10, 3 # 100)%Q cmap norm
                       "horizontal" "Daily Return %" in
  Ok (mkFigure axes cb (suptitle_text ticker start_date end_date)).

(** The script from the download on.  [ticker] is the upper-cased
    answer to the prompt, [end_date] is today and [start_date] the day
    365 days before it. *)
Definition main (ticker : string) (start_date end_date : PyDatetime.date)
           (data : Download) : Outcome :=
  if empty data then
    mkOutcome ["No data fetched. Check the ticker symbol and try again."%string]
              None Exited
  else
    match possible_close_cols (flatten_columns (columns data)) with
    | [] =>
        mkOutcome ["Close price column not found after flattening."%string]
                  None Exited
    | close_col :: _ =>
        match (rows <- prepare data close_col ;;
               render ticker start_date end_date rows) with
        | Raise e => mkOutcome [] None (Failed e)
        | Ok fig =>
            mkOutcome [("Saved heatmap to " ++ output_path ticker)%string]
                      (Some (output_path ticker, fig)) Completed
        end
    end.

End CalendarHeatmap.

(** ** [calendar_heatmap_test.py] *)

Module CalendarHeatmapTest.

Definition colors : list (Q * string) :=
  [(0%Q, "#8B0000"%string); ((4 # 10)%Q, "#FF6347"%string);
   ((1 # 2)%Q, "#FFFFFF"%string); ((6 # 10)%Q, "#90EE90"%string);
   (1%Q, "#006400"%string)].

Definition cmap : Mpl.Colormap := Mpl.from_list colors.

Definition RETURN_MIN : Q := -5.
Definition RETURN_MAX : Q := 5.

(** The body of the inner loop of [draw_calendar]. *)
Definition draw_day (year month : Z) (df_month : MonthFrame)
           (norm : float64 -> float64) (cmap : float64 -> Mpl.rgba) (week_idx : Z)
           (ax : Axes) (slot : Z * Z) : result Axes :=
  let '(day_idx, day) := slot in
  if day =? 0 then Ok ax
  else if day_idx >=? 5 then Ok ax
  else
    let date_str := date_str year month day in
    cl <- (if index_contains df_month date_str then
             match loc df_month date_str with
             | [val] =>
                 let clipped_val :=
                   py_max_float (py_min_float val (Finite RETURN_MAX))
                                (Finite RETURN_MIN) in
                 Ok (RGBA (cmap (norm clipped_val)),
                     (PyFormat.str day ++ PyFormat.nl
                      ++ PyFormat.format_plus_2f_float64 val ++ "%")%string)
             | _ => Raise (ValueError
                      "The truth value of a Series is ambiguous. Use a.empty, a.bool(), a.item(), a.any() or a.all().")
             end
           else Ok (Named "#FFFFFF", EmptyString)) ;;
    let '(color, label) := cl in
    let rect := mkRectangle (day_idx, - week_idx) 1 1 (8 # 10)
                            "gray" color in
    let ax := Ax.add_patch rect ax in
    Ok (Ax.text (mkText (inject_Z day_idx + (1 # 2))
                        (inject_Z (- week_idx) + (6 # 10))
                        label "center" "top" 7 (Some "black"%string)) ax).

Definition draw_week (year month : Z) (df_month : MonthFrame)
           (norm : float64 -> float64) (cmap : float64 -> Mpl.rgba)
           (ax : Axes) (w : Z * list Z) : result Axes :=
  let '(week_idx, week) := w in
  for_each (enumerate week) (draw_day year month df_month norm cmap week_idx) ax.

Definition draw_calendar (ax : Axes) (year month : Z) (df_month : MonthFrame)
           (norm : float64 -> float64) (cmap : float64 -> Mpl.rgba) : result Axes :=
  month_days <- PyCalendar.monthdayscalendar 0 year month ;;
  let ax := Ax.cla ax in
  let ax := Ax.set_facecolor "white" ax in
  ax <- for_each (enumerate month_days)
                 (draw_week year month df_month norm cmap) ax ;;
  let ax := Ax.set_xlim 0 5 ax in
  let ax := Ax.set_ylim (inject_Z (- Z.of_nat (List.length month_days)))
                        (1 # 2) ax in
  let ax := Ax.set_xticks (PyCalendar.range 0 5) ax in
  let ax := Ax.set_xticklabels ["Mon"; "Tue"; "Wed"; "Thu"; "Fri"]%string ax in
  let ax := Ax.tick_params false false ax in
  let ax := Ax.set_yticks [] ax in
  let ax := Ax.set_title
              (mkTitle (nth (Z.to_nat month) month_name EmptyString
                        ++ " " ++ PyFormat.str year)%string
                       13 "bold" (Some 12)) ax in
  Ok (Ax.axis_off ax).

(** The body of the loop over [months]. *)
Definition panel (data : list Row) (norm : float64 -> float64) (cmap : float64 -> Mpl.rgba)
           (axes : list Axes) (im : Z * (Z * Z)) : result (list Axes) :=
  let '(idx, (year, month)) := im in
  ax <- getitem axes idx ;;
  let df_month := select_month data year month in
  ax <- draw_calendar ax year month df_month norm cmap ;;
  Ok (setitem axes (Z.to_nat idx) ax).

Definition render (ticker : string) (start_date end_date : PyDatetime.date)
           (data : list Row) : result Figure :=
  let months := months_of data in
  let n_cols := 4 in
  let n_rows := (Z.of_nat (List.length months) + n_cols - 1) / n_cols in
  grid <- subplots n_rows n_cols ;;
  let axes := flatten grid in
  let norm := Mpl.mkNormalize RETURN_MIN RETURN_MAX in
  axes <- for_each (enumerate months)
                   (panel data (Mpl.Normalize__call__ norm) (Mpl.Colormap__call__ cmap))
                   axes ;;
  let idx := Z.of_nat (List.length months) - 1 in
  let axes := hide_from (idx + 1) axes in
  let cb := mkColorbar (2 # 10, 4 # 100, 6 # 10, 3 # 100)%Q cmap norm
                       "horizontal" "Daily Return %" in
  Ok (mkFigure axes cb (suptitle_text ticker start_date end_date)).

Definition main (ticker : string) (start_date end_date : PyDatetime.date)
           (data : Download) : Outcome :=
  if empty data then
    mkOutcome ["No data fetched. Check the ticker symbol and try again."%string]
              None Exited
  else
    match possible_close_cols (flatten_columns (columns data)) with
    | [] =>
        mkOutcome ["Close price column not found after flattening."%string]
                  None Exited
    | close_col :: _ =>
        match (rows <- prepare data close_col ;;
               render ticker start_date end_date rows) with
        | Raise e => mkOutcome [] None (Failed e)
        | Ok fig =>
            mkOutcome [("Saved heatmap to " ++ output_path ticker)%string]
                      (Some (output_path ticker, fig)) Completed
        end
    end.

End CalendarHeatmapTest.

(** ** The month grid that the drawing loops walk through

    The two loops of [draw_calendar] visit the slots of [month_days] week
    by week and skip padding days and the two weekend columns; what is
    left is one cell per slot, holding the value found for its date. *)

Record CalendarCell : Type := mkCell {
  week_idx : Z;
  day_idx : Z;
  day_of_month : Z;
  value : option float64
}.

Definition weekday_slots (month_days : list (list Z)) : list (Z * Z * Z) :=
  flat_map (fun w =>
              flat_map (fun s =>
                          if snd s =? 0 then []
                          else if fst s >=? 5 then []
                          else [(fst w, fst s, snd s)])
                       (enumerate (snd w)))
           (enumerate month_days).

Definition cell_value (df_month : MonthFrame) (date_str : string) : option float64 :=
  if index_contains df_month date_str then
    match loc df_month date_str with
    | [val] => Some val
    | _ => None
    end
  else None.

Definition month_cells (year month : Z) (df_month : MonthFrame)
           (month_days : list (list Z)) : list CalendarCell :=
  map (fun s => mkCell (fst (fst s)) (snd (fst s)) (snd s)
                       (cell_value df_month (date_str year month (snd s))))
      (weekday_slots month_days).

(** How a cell is painted: what the two scripts differ in. *)
Record Style : Type := mkStyle {
  found : Z -> float64 -> color * string;   (* colour and label of a value *)
  missing : color * string;           (* colour and label without one *)
  edge : string;
  ink : option string
}.

Definition paint (st : Style) (c : CalendarCell) : color * string :=
  match value c with
  | Some v => found st (day_of_month c) v
  | None => missing st
  end.

Definition rect_of (st : Style) (c : CalendarCell) : Rectangle :=
  mkRectangle (day_idx c, - week_idx c) 1 1 (8 # 10) (edge st)
              (fst (paint st c)).

Definition text_of (st : Style) (c : CalendarCell) : Text :=
  mkText (inject_Z (day_idx c) + (1 # 2)) (inject_Z (- week_idx c) + (6 # 10))
         (snd (paint st c)) "center" "top" 7 (ink st).

Definition style_main (norm : float64 -> float64) (cmap : float64 -> Mpl.rgba) : Style :=
  mkStyle (fun day val =>
             (RGBA (cmap (norm val)),
              (PyFormat.str day ++ PyFormat.nl
               ++ PyFormat.format_2f_float64 val ++ "%")%string))
          (Named "white", EmptyString) "lightgray" None.

Definition style_test (norm : float64 -> float64) (cmap : float64 -> Mpl.rgba) : Style :=
  mkStyle (fun day val =>
             (RGBA (cmap (norm (py_max_float
                                  (py_min_float val (Finite CalendarHeatmapTest.RETURN_MAX))
                                  (Finite CalendarHeatmapTest.RETURN_MIN)))),
              (PyFormat.str day ++ PyFormat.nl
               ++ PyFormat.format_plus_2f_float64 val ++ "%")%string))
          (Named "#FFFFFF", EmptyString) "gray" (Some "black"%string).

(** The position of a day of the month in the Monday-first grid of a
    month whose first day falls on weekday [day1]. *)
Definition slot_of (day1 day : Z) : Z * Z * Z :=
  ((day1 + day - 1) / 7, (day1 + day - 1) mod 7, day).

(** ** Well-formed input: the rows of a return series

    Timestamps are valid calendar dates with a four-digit year, the index
    label of a row is the formatted date of the row, and no date occurs
    twice. *)

Definition valid_date (d : PyDatetime.date) : Prop :=
  1000 <= PyDatetime.year d <= 9999 /\
  1 <= PyDatetime.month d <= 12 /\
  1 <= PyDatetime.day d
  <= PyDatetime._days_in_month (PyDatetime.year d) (PyDatetime.month d).

Definition row_ok (r : Row) : Prop :=
  valid_date (Date r) /\ Date_str r = strftime_Ymd (Date r).

Definition series_ok (data : list Row) : Prop :=
  Forall row_ok data /\ NoDup (map Date data).

(** The values that a list of cells shows. *)
Definition shown_values (cells : list CalendarCell) : list float64 :=
  flat_map (fun c => match value c with Some v => [v] | None => [] end) cells.

Definition Qsum (l : list Q) : Q := fold_left Qplus l 0%Q.

(** ** Vocabulary of the proofs

    Closed forms of what the loops compute, used to state and prove the
    properties below. *)

(** The week rows of a month that starts on weekday [day1] and has
    [ndays] days: what [monthdayscalendar] returns for it. *)
Definition layout (day1 ndays : Z) : list (list Z) :=
  let days := repeat 0 (Z.to_nat ((day1 - 0) mod 7))
              ++ PyCalendar.range 1 (ndays + 1)
              ++ repeat 0 (Z.to_nat ((0 - day1 - ndays) mod 7)) in
  map (fun i => PyCalendar.slice days i (i + 7))
      (PyCalendar.range7 (Z.of_nat (List.length days))).

(** The slots that the two loops keep, for each of the 28 shapes a month
    can have. *)
Definition slots_spec (day1 ndays : Z) : list (Z * Z * Z) :=
  map (slot_of day1)
      (filter (fun d => (day1 + d - 1) mod 7 <? 5) (PyCalendar.range 1 (ndays + 1))).

(** One pass of the body of the inner loop on a kept slot. *)
Definition put (st : Style) (ax : Axes) (c : CalendarCell) : Axes :=
  Ax.text (text_of st c) (Ax.add_patch (rect_of st c) ax).

(** The two loops together, on the cells they keep. *)
Definition put_all (st : Style) (cells : list CalendarCell) (ax : Axes) : Axes :=
  fold_left (put st) cells ax.

(** The title [f"{calendar.month_name[month]} {year}"] with its font. *)
Definition title_of (year month fontsize : Z) (pad : option Z) : Title :=
  mkTitle (nth (Z.to_nat month) month_name EmptyString ++ " " ++ PyFormat.str year)%string
          fontsize "bold" pad.

(** The axes that [draw_calendar] leaves behind, given the cells. *)
Definition drawn (st : Style) (spec : Z * Z) (face : option string)
           (cells : list CalendarCell) (weeks : Z) (t : Title) : Axes :=
  mkAxes spec face (map (rect_of st) cells) (map (text_of st) cells)
         (0, 5)%Q (inject_Z (- weeks), 1 # 2)%Q
         (Some (PyCalendar.range 0 5))
         (Some ["Mon"; "Tue"; "Wed"; "Thu"; "Fri"]%string)
         (Some []) false false (Some t) false.

(** The mask that selects the rows of a month. *)
Definition in_month (year month : Z) (r : Row) : bool :=
  (PyDatetime.year (Date r) =? year) && (PyDatetime.month (Date r) =? month).

(** The order of Python tuples on (year, month) pairs. *)
Definition ym_lt (a b : Z * Z) : Prop :=
  fst a < fst b \/ (fst a = fst b /\ snd a < snd b).

Definition ym_le (a b : Z * Z) : Prop := tuple_leb a b = true.

(** The fresh axes at position [j] of the flattened grid of four columns. *)
Definition new_at (j : Z) : Axes := Ax.new (j / 4, j mod 4).

(** [monthdayscalendar(year, month)] for a year from 1 to 9999. *)
Definition month_days_of (year month : Z) : list (list Z) :=
  layout (PyDatetime.weekday (PyDatetime.mkdate year month 1))
         (PyDatetime._days_in_month year month).

(** The line with the average that the loop over the months adds. *)
Definition avg_text (df_month : MonthFrame) (weeks : Z) : Text :=
  mkText (25 # 10) (inject_Z (- weeks) - (3 # 10))
         ("Avg Daily Return:" ++ PyFormat.nl
          ++ PyFormat.format_2f_float64 (mean df_month) ++ "%")%string
         "center" "top" 8 (Some "black"%string).

(** The panel of a month in [calendar_heatmap.py]: the drawn grid and the
    line with the average below it. *)
Definition panel_main (data : list Row) (norm : float64 -> float64) (cmap : float64 -> Mpl.rgba)
           (ax : Axes) (ym : Z * Z) : Axes :=
  let df_month := select_month data (fst ym) (snd ym) in
  let month_days := month_days_of (fst ym) (snd ym) in
  let weeks := Z.of_nat (List.length month_days) in
  Ax.text (avg_text df_month weeks)
          (drawn (style_main norm cmap) (subplotspec ax) (ax_facecolor ax)
                 (month_cells (fst ym) (snd ym) df_month month_days) weeks
                 (title_of (fst ym) (snd ym) 12 None)).

(** The panel of a month in [calendar_heatmap_test.py]. *)
Definition panel_test (data : list Row) (norm : float64 -> float64) (cmap : float64 -> Mpl.rgba)
           (ax : Axes) (ym : Z * Z) : Axes :=
  let df_month := select_month data (fst ym) (snd ym) in
  let month_days := month_days_of (fst ym) (snd ym) in
  let weeks := Z.of_nat (List.length month_days) in
  drawn (style_test norm cmap) (subplotspec ax) (Some "white"%string)
        (month_cells (fst ym) (snd ym) df_month month_days) weeks
        (title_of (fst ym) (snd ym) 13 (Some 12)).

(** The axes of the figure once every month has its panel and the rest
    is switched off. *)
Fixpoint panels (f : Axes -> Z * Z -> Axes) (months : list (Z * Z))
         (axes : list Axes) : list Axes :=
  match months, axes with
  | ym :: ms, ax :: axs => f ax ym :: panels f ms axs
  | [], _ => map Ax.axis_off axes
  | _ :: _, [] => []
  end.

(** A month that can be drawn: [datetime] accepts it and no index label
    of its frame occurs twice. *)
Definition good_month (data : list Row) (ym : Z * Z) : Prop :=
  1 <= fst ym <= 9999 /\ 1 <= snd ym <= 12
  /\ NoDup (map fst (select_month data (fst ym) (snd ym))).

(** [n_rows] for [n] months. *)
Definition n_rows_of (n : nat) : Z := (Z.of_nat n + 4 - 1) / 4.

(** The shared colour bar. *)
Definition colorbar_of (cmap : Mpl.Colormap) (lo hi : Q) : Colorbar :=
  mkColorbar (2 # 10, 4 # 100, 6 # 10, 3 # 100)%Q cmap (Mpl.mkNormalize lo hi)
             "horizontal" "Daily Return %".

(** Where a cell is and which day it shows. *)
Definition cell_slot (c : CalendarCell) : Z * Z * Z :=
  (week_idx c, day_idx c, day_of_month c).

(** The cell of a slot. *)
Definition cell_at (year month : Z) (df_month : MonthFrame) (s : Z * Z * Z)
  : CalendarCell :=
  mkCell (fst (fst s)) (snd (fst s)) (snd s)
         (cell_value df_month (date_str year month (snd s))).

(** Does day [d] of a month starting on weekday [day1] fall on Monday to
    Friday? *)
Definition is_weekday (day1 d : Z) : bool := (day1 + d - 1) mod 7 <? 5.

(** The weekday of the first day of a month. *)
Definition day1_of (y m : Z) : Z := PyDatetime.weekday (PyDatetime.mkdate y m 1).


(** [norm] and [cmap] as the two scripts build them, on the value of a
    finite float. *)
Definition norm_main : Q -> Q :=
  Mpl.Normalize_call (Mpl.mkNormalize CalendarHeatmap.RETURN_MIN CalendarHeatmap.RETURN_MAX).

Definition cmap_main : Q -> Mpl.rgba := Mpl.Colormap_call CalendarHeatmap.heatmap_cmap.

Definition norm_test : Q -> Q :=
  Mpl.Normalize_call (Mpl.mkNormalize CalendarHeatmapTest.RETURN_MIN
                                      CalendarHeatmapTest.RETURN_MAX).

Definition cmap_test : Q -> Mpl.rgba := Mpl.Colormap_call CalendarHeatmapTest.cmap.

(** The same on any float: what [draw_calendar] is called with. *)
Definition norm_main_float : float64 -> float64 :=
  Mpl.Normalize__call__
    (Mpl.mkNormalize CalendarHeatmap.RETURN_MIN CalendarHeatmap.RETURN_MAX).

Definition cmap_main_float : float64 -> Mpl.rgba :=
  Mpl.Colormap__call__ CalendarHeatmap.heatmap_cmap.

Definition norm_test_float : float64 -> float64 :=
  Mpl.Normalize__call__
    (Mpl.mkNormalize CalendarHeatmapTest.RETURN_MIN CalendarHeatmapTest.RETURN_MAX).

Definition cmap_test_float : float64 -> Mpl.rgba :=
  Mpl.Colormap__call__ CalendarHeatmapTest.cmap.

(** [max(min(val, RETURN_MAX), RETURN_MIN)] of [calendar_heatmap_test.py]. *)
Definition clipped_float (val : float64) : float64 :=
  py_max_float (py_min_float val (Finite CalendarHeatmapTest.RETURN_MAX))
               (Finite CalendarHeatmapTest.RETURN_MIN).

(** The objects [norm] and [cmap] as the scripts create them: both bounds
    given, no lookup table yet. *)
Definition mapper_main : MplObject.Mapper :=
  MplObject.mkMapper
    (MplObject.mkNormalize (Some (Finite CalendarHeatmap.RETURN_MIN))
                           (Some (Finite CalendarHeatmap.RETURN_MAX)))
    (MplObject.new CalendarHeatmap.cdict_red CalendarHeatmap.cdict_green
                   CalendarHeatmap.cdict_blue 256).

Definition mapper_test : MplObject.Mapper :=
  MplObject.mkMapper
    (MplObject.mkNormalize (Some (Finite CalendarHeatmapTest.RETURN_MIN))
                           (Some (Finite CalendarHeatmapTest.RETURN_MAX)))
    (MplObject.from_list CalendarHeatmapTest.colors).

(** The objects once the colour map has been called. *)
Definition called (m : MplObject.Mapper) : MplObject.Mapper :=
  MplObject.mkMapper (MplObject.norm m) (MplObject._init (MplObject.cmap m)).

(** A [Normalize(vmin=RETURN_MIN)] without an upper bound, with the
    colour map of [calendar_heatmap.py]. *)
Definition mapper_half_bounded : MplObject.Mapper :=
  MplObject.mkMapper
    (MplObject.mkNormalize (Some (Finite CalendarHeatmap.RETURN_MIN)) None)
    (MplObject.cmap mapper_main).

(** The values that reach [cmap(norm(...))] while the figure of a series
    is drawn, in the order of the calls: month by month, cell by cell. *)
Definition mapped_values (data : list Row) : list float64 :=
  flat_map (fun ym => shown_values
                        (month_cells (fst ym) (snd ym)
                                     (select_month data (fst ym) (snd ym))
                                     (month_days_of (fst ym) (snd ym))))
           (months_of data).

(** The colours that a list of axes got from a colour map, in the order
    of the rectangles: a cell without a value is filled with a named
    colour. *)
Definition mapped_colour (c : color) : list Mpl.rgba :=
  match c with
  | RGBA c => [c]
  | Named _ => []
  end.

Definition mapped_colours (axes : list Axes) : list Mpl.rgba :=
  flat_map (fun ax => flat_map (fun p => mapped_colour (facecolor p)) (patches ax))
           axes.

(** Pure white, opaque. *)
Definition white : Mpl.rgba := (1, 1, 1, 1)%Q.

(** The day and the value of a cell that holds one. *)
Definition day_value (df : MonthFrame) (y m d : Z) : list (Z * float64) :=
  match cell_value df (date_str y m d) with
  | Some v => [(d, v)]
  | None => []
  end.

(** A series with a Friday and a Saturday in January 2024. *)
Definition friday_saturday : list Row :=
  [mkRow "2024-01-05" (PyDatetime.mkdate 2024 1 5) (Finite 1);
   mkRow "2024-01-06" (PyDatetime.mkdate 2024 1 6) (Finite (-3))].

(** A series with a single row, on a Saturday. *)
Definition saturday_only : list Row :=
  [mkRow "2024-01-06" (PyDatetime.mkdate 2024 1 6) (Finite (-3))].

(** A download with three closes, on a Monday, a Tuesday and a
    Wednesday. *)
Definition three_closes : Download :=
  mkDownload (Index ["Close"%string])
             [PyDatetime.mkdate 2024 1 1; PyDatetime.mkdate 2024 1 2;
              PyDatetime.mkdate 2024 1 3]
             [[1250%Q]; [1200%Q]; [1179%Q]].

(** The arithmetic mean of rationals, taken exactly. *)
Definition arithmetic_mean (l : list Q) : Q :=
  (Qsum l / inject_Z (Z.of_nat (List.length l)))%Q.

(** Two axes agree on what [cla()] keeps. *)
Definition same_frame (a b : Axes) : Prop :=
  subplotspec a = subplotspec b /\ ax_facecolor a = ax_facecolor b.


(** The close prices that [prepare] reads: the column of [close_col]. *)
Definition closes_of (data : Download) (close_col : string) : list Q :=
  map (fun row => nth (position close_col (flatten_columns (columns data))) row 0%Q)
      (values data).

(** The return, in percent, of a close [p] after a close [q], in
    binary64. *)
Definition return_of (q p : Q) : Float64.binary64 :=
  Float64.mul (Float64.sub (Float64.div (Float64.of_Q p) (Float64.of_Q q))
                           (Float64.of_Z 1))
              (Float64.of_Z 100).

(** The row of the prepared frame for a date, the close of the row before
    and the close of the date. *)
Definition return_row (x : PyDatetime.date * (Q * Q)) : Row :=
  mkRow (strftime_Ymd (fst x)) (fst x)
        (Float64.of_binary64 (return_of (fst (snd x)) (snd (snd x)))).

(** A close that is a number other than 0 once it is stored as a double. *)
Definition is_price (c : Q) : bool :=
  match Float64.of_Q c with
  | SpecFloat.S754_finite _ _ _ => true
  | _ => false
  end.

(** Which channel is the strongest in a colour. *)
Definition red_dominant (c : Mpl.rgba) : bool :=
  let '(r, g, b, _) := c in Qltb g r && Qltb b r.

Definition green_dominant (c : Mpl.rgba) : bool :=
  let '(r, g, b, _) := c in Qltb r g && Qltb b g.

(** The value that [calendar_heatmap_test.py] normalises. *)
Definition clipped (val : Q) : Q :=
  py_max (py_min val CalendarHeatmapTest.RETURN_MAX) CalendarHeatmapTest.RETURN_MIN.

(** The row of the table of 256 colours that a normalised value falls in,
    with values below 0 and above 1 held at the first and the last row. *)
Definition row_of (X : Q) : Z :=
  Z.max 0 (Z.min 255 (Qfloor (X * 256))).

(** [a] is at most as bright as [b] in every channel. *)
Definition darker_or_equal (a b : Mpl.rgba) : bool :=
  let '(r, g, bl, _) := a in
  let '(r', g', bl', _) := b in
  Qle_bool r r' && Qle_bool g g' && Qle_bool bl bl'.


(** * Ranges and loops *)

Lemma range_In (a b z : Z) : In z (PyCalendar.range a b) <-> a <= z < b.
Proof.
  unfold PyCalendar.range. rewrite in_map_iff. split.
  - intros [i [<- Hi]]. apply in_seq in Hi. lia.
  - intros H. exists (Z.to_nat (z - a)). split; [lia|].
    apply in_seq. lia.
Qed.

Lemma forallb_range (f : Z -> bool) (a b : Z) :
  forallb f (PyCalendar.range a b) = true ->
  forall z, a <= z < b -> f z = true.
Proof.
  intros H z Hz. rewrite forallb_forall in H. apply H, range_In, Hz.
Qed.

Lemma for_each_app {A S : Type} (l1 l2 : list A) (body : S -> A -> result S) (s : S) :
  for_each (l1 ++ l2) body s = (s1 <- for_each l1 body s ;; for_each l2 body s1).
Proof.
  revert s. induction l1 as [|a l1 IH]; intros s; simpl; [reflexivity|].
  destruct (body s a); simpl; auto.
Qed.

(** A loop whose body never raises is a fold. *)
Lemma for_each_pure {A S : Type} (l : list A) (body : S -> A -> result S)
      (step : S -> A -> S) (s : S) :
  (forall s a, In a l -> body s a = Ok (step s a)) ->
  for_each l body s = Ok (fold_left step l s).
Proof.
  revert s. induction l as [|a l IH]; intros s H; simpl; [reflexivity|].
  rewrite H by (left; reflexivity). simpl. apply IH.
  intros; apply H; right; assumption.
Qed.

(** An invariant of the state survives a loop that returns. *)
Lemma for_each_invariant {A S : Type} (P : S -> Prop) (l : list A)
      (body : S -> A -> result S) :
  (forall s a s1, P s -> body s a = Ok s1 -> P s1) ->
  forall s s1, P s -> for_each l body s = Ok s1 -> P s1.
Proof.
  intros Hb. induction l as [|a l IH]; intros s s1 Hs H; simpl in H.
  - inversion H; subst; assumption.
  - destruct (body s a) as [s2|e] eqn:E; simpl in H; [|discriminate].
    eapply IH; [|exact H]. eapply Hb; eauto.
Qed.

(** * The calendar *)

Lemma monthdayscalendar_layout (year month day1 ndays : Z) :
  PyCalendar.monthrange year month = Ok (day1, ndays) ->
  PyCalendar.monthdayscalendar 0 year month = Ok (layout day1 ndays).
Proof.
  intros H. unfold PyCalendar.monthdayscalendar, PyCalendar.itermonthdays.
  rewrite H. reflexivity.
Qed.

Lemma days_in_month_bounds (y m : Z) :
  1 <= m <= 12 -> 28 <= PyDatetime._days_in_month y m <= 31.
Proof.
  intros Hm. unfold PyDatetime._days_in_month.
  destruct ((m =? 2) && PyDatetime._is_leap y); [lia|].
  assert (m = 1 \/ m = 2 \/ m = 3 \/ m = 4 \/ m = 5 \/ m = 6 \/ m = 7 \/
          m = 8 \/ m = 9 \/ m = 10 \/ m = 11 \/ m = 12) as C by lia.
  repeat (destruct C as [-> | C]; [simpl; lia|]). subst; simpl; lia.
Qed.

Lemma monthlen_days_in_month (y m : Z) :
  1 <= m <= 12 ->
  nth (Z.to_nat m) PyCalendar.mdays 0
  + (if (m =? PyCalendar.February) && PyCalendar.isleap y then 1 else 0)
  = PyDatetime._days_in_month y m.
Proof.
  intros Hm. unfold PyDatetime._days_in_month, PyCalendar.February.
  change (PyCalendar.isleap y) with (PyDatetime._is_leap y).
  assert (m = 1 \/ m = 2 \/ m = 3 \/ m = 4 \/ m = 5 \/ m = 6 \/ m = 7 \/
          m = 8 \/ m = 9 \/ m = 10 \/ m = 11 \/ m = 12) as C by lia.
  repeat (destruct C as [-> | C];
          [simpl; destruct (PyDatetime._is_leap y); reflexivity|]).
  subst; simpl; destruct (PyDatetime._is_leap y); reflexivity.
Qed.

(** [monthrange] on a month of a year that [datetime] accepts. *)
Lemma monthrange_ok (y m : Z) :
  1 <= y <= 9999 -> 1 <= m <= 12 ->
  PyCalendar.monthrange y m =
  Ok (PyDatetime.weekday (PyDatetime.mkdate y m 1), PyDatetime._days_in_month y m).
Proof.
  intros Hy Hm. unfold PyCalendar.monthrange, PyCalendar.weekday,
    PyDatetime._check_date_fields, PyDatetime.MINYEAR, PyDatetime.MAXYEAR.
  pose proof (days_in_month_bounds y m Hm) as Hd.
  assert ((1 <=? m) && (m <=? 12) = true) as Em by (apply andb_true_iff; lia).
  assert ((1 <=? y) && (y <=? 9999) = true) as Ey by (apply andb_true_iff; lia).
  assert ((1 <=? 1) && (1 <=? PyDatetime._days_in_month y m) = true) as Ed
    by (apply andb_true_iff; split; apply Z.leb_le; lia).
  cbv zeta. do 4 (rewrite ?Em, ?Ey, ?Ed; cbn [negb bind]).
  rewrite monthlen_days_in_month by assumption. reflexivity.
Qed.

Lemma weekday_bounds (d : PyDatetime.date) : 0 <= PyDatetime.weekday d <= 6.
Proof. unfold PyDatetime.weekday. pose proof (Z.mod_pos_bound (PyDatetime.toordinal d + 6) 7). lia. Qed.

(** The weekday of a date, from the weekday of the first of its month. *)
Lemma weekday_of_day (y m d : Z) :
  PyDatetime.weekday (PyDatetime.mkdate y m d)
  = (PyDatetime.weekday (PyDatetime.mkdate y m 1) + d - 1) mod 7.
Proof.
  unfold PyDatetime.weekday, PyDatetime.toordinal, PyDatetime._ymd2ord. simpl.
  set (b := PyDatetime._days_before_year y + PyDatetime._days_before_month y m).
  replace ((b + 1 + 6) mod 7 + d - 1) with ((b + 1 + 6) mod 7 + (d - 1)) by lia.
  rewrite Zplus_mod_idemp_l. f_equal. lia.
Qed.

Lemma weekday_slots_layout (day1 ndays : Z) :
  0 <= day1 <= 6 -> 28 <= ndays <= 31 ->
  weekday_slots (layout day1 ndays) = slots_spec day1 ndays
  /\ Z.of_nat (List.length (layout day1 ndays)) = (day1 + ndays + 6) / 7.
Proof.
  intros H1 H2.
  assert (day1 = 0 \/ day1 = 1 \/ day1 = 2 \/ day1 = 3 \/ day1 = 4 \/ day1 = 5 \/ day1 = 6) as C1 by lia.
  assert (ndays = 28 \/ ndays = 29 \/ ndays = 30 \/ ndays = 31) as C2 by lia.
  clear H1 H2.
  repeat (destruct C1 as [-> | C1]);
  repeat (destruct C2 as [-> | C2]); subst; vm_compute; split; reflexivity.
Qed.


(** * Lookups in the frame of a month *)

Lemma index_contains_loc (df : MonthFrame) (s : string) :
  index_contains df s = true -> loc df s <> [].
Proof.
  unfold index_contains, loc. induction df as [|[k v] df IH]; simpl; [discriminate|].
  destruct (String.eqb s k); simpl; [discriminate|]. exact IH.
Qed.

Lemma loc_not_in (df : MonthFrame) (s : string) :
  ~ In s (map fst df) -> loc df s = [].
Proof.
  unfold loc. induction df as [|[k v] df IH]; simpl; intros H; [reflexivity|].
  destruct (String.eqb s k) eqn:E.
  - apply String.eqb_eq in E. subst. exfalso. apply H. left; reflexivity.
  - apply IH. intros H1. apply H. right; exact H1.
Qed.

Lemma loc_unique (df : MonthFrame) (s : string) :
  NoDup (map fst df) -> (List.length (loc df s) <= 1)%nat.
Proof.
  intros H. induction df as [|[k v] df IH]; simpl; [lia|].
  inversion H as [|? ? Hk Hr]; subst. unfold loc in *. simpl.
  destruct (String.eqb s k) eqn:E.
  - apply String.eqb_eq in E. subst. simpl.
    fold (loc df k). rewrite loc_not_in by exact Hk. simpl. lia.
  - apply IH, Hr.
Qed.

Lemma loc_In (df : MonthFrame) (s : string) (v : float64) :
  NoDup (map fst df) -> In (s, v) df -> loc df s = [v].
Proof.
  intros Hn Hin. pose proof (loc_unique df s Hn) as Hl.
  assert (In v (loc df s)) as Hv.
  { unfold loc. apply in_map_iff. exists (s, v). split; [reflexivity|].
    apply filter_In. split; [exact Hin|]. simpl. apply String.eqb_refl. }
  destruct (loc df s) as [|a [|b l]]; simpl in *; try lia; try contradiction.
  destruct Hv as [->|[]]. reflexivity.
Qed.

Lemma index_contains_In (df : MonthFrame) (s : string) :
  index_contains df s = true <-> In s (map fst df).
Proof.
  unfold index_contains. rewrite existsb_exists. split.
  - intros [x [Hx E]]. apply String.eqb_eq in E. subst. exact Hx.
  - intros H. exists s. split; [exact H|apply String.eqb_refl].
Qed.

Lemma cell_value_In (df : MonthFrame) (s : string) (v : float64) :
  NoDup (map fst df) -> In (s, v) df -> cell_value df s = Some v.
Proof.
  intros Hn Hin. unfold cell_value.
  assert (index_contains df s = true) as ->.
  { apply index_contains_In. apply in_map_iff. exists (s, v). auto. }
  rewrite (loc_In df s v Hn Hin). reflexivity.
Qed.

Lemma cell_value_not_In (df : MonthFrame) (s : string) :
  ~ In s (map fst df) -> cell_value df s = None.
Proof.
  intros H. unfold cell_value.
  destruct (index_contains df s) eqn:E; [|reflexivity].
  apply index_contains_In in E. contradiction.
Qed.

Lemma cell_value_Some (df : MonthFrame) (s : string) (v : float64) :
  cell_value df s = Some v -> In (s, v) df.
Proof.
  unfold cell_value. destruct (index_contains df s); [|discriminate].
  destruct (loc df s) as [|a [|b l]] eqn:E; try discriminate.
  intros H; inversion H; subst.
  assert (In v (loc df s)) as Hv by (rewrite E; left; reflexivity).
  unfold loc in Hv. apply in_map_iff in Hv. destruct Hv as [[k w] [Hw Hf]].
  apply filter_In in Hf. destruct Hf as [Hin Heq]. simpl in *.
  apply String.eqb_eq in Heq. subst. exact Hin.
Qed.

(** * The drawing loops and the cells *)

Lemma for_each_ext {A S : Type} (l : list A) (body body' : S -> A -> result S) (s : S) :
  (forall s a, body s a = body' s a) ->
  for_each l body s = for_each l body' s.
Proof.
  intros H. revert s. induction l as [|a l IH]; intros s; simpl; [reflexivity|].
  rewrite H. destruct (body' s a); simpl; auto.
Qed.

Lemma fold_left_flat_map {A B S : Type} (f : A -> list B) (g : S -> B -> S)
      (l : list A) (s : S) :
  fold_left (fun s a => fold_left g (f a) s) l s = fold_left g (flat_map f l) s.
Proof.
  revert s. induction l as [|a l IH]; intros s; simpl; [reflexivity|].
  rewrite fold_left_app. apply IH.
Qed.

Section Loops.

Variables (st : Style) (year month : Z) (df_month : MonthFrame).
Variable draw_day : Z -> Axes -> Z * Z -> result Axes.

Hypothesis draw_day_spec : forall w ax c d,
  draw_day w ax (c, d) =
  Ok (if d =? 0 then ax
      else if c >=? 5 then ax
      else put st ax (mkCell w c d (cell_value df_month (date_str year month d)))).

Let cell (s : Z * Z * Z) : CalendarCell :=
  mkCell (fst (fst s)) (snd (fst s)) (snd s)
         (cell_value df_month (date_str year month (snd s))).

Let keep (w : Z) (s : Z * Z) : list (Z * Z * Z) :=
  if snd s =? 0 then [] else if fst s >=? 5 then [] else [(w, fst s, snd s)].

Lemma week_loop (w : Z) (l : list (Z * Z)) (ax : Axes) :
  for_each l (draw_day w) ax
  = Ok (fold_left (put st) (map cell (flat_map (keep w) l)) ax).
Proof.
  revert ax. induction l as [|[c d] l IH]; intros ax; simpl; [reflexivity|].
  rewrite draw_day_spec. simpl. rewrite IH. unfold keep at 2. simpl.
  destruct (d =? 0); simpl; [reflexivity|].
  destruct (c >=? 5); simpl; reflexivity.
Qed.

Lemma month_loop (md : list (Z * list Z)) (ax : Axes) :
  for_each md (fun ax w => for_each (enumerate (snd w)) (draw_day (fst w)) ax) ax
  = Ok (fold_left (put st)
          (map cell (flat_map (fun w => flat_map (keep (fst w)) (enumerate (snd w))) md))
          ax).
Proof.
  revert ax. induction md as [|w md IH]; intros ax; simpl; [reflexivity|].
  rewrite week_loop. simpl. rewrite IH. rewrite map_app, fold_left_app.
  reflexivity.
Qed.

Lemma loops_cells (month_days : list (list Z)) (ax : Axes) :
  for_each (enumerate month_days)
           (fun ax w => for_each (enumerate (snd w)) (draw_day (fst w)) ax) ax
  = Ok (put_all st (month_cells year month df_month month_days) ax).
Proof. rewrite month_loop. reflexivity. Qed.

End Loops.

Lemma put_all_fields (st : Style) (cells : list CalendarCell) (ax : Axes) :
  put_all st cells ax =
  mkAxes (subplotspec ax) (ax_facecolor ax)
         (patches ax ++ map (rect_of st) cells)
         (texts ax ++ map (text_of st) cells)
         (xlim ax) (ylim ax) (xticks ax) (xticklabels ax) (yticks ax)
         (tick_left ax) (tick_bottom ax) (title ax) (axison ax).
Proof.
  unfold put_all. revert ax. induction cells as [|c cells IH]; intros ax; simpl.
  - rewrite !app_nil_r. destruct ax; reflexivity.
  - rewrite IH. destruct ax; simpl. rewrite <- !app_assoc. reflexivity.
Qed.


Lemma draw_day_main (year month : Z) (df : MonthFrame) (norm : float64 -> float64)
      (cmap : float64 -> Mpl.rgba) :
  NoDup (map fst df) ->
  forall w ax c d,
    CalendarHeatmap.draw_day year month df norm cmap w ax (c, d) =
    Ok (if d =? 0 then ax
        else if c >=? 5 then ax
        else put (style_main norm cmap) ax
                 (mkCell w c d (cell_value df (date_str year month d)))).
Proof.
  intros Hn w ax c d. unfold CalendarHeatmap.draw_day.
  destruct (d =? 0); [reflexivity|]. destruct (c >=? 5); [reflexivity|].
  unfold put, rect_of, text_of, paint, cell_value. simpl.
  pose proof (loc_unique df (date_str year month d) Hn) as Hl.
  destruct (index_contains df (date_str year month d)) eqn:E; [|reflexivity].
  apply index_contains_loc in E.
  destruct (loc df (date_str year month d)) as [|v [|v' l]];
    simpl in *; try lia; try congruence.
Qed.

Lemma draw_day_test (year month : Z) (df : MonthFrame) (norm : float64 -> float64)
      (cmap : float64 -> Mpl.rgba) :
  NoDup (map fst df) ->
  forall w ax c d,
    CalendarHeatmapTest.draw_day year month df norm cmap w ax (c, d) =
    Ok (if d =? 0 then ax
        else if c >=? 5 then ax
        else put (style_test norm cmap) ax
                 (mkCell w c d (cell_value df (date_str year month d)))).
Proof.
  intros Hn w ax c d. unfold CalendarHeatmapTest.draw_day.
  destruct (d =? 0); [reflexivity|]. destruct (c >=? 5); [reflexivity|].
  unfold put, rect_of, text_of, paint, cell_value. simpl.
  pose proof (loc_unique df (date_str year month d) Hn) as Hl.
  destruct (index_contains df (date_str year month d)) eqn:E; [|reflexivity].
  apply index_contains_loc in E.
  destruct (loc df (date_str year month d)) as [|v [|v' l]];
    simpl in *; try lia; try congruence.
Qed.

Lemma draw_calendar_main (ax : Axes) (year month : Z) (df : MonthFrame)
      (norm : float64 -> float64) (cmap : float64 -> Mpl.rgba) (md : list (list Z)) :
  NoDup (map fst df) ->
  PyCalendar.monthdayscalendar 0 year month = Ok md ->
  CalendarHeatmap.draw_calendar ax year month df norm cmap =
  Ok (drawn (style_main norm cmap) (subplotspec ax) (ax_facecolor ax)
            (month_cells year month df md) (Z.of_nat (List.length md))
            (title_of year month 12 None)).
Proof.
  intros Hn Hmd. unfold CalendarHeatmap.draw_calendar. rewrite Hmd. cbn [bind].
  rewrite (for_each_ext _ _
             (fun ax w => for_each (enumerate (snd w))
                            (CalendarHeatmap.draw_day year month df norm cmap (fst w)) ax))
    by (intros s [w l]; reflexivity).
  rewrite (loops_cells (style_main norm cmap) year month df _
             (draw_day_main year month df norm cmap Hn)).
  cbn [bind]. rewrite put_all_fields. reflexivity.
Qed.

Lemma draw_calendar_test (ax : Axes) (year month : Z) (df : MonthFrame)
      (norm : float64 -> float64) (cmap : float64 -> Mpl.rgba) (md : list (list Z)) :
  NoDup (map fst df) ->
  PyCalendar.monthdayscalendar 0 year month = Ok md ->
  CalendarHeatmapTest.draw_calendar ax year month df norm cmap =
  Ok (drawn (style_test norm cmap) (subplotspec ax) (Some "white"%string)
            (month_cells year month df md) (Z.of_nat (List.length md))
            (title_of year month 13 (Some 12))).
Proof.
  intros Hn Hmd. unfold CalendarHeatmapTest.draw_calendar. rewrite Hmd. cbn [bind].
  rewrite (for_each_ext _ _
             (fun ax w => for_each (enumerate (snd w))
                            (CalendarHeatmapTest.draw_day year month df norm cmap (fst w)) ax))
    by (intros s [w l]; reflexivity).
  rewrite (loops_cells (style_test norm cmap) year month df _
             (draw_day_test year month df norm cmap Hn)).
  cbn [bind]. rewrite put_all_fields. reflexivity.
Qed.


(** * Date strings *)

Lemma append_inj_l (s a b : string) : (s ++ a)%string = (s ++ b)%string -> a = b.
Proof.
  induction s as [|c s IH]; simpl; intros H; [exact H|].
  inversion H. auto.
Qed.

Lemma year_four_digits (y : Z) :
  1000 <= y <= 9999 -> PyFormat.zfill 4 (PyFormat.str y) = PyFormat.str y.
Proof.
  intros H.
  assert (forallb (fun y => String.eqb (PyFormat.zfill 4 (PyFormat.str y)) (PyFormat.str y))
                  (PyCalendar.range 1000 10000) = true) as A by (vm_compute; reflexivity).
  apply String.eqb_eq. apply (forallb_range _ _ _ A). lia.
Qed.

Lemma format_02d_nonneg (n : Z) :
  0 <= n -> PyFormat.format_02d n = PyFormat.zfill 2 (PyFormat.str n).
Proof.
  intros H. unfold PyFormat.format_02d.
  destruct (n <? 0) eqn:E; [apply Z.ltb_lt in E; lia|reflexivity].
Qed.

Lemma strftime_date_str (d : PyDatetime.date) :
  valid_date d ->
  strftime_Ymd d = date_str (PyDatetime.year d) (PyDatetime.month d) (PyDatetime.day d).
Proof.
  intros (Hy & Hm & Hd). unfold strftime_Ymd, date_str.
  rewrite year_four_digits by assumption.
  rewrite !format_02d_nonneg by lia. reflexivity.
Qed.

Lemma format_02d_inj (d d' : Z) :
  1 <= d <= 31 -> 1 <= d' <= 31 ->
  PyFormat.format_02d d = PyFormat.format_02d d' -> d = d'.
Proof.
  intros H H' E.
  assert (forallb (fun a => forallb (fun b =>
            implb (String.eqb (PyFormat.format_02d a) (PyFormat.format_02d b)) (a =? b))
            (PyCalendar.range 1 32)) (PyCalendar.range 1 32) = true) as A
    by (vm_compute; reflexivity).
  pose proof (forallb_range _ _ _ A d ltac:(lia)) as B. cbv beta in B.
  pose proof (forallb_range _ _ _ B d' ltac:(lia)) as C. cbv beta in C.
  rewrite E, String.eqb_refl in C. simpl in C. apply Z.eqb_eq, C.
Qed.

Lemma date_str_inj (y m d d' : Z) :
  1 <= d <= 31 -> 1 <= d' <= 31 ->
  date_str y m d = date_str y m d' -> d = d'.
Proof.
  intros H H' E. unfold date_str in E.
  repeat (apply append_inj_l in E). apply format_02d_inj; assumption.
Qed.

Lemma valid_day_bounds (d : PyDatetime.date) :
  valid_date d -> 1 <= PyDatetime.day d <= 31.
Proof.
  intros (Hy & Hm & Hd).
  pose proof (days_in_month_bounds (PyDatetime.year d) (PyDatetime.month d) Hm). lia.
Qed.

(** * The frame of one month *)

Lemma select_month_eq (data : list Row) (y m : Z) :
  select_month data y m
  = map (fun r => (Date_str r, Daily_Return r)) (filter (in_month y m) data).
Proof. reflexivity. Qed.

Lemma in_month_true (y m : Z) (r : Row) :
  in_month y m r = true <->
  PyDatetime.year (Date r) = y /\ PyDatetime.month (Date r) = m.
Proof. unfold in_month. rewrite andb_true_iff, !Z.eqb_eq. tauto. Qed.

Lemma row_label (r : Row) :
  row_ok r ->
  Date_str r = date_str (PyDatetime.year (Date r)) (PyDatetime.month (Date r))
                        (PyDatetime.day (Date r)).
Proof. intros [Hv ->]. apply strftime_date_str, Hv. Qed.

Lemma NoDup_map_inj {A B C : Type} (f : A -> B) (g : A -> C) (l : list A) :
  (forall x y, In x l -> In y l -> g x = g y -> f x = f y) ->
  NoDup (map f l) -> NoDup (map g l).
Proof.
  induction l as [|a l IH]; simpl; intros Hinj Hn; [constructor|].
  inversion Hn as [|? ? Ha Hl]; subst. constructor.
  - intros Hin. apply in_map_iff in Hin. destruct Hin as [x [Hx Hxl]].
    apply Ha. apply in_map_iff. exists x. split; [|exact Hxl].
    apply Hinj; auto.
  - apply IH; auto.
Qed.

Lemma NoDup_map_filter (A B : Type) (key : A -> B) (keep : A -> bool) :
  forall rows : list A,
    NoDup (map key rows) -> NoDup (map key (filter keep rows)).
Proof.
  intros rows. induction rows as [|a l IH]; simpl; intros Hn; [constructor|].
  inversion Hn as [|? ? Ha Hl]; subst.
  destruct (keep a); simpl; [constructor|]; auto.
  intros Hin. apply Ha. apply in_map_iff in Hin. destruct Hin as [x [Hx Hxl]].
  apply in_map_iff. exists x. split; [exact Hx|]. apply filter_In in Hxl. tauto.
Qed.

Lemma date_eq (a b : PyDatetime.date) :
  PyDatetime.year a = PyDatetime.year b ->
  PyDatetime.month a = PyDatetime.month b ->
  PyDatetime.day a = PyDatetime.day b -> a = b.
Proof. destruct a, b; simpl; intros; subst; reflexivity. Qed.

Lemma select_month_NoDup (data : list Row) (y m : Z) :
  series_ok data -> NoDup (map fst (select_month data y m)).
Proof.
  intros [Hok Hn]. rewrite select_month_eq, map_map. simpl.
  apply (NoDup_map_inj Date); [|apply NoDup_map_filter, Hn].
  intros a b Ha Hb E. apply filter_In in Ha, Hb.
  destruct Ha as [Ha Hma], Hb as [Hb Hmb].
  apply in_month_true in Hma, Hmb. destruct Hma as [Hya Hma], Hmb as [Hyb Hmb].
  rewrite Forall_forall in Hok.
  pose proof (Hok a Ha) as Oa. pose proof (Hok b Hb) as Ob.
  rewrite (row_label a Oa), (row_label b Ob) in E.
  rewrite Hya, Hma, Hyb, Hmb in E.
  apply date_eq; try congruence.
  apply (date_str_inj y m); [apply valid_day_bounds, Oa|apply valid_day_bounds, Ob|exact E].
Qed.

(** The value in the cell of a day that has a row. *)
Lemma cell_value_row (data : list Row) (r : Row) :
  series_ok data -> In r data ->
  cell_value (select_month data (PyDatetime.year (Date r)) (PyDatetime.month (Date r)))
             (date_str (PyDatetime.year (Date r)) (PyDatetime.month (Date r))
                       (PyDatetime.day (Date r)))
  = Some (Daily_Return r).
Proof.
  intros Hs Hin. apply cell_value_In; [apply select_month_NoDup, Hs|].
  destruct Hs as [Hok _]. rewrite Forall_forall in Hok.
  rewrite <- (row_label r (Hok r Hin)). rewrite select_month_eq.
  apply in_map_iff. exists r. split; [reflexivity|].
  apply filter_In. split; [exact Hin|]. apply in_month_true. auto.
Qed.

(** A cell with a value shows the row of its date. *)
Lemma cell_value_inv (data : list Row) (y m d : Z) (v : float64) :
  series_ok data -> 1 <= d <= 31 ->
  cell_value (select_month data y m) (date_str y m d) = Some v ->
  exists r, In r data /\ Date r = PyDatetime.mkdate y m d /\ Daily_Return r = v.
Proof.
  intros [Hok Hn] Hd H. apply cell_value_Some in H.
  rewrite select_month_eq in H. apply in_map_iff in H.
  destruct H as [r [E Hf]]. apply filter_In in Hf. destruct Hf as [Hin Hm].
  apply in_month_true in Hm. destruct Hm as [Hy Hm].
  inversion E as [[E1 E2]]. exists r. split; [exact Hin|]. split; [|reflexivity].
  rewrite Forall_forall in Hok. pose proof (Hok r Hin) as Or.
  rewrite (row_label r Or), Hy, Hm in E1.
  apply date_str_inj in E1; [|apply valid_day_bounds, Or|exact Hd].
  apply date_eq; simpl; auto.
Qed.


(** * The list of months *)

Lemma tuple_leb_total (a b : Z * Z) : tuple_leb a b = false -> ym_le b a.
Proof.
  unfold ym_le, tuple_leb. destruct a as [a1 a2], b as [b1 b2]. simpl.
  rewrite orb_false_iff, andb_false_iff, orb_true_iff, andb_true_iff.
  rewrite !Z.ltb_ge, !Z.ltb_lt, !Z.eqb_eq, !Z.eqb_neq, !Z.leb_gt, !Z.leb_le. lia.
Qed.

Lemma ym_le_trans (a b c : Z * Z) : ym_le a b -> ym_le b c -> ym_le a c.
Proof.
  unfold ym_le, tuple_leb. destruct a as [a1 a2], b as [b1 b2], c as [c1 c2]. simpl.
  rewrite !orb_true_iff, !andb_true_iff, !Z.ltb_lt, !Z.eqb_eq, !Z.leb_le. lia.
Qed.

Lemma ym_le_neq_lt (a b : Z * Z) : ym_le a b -> a <> b -> ym_lt a b.
Proof.
  unfold ym_le, ym_lt, tuple_leb. destruct a as [a1 a2], b as [b1 b2]. simpl.
  rewrite !orb_true_iff, !andb_true_iff, !Z.ltb_lt, !Z.eqb_eq, !Z.leb_le.
  intros H N. destruct H as [H|[H1 H2]]; [left; exact H|].
  right. split; [exact H1|]. destruct (Z.eq_dec a2 b2); [|lia].
  exfalso. apply N. congruence.
Qed.

Lemma insert_sorted_perm (a : Z * Z) (l : list (Z * Z)) :
  Permutation (a :: l) (insert_sorted a l).
Proof.
  induction l as [|b l IH]; simpl; [reflexivity|].
  destruct (tuple_leb a b); [reflexivity|].
  rewrite perm_swap. constructor. exact IH.
Qed.

Lemma sorted_perm (l : list (Z * Z)) : Permutation l (sorted l).
Proof.
  induction l as [|a l IH]; simpl; [reflexivity|].
  rewrite <- insert_sorted_perm. constructor. exact IH.
Qed.

Lemma insert_sorted_sorted (a : Z * Z) (l : list (Z * Z)) :
  StronglySorted ym_le l -> StronglySorted ym_le (insert_sorted a l).
Proof.
  induction l as [|b l IH]; simpl; intros H.
  - constructor; constructor.
  - destruct (tuple_leb a b) eqn:E.
    + constructor; [exact H|]. constructor; [exact E|].
      inversion H as [|? ? _ Hb]; subst. rewrite Forall_forall in *.
      intros x Hx. eapply ym_le_trans; [exact E|]. apply Hb, Hx.
    + inversion H as [|? ? Hl Hb]; subst. constructor; [apply IH, Hl|].
      rewrite Forall_forall in *. intros x Hx.
      apply (Permutation_in _ (Permutation_sym (insert_sorted_perm a l))) in Hx.
      destruct Hx as [<-|Hx]; [apply tuple_leb_total, E|apply Hb, Hx].
Qed.

Lemma sorted_sorted (l : list (Z * Z)) : StronglySorted ym_le (sorted l).
Proof.
  induction l as [|a l IH]; simpl; [constructor|].
  apply insert_sorted_sorted, IH.
Qed.

Lemma sorted_NoDup_strict (l : list (Z * Z)) :
  StronglySorted ym_le l -> NoDup l -> StronglySorted ym_lt l.
Proof.
  induction 1 as [|a l Hl IH Ha]; intros Hn; [constructor|].
  inversion Hn as [|? ? Hna Hnl]; subst. constructor; [apply IH, Hnl|].
  rewrite Forall_forall in *. intros x Hx. apply ym_le_neq_lt; [apply Ha, Hx|].
  intros ->. contradiction.
Qed.

Lemma months_of_In (data : list Row) (ym : Z * Z) :
  In ym (months_of data) <->
  exists r, In r data /\ ym = (PyDatetime.year (Date r), PyDatetime.month (Date r)).
Proof.
  unfold months_of, set_of. split.
  - intros H. apply (Permutation_in _ (Permutation_sym (sorted_perm _))) in H.
    apply nodup_In in H. apply in_map_iff in H. destruct H as [r [E Hr]].
    exists r. split; [exact Hr|]. symmetry. exact E.
  - intros [r [Hr ->]]. apply (Permutation_in _ (sorted_perm _)).
    apply nodup_In. apply in_map_iff. exists r. split; [reflexivity|exact Hr].
Qed.

Lemma months_of_NoDup (data : list Row) : NoDup (months_of data).
Proof.
  unfold months_of, set_of.
  apply (Permutation_NoDup (sorted_perm _)). apply NoDup_nodup.
Qed.

Lemma months_of_strict (data : list Row) : StronglySorted ym_lt (months_of data).
Proof.
  apply sorted_NoDup_strict; [apply sorted_sorted|apply months_of_NoDup].
Qed.

Lemma months_of_count (data : list Row) (r : Row) :
  In r data ->
  count_occ ym_eq_dec (months_of data)
            (PyDatetime.year (Date r), PyDatetime.month (Date r)) = 1%nat.
Proof.
  intros Hr.
  pose proof (proj1 (NoDup_count_occ ym_eq_dec _) (months_of_NoDup data)
                    (PyDatetime.year (Date r), PyDatetime.month (Date r))) as H1.
  assert (In (PyDatetime.year (Date r), PyDatetime.month (Date r)) (months_of data)) as H2
    by (apply months_of_In; exists r; auto).
  apply (count_occ_In ym_eq_dec) in H2. lia.
Qed.

Lemma months_of_nonempty (data : list Row) : data <> [] -> months_of data <> [].
Proof.
  destruct data as [|r data]; [congruence|]. intros _ E.
  assert (In (PyDatetime.year (Date r), PyDatetime.month (Date r)) (months_of (r :: data))) as H
    by (apply months_of_In; exists r; split; [left|]; reflexivity).
  rewrite E in H. exact H.
Qed.

(** * The grid of axes *)

Lemma range_nil (a b : Z) : b <= a -> PyCalendar.range a b = [].
Proof. intros H. unfold PyCalendar.range. replace (Z.to_nat (b - a)) with O by lia. reflexivity. Qed.

Lemma range_cons (a b : Z) :
  a < b -> PyCalendar.range a b = a :: PyCalendar.range (a + 1) b.
Proof.
  intros H. unfold PyCalendar.range.
  replace (Z.to_nat (b - a)) with (S (Z.to_nat (b - (a + 1)))) by lia.
  simpl. f_equal; [lia|]. rewrite <- seq_shift, map_map.
  apply map_ext. intros i. lia.
Qed.

Lemma range_snoc (a b : Z) :
  a <= b -> PyCalendar.range a (b + 1) = PyCalendar.range a b ++ [b].
Proof.
  intros H. unfold PyCalendar.range.
  replace (Z.to_nat (b + 1 - a)) with (Z.to_nat (b - a) + 1)%nat by lia.
  rewrite seq_app, map_app. simpl. do 2 f_equal. lia.
Qed.

Lemma range_length (a b : Z) : List.length (PyCalendar.range a b) = Z.to_nat (b - a).
Proof. unfold PyCalendar.range. rewrite length_map, length_seq. reflexivity. Qed.

Lemma flatten_grid (n_rows : Z) :
  0 <= n_rows ->
  flatten (map (fun r => map (fun c => Ax.new (r, c)) (PyCalendar.range 0 4))
               (PyCalendar.range 0 n_rows))
  = map new_at (PyCalendar.range 0 (4 * n_rows)).
Proof.
  intros H. pattern n_rows. apply natlike_ind; [reflexivity| |exact H].
  clear. intros R HR IH. cbv beta in *. unfold Z.succ, flatten in *.
  rewrite range_snoc by lia. rewrite map_app, concat_app, IH.
  replace (4 * (R + 1)) with (4 * R + 1 + 1 + 1 + 1) by lia.
  rewrite !range_snoc by lia. rewrite !map_app. rewrite <- !app_assoc.
  f_equal. change (PyCalendar.range 0 4) with [0; 1; 2; 3].
  cbn [map List.concat app]. unfold new_at.
  repeat f_equal.
  all: Z.div_mod_to_equations; lia.
Qed.


Lemma monthdayscalendar_ok (y m : Z) :
  1 <= y <= 9999 -> 1 <= m <= 12 ->
  PyCalendar.monthdayscalendar 0 y m = Ok (month_days_of y m).
Proof.
  intros Hy Hm. apply monthdayscalendar_layout, monthrange_ok; assumption.
Qed.

Lemma getitem_app (pre post : list Axes) (ax : Axes) :
  getitem (pre ++ ax :: post) (Z.of_nat (List.length pre)) = Ok ax.
Proof.
  unfold getitem. rewrite Nat2Z.id, nth_error_app2 by lia.
  rewrite Nat.sub_diag. reflexivity.
Qed.

Lemma setitem_app (pre post : list Axes) (ax ax1 : Axes) :
  setitem (pre ++ ax :: post) (List.length pre) ax1 = pre ++ ax1 :: post.
Proof. induction pre as [|a pre IH]; simpl; [reflexivity|]. rewrite IH. reflexivity. Qed.

Lemma hide_from_app (pre rest : list Axes) :
  hide_from (Z.of_nat (List.length pre)) (pre ++ rest)
  = pre ++ map Ax.axis_off rest.
Proof.
  revert pre. induction rest as [|a rest IH]; intros pre; unfold hide_from.
  - rewrite app_nil_r, range_nil by lia. cbn [fold_left map].
    rewrite app_nil_r. reflexivity.
  - rewrite range_cons by (rewrite length_app; simpl; lia).
    cbn [fold_left]. rewrite Nat2Z.id, nth_error_app2 by lia.
    rewrite Nat.sub_diag. cbn [nth_error]. rewrite setitem_app.
    specialize (IH (pre ++ [Ax.axis_off a])). unfold hide_from in IH.
    rewrite <- !app_assoc in IH. cbn [app] in IH.
    rewrite !length_app in *. cbn [List.length] in *.
    replace (Z.of_nat (List.length pre + 1)) with (Z.of_nat (List.length pre) + 1) in IH by lia.
    rewrite IH. cbn [map]. reflexivity.
Qed.

Section PanelLoop.

Variable panel : list Axes -> Z * (Z * Z) -> result (list Axes).
Variable f : Axes -> Z * Z -> Axes.
Variable good : Z * Z -> Prop.

Hypothesis panel_spec : forall pre ax post ym,
  good ym ->
  panel (pre ++ ax :: post) (Z.of_nat (List.length pre), ym)
  = Ok (pre ++ f ax ym :: post).

Lemma panel_loop (months : list (Z * Z)) :
  Forall good months ->
  forall pre axs,
    (List.length months <= List.length axs)%nat ->
    (axes <- for_each (combine (PyCalendar.range (Z.of_nat (List.length pre))
                                  (Z.of_nat (List.length pre + List.length months)))
                               months)
                      panel (pre ++ axs) ;;
     Ok (hide_from (Z.of_nat (List.length pre + List.length months)) axes))
    = Ok (pre ++ panels f months axs).
Proof.
  induction months as [|ym ms IH]; intros Hg pre axs Hl.
  - cbn [List.length]. rewrite Nat.add_0_r, range_nil by lia. cbn [combine for_each bind].
    rewrite hide_from_app. reflexivity.
  - destruct axs as [|ax axs]; [simpl in Hl; lia|].
    inversion Hg as [|? ? Hym Hms]; subst.
    rewrite range_cons by (cbn [List.length]; lia).
    cbn [combine for_each]. rewrite panel_spec by assumption. cbn [bind].
    specialize (IH Hms (pre ++ [f ax ym]) axs ltac:(simpl in Hl; lia)).
    rewrite <- !app_assoc in IH. cbn [app] in IH.
    rewrite !length_app in IH. cbn [List.length] in *.
    replace (Z.of_nat (List.length pre + 1)) with (Z.of_nat (List.length pre) + 1) in IH by lia.
    replace (Z.of_nat (List.length pre + S (List.length ms)))
      with (Z.of_nat (List.length pre + 1 + List.length ms)) by lia.
    rewrite IH. reflexivity.
Qed.

End PanelLoop.

Lemma panel_main_spec (data : list Row) (norm : float64 -> float64) (cmap : float64 -> Mpl.rgba)
      (pre : list Axes) (ax : Axes) (post : list Axes) (ym : Z * Z) :
  good_month data ym ->
  CalendarHeatmap.panel data norm cmap (pre ++ ax :: post)
                        (Z.of_nat (List.length pre), ym)
  = Ok (pre ++ panel_main data norm cmap ax ym :: post).
Proof.
  intros (Hy & Hm & Hn). destruct ym as [y m]. simpl in *.
  unfold CalendarHeatmap.panel. rewrite getitem_app. cbn [bind].
  rewrite (draw_calendar_main _ _ _ _ _ _ _ Hn (monthdayscalendar_ok y m Hy Hm)).
  cbn [bind]. rewrite monthdayscalendar_ok by assumption. cbn [bind].
  rewrite Nat2Z.id, setitem_app. reflexivity.
Qed.

Lemma panel_test_spec (data : list Row) (norm : float64 -> float64) (cmap : float64 -> Mpl.rgba)
      (pre : list Axes) (ax : Axes) (post : list Axes) (ym : Z * Z) :
  good_month data ym ->
  CalendarHeatmapTest.panel data norm cmap (pre ++ ax :: post)
                            (Z.of_nat (List.length pre), ym)
  = Ok (pre ++ panel_test data norm cmap ax ym :: post).
Proof.
  intros (Hy & Hm & Hn). destruct ym as [y m]. simpl in *.
  unfold CalendarHeatmapTest.panel. rewrite getitem_app. cbn [bind].
  rewrite (draw_calendar_test _ _ _ _ _ _ _ Hn (monthdayscalendar_ok y m Hy Hm)).
  cbn [bind]. rewrite Nat2Z.id, setitem_app. reflexivity.
Qed.

Lemma months_good (data : list Row) :
  series_ok data -> Forall (good_month data) (months_of data).
Proof.
  intros Hs. apply Forall_forall. intros ym Hym.
  apply months_of_In in Hym. destruct Hym as [r [Hr ->]].
  pose proof Hs as [Hok _]. rewrite Forall_forall in Hok.
  destruct (Hok r Hr) as [(Hy & Hm & _) _].
  unfold good_month. simpl. repeat split; try lia.
  apply select_month_NoDup, Hs.
Qed.

(** The figure of [calendar_heatmap.py] for a well-formed, non-empty series. *)
Lemma render_main (ticker : string) (start_date end_date : PyDatetime.date)
      (data : list Row) :
  series_ok data -> data <> [] ->
  CalendarHeatmap.render ticker start_date end_date data
  = Ok (mkFigure
          (panels (panel_main data
                     (Mpl.Normalize__call__ (Mpl.mkNormalize CalendarHeatmap.RETURN_MIN
                                                          CalendarHeatmap.RETURN_MAX))
                     (Mpl.Colormap__call__ CalendarHeatmap.heatmap_cmap))
                  (months_of data)
                  (map new_at (PyCalendar.range 0 (4 * n_rows_of (List.length (months_of data))))))
          (colorbar_of CalendarHeatmap.heatmap_cmap CalendarHeatmap.RETURN_MIN
                       CalendarHeatmap.RETURN_MAX)
          (suptitle_text ticker start_date end_date)).
Proof.
  intros Hs Hne. unfold CalendarHeatmap.render. cbv zeta.
  pose proof (months_of_nonempty data Hne) as Hm.
  set (months := months_of data) in *.
  fold (n_rows_of (List.length months)).
  assert (1 <= n_rows_of (List.length months)) as Hr.
  { unfold n_rows_of. destruct months; [congruence|]. cbn [List.length].
    Z.div_mod_to_equations; lia. }
  unfold subplots.
  destruct (n_rows_of (List.length months) <=? 0) eqn:E1; [apply Z.leb_le in E1; lia|].
  cbn [Z.leb Z.compare bind]. rewrite flatten_grid by lia.
  unfold enumerate.
  pose proof (panel_loop _ _ (good_month data)
                (panel_main_spec data
                   (Mpl.Normalize__call__ (Mpl.mkNormalize CalendarHeatmap.RETURN_MIN
                                                        CalendarHeatmap.RETURN_MAX))
                   (Mpl.Colormap__call__ CalendarHeatmap.heatmap_cmap))
                months (months_good data Hs) []
                (map new_at (PyCalendar.range 0 (4 * n_rows_of (List.length months))))) as L.
  cbn [List.length app Nat.add] in L.
  assert (List.length months
          <= List.length (map new_at (PyCalendar.range 0 (4 * n_rows_of (List.length months)))))%nat as Hl.
  { rewrite length_map, range_length. unfold n_rows_of in *. Z.div_mod_to_equations; lia. }
  specialize (L Hl). change (Z.of_nat 0) with 0 in L.
  destruct (for_each _ _ _) as [axes|e]; cbn [bind] in *; [|discriminate].
  inversion L as [L1].
  replace (Z.of_nat (List.length months) - 1 + 1) with (Z.of_nat (List.length months)) by lia.
  rewrite L1. reflexivity.
Qed.

(** The figure of [calendar_heatmap_test.py] for a well-formed, non-empty
    series. *)
Lemma render_test (ticker : string) (start_date end_date : PyDatetime.date)
      (data : list Row) :
  series_ok data -> data <> [] ->
  CalendarHeatmapTest.render ticker start_date end_date data
  = Ok (mkFigure
          (panels (panel_test data
                     (Mpl.Normalize__call__ (Mpl.mkNormalize CalendarHeatmapTest.RETURN_MIN
                                                          CalendarHeatmapTest.RETURN_MAX))
                     (Mpl.Colormap__call__ CalendarHeatmapTest.cmap))
                  (months_of data)
                  (map new_at (PyCalendar.range 0 (4 * n_rows_of (List.length (months_of data))))))
          (colorbar_of CalendarHeatmapTest.cmap CalendarHeatmapTest.RETURN_MIN
                       CalendarHeatmapTest.RETURN_MAX)
          (suptitle_text ticker start_date end_date)).
Proof.
  intros Hs Hne. unfold CalendarHeatmapTest.render. cbv zeta.
  pose proof (months_of_nonempty data Hne) as Hm.
  set (months := months_of data) in *.
  fold (n_rows_of (List.length months)).
  assert (1 <= n_rows_of (List.length months)) as Hr.
  { unfold n_rows_of. destruct months; [congruence|]. cbn [List.length].
    Z.div_mod_to_equations; lia. }
  unfold subplots.
  destruct (n_rows_of (List.length months) <=? 0) eqn:E1; [apply Z.leb_le in E1; lia|].
  cbn [Z.leb Z.compare bind]. rewrite flatten_grid by lia.
  unfold enumerate.
  pose proof (panel_loop _ _ (good_month data)
                (panel_test_spec data
                   (Mpl.Normalize__call__ (Mpl.mkNormalize CalendarHeatmapTest.RETURN_MIN
                                                        CalendarHeatmapTest.RETURN_MAX))
                   (Mpl.Colormap__call__ CalendarHeatmapTest.cmap))
                months (months_good data Hs) []
                (map new_at (PyCalendar.range 0 (4 * n_rows_of (List.length months))))) as L.
  cbn [List.length app Nat.add] in L.
  assert (List.length months
          <= List.length (map new_at (PyCalendar.range 0 (4 * n_rows_of (List.length months)))))%nat as Hl.
  { rewrite length_map, range_length. unfold n_rows_of in *. Z.div_mod_to_equations; lia. }
  specialize (L Hl). change (Z.of_nat 0) with 0 in L.
  destruct (for_each _ _ _) as [axes|e]; cbn [bind] in *; [|discriminate].
  inversion L as [L1].
  replace (Z.of_nat (List.length months) - 1 + 1) with (Z.of_nat (List.length months)) by lia.
  rewrite L1. reflexivity.
Qed.


(** * The cells of a month *)

Lemma month_cells_spec (y m : Z) (df : MonthFrame) :
  1 <= m <= 12 ->
  month_cells y m df (month_days_of y m)
  = map (fun d => cell_at y m df (slot_of (day1_of y m) d))
        (filter (is_weekday (day1_of y m))
                (PyCalendar.range 1 (PyDatetime._days_in_month y m + 1))).
Proof.
  intros Hm. unfold month_cells, month_days_of. fold (day1_of y m).
  destruct (weekday_slots_layout (day1_of y m) (PyDatetime._days_in_month y m)
              (weekday_bounds _) (days_in_month_bounds y m Hm)) as [-> _].
  unfold slots_spec. rewrite map_map. reflexivity.
Qed.

Lemma month_weeks_spec (y m : Z) :
  1 <= m <= 12 ->
  Z.of_nat (List.length (month_days_of y m))
  = (day1_of y m + PyDatetime._days_in_month y m + 6) / 7.
Proof.
  intros Hm. unfold month_days_of. fold (day1_of y m).
  apply (weekday_slots_layout (day1_of y m) (PyDatetime._days_in_month y m)
              (weekday_bounds _) (days_in_month_bounds y m Hm)).
Qed.

Lemma range_NoDup (a b : Z) : NoDup (PyCalendar.range a b).
Proof.
  unfold PyCalendar.range.
  apply (NoDup_map_inj (fun i : nat => i) _ (seq 0 (Z.to_nat (b - a)))).
  - intros x y _ _ H. lia.
  - rewrite map_id. apply seq_NoDup.
Qed.

Lemma filter_eqb_NoDup (l : list Z) (d : Z) :
  NoDup l -> filter (fun x => x =? d) l = if in_dec Z.eq_dec d l then [d] else [].
Proof.
  induction l as [|a l IH]; intros Hn; [reflexivity|].
  inversion Hn as [|? ? Ha Hl]; subst. simpl. rewrite (IH Hl).
  destruct (Z.eq_dec a d) as [->|Hne].
  - rewrite Z.eqb_refl. destruct (in_dec Z.eq_dec d l); [contradiction|reflexivity].
  - destruct (a =? d) eqn:E; [apply Z.eqb_eq in E; contradiction|].
    destruct (in_dec Z.eq_dec d l); reflexivity.
Qed.

Lemma filter_map_comm {A B : Type} (f : A -> B) (p : B -> bool) (l : list A) :
  filter p (map f l) = map f (filter (fun x => p (f x)) l).
Proof.
  induction l as [|a l IH]; simpl; [reflexivity|].
  destruct (p (f a)); simpl; rewrite IH; reflexivity.
Qed.

(** The cells that show a given day of the month. *)
Lemma cells_of_day (y m d : Z) (df : MonthFrame) :
  1 <= m <= 12 -> 1 <= d <= PyDatetime._days_in_month y m ->
  filter (fun c => day_of_month c =? d) (month_cells y m df (month_days_of y m))
  = if is_weekday (day1_of y m) d
    then [cell_at y m df (slot_of (day1_of y m) d)]
    else [].
Proof.
  intros Hm Hd. rewrite month_cells_spec by assumption.
  rewrite filter_map_comm. cbn [day_of_month cell_at slot_of snd].
  rewrite filter_eqb_NoDup by (apply NoDup_filter, range_NoDup).
  destruct (in_dec Z.eq_dec d _) as [Hin|Hn].
  - apply filter_In in Hin. destruct Hin as [_ ->]. reflexivity.
  - destruct (is_weekday (day1_of y m) d) eqn:E; [|reflexivity].
    exfalso. apply Hn. apply filter_In. split; [apply range_In; lia|exact E].
Qed.

Lemma month_cells_slots (y m : Z) (df : MonthFrame) (md : list (list Z)) :
  map cell_slot (month_cells y m df md) = weekday_slots md.
Proof.
  unfold month_cells. rewrite map_map. unfold cell_slot. simpl.
  rewrite <- (map_id (weekday_slots md)) at 2. apply map_ext.
  intros [[w c] d]. reflexivity.
Qed.

Lemma is_weekday_weekday (y m d : Z) :
  is_weekday (day1_of y m) d = (PyDatetime.weekday (PyDatetime.mkdate y m d) <? 5).
Proof. unfold is_weekday, day1_of. rewrite (weekday_of_day y m d). reflexivity. Qed.

Lemma date_eta (d : PyDatetime.date) :
  PyDatetime.mkdate (PyDatetime.year d) (PyDatetime.month d) (PyDatetime.day d) = d.
Proof. destruct d; reflexivity. Qed.

(** The cell of the date of a row: one cell with the value of the row on a
    weekday, none on a weekend. *)
Lemma cells_of_row (data : list Row) (r : Row) :
  series_ok data -> In r data ->
  let y := PyDatetime.year (Date r) in
  let m := PyDatetime.month (Date r) in
  let d := PyDatetime.day (Date r) in
  filter (fun c => day_of_month c =? d)
         (month_cells y m (select_month data y m) (month_days_of y m))
  = if PyDatetime.weekday (Date r) <? 5
    then [mkCell ((day1_of y m + d - 1) / 7) (PyDatetime.weekday (Date r)) d
                 (Some (Daily_Return r))]
    else [].
Proof.
  intros Hs Hr y m d. pose proof Hs as [Hok _]. rewrite Forall_forall in Hok.
  destruct (Hok r Hr) as [(Hy & Hm & Hd) _].
  assert (PyDatetime.weekday (Date r) = (day1_of y m + d - 1) mod 7) as W.
  { transitivity (PyDatetime.weekday (PyDatetime.mkdate y m d));
      [f_equal; symmetry; apply date_eta|apply weekday_of_day]. }
  rewrite cells_of_day by assumption. unfold is_weekday. rewrite <- W.
  destruct (PyDatetime.weekday (Date r) <? 5); [|reflexivity].
  unfold cell_at, slot_of. cbn [fst snd]. rewrite <- W.
  unfold y, m, d. rewrite (cell_value_row data r Hs Hr). reflexivity.
Qed.

(** Rows on weekend dates do not change any cell. *)
Lemma weekend_rows_irrelevant (data data' : list Row) (y m : Z) :
  series_ok data -> series_ok data' -> 1 <= m <= 12 ->
  (forall x, PyDatetime.weekday (Date x) < 5 -> (In x data' <-> In x data)) ->
  month_cells y m (select_month data' y m) (month_days_of y m)
  = month_cells y m (select_month data y m) (month_days_of y m).
Proof.
  intros Hs Hs' Hm Hw. rewrite !month_cells_spec by assumption.
  apply map_ext_in. intros d Hd. apply filter_In in Hd. destruct Hd as [Hd Hwk].
  apply range_In in Hd. rewrite is_weekday_weekday in Hwk. apply Z.ltb_lt in Hwk.
  pose proof (days_in_month_bounds y m Hm) as Hb.
  unfold cell_at, slot_of. cbn [fst snd]. f_equal.
  assert (forall a b : list Row, series_ok a -> series_ok b ->
            (forall x, PyDatetime.weekday (Date x) < 5 -> In x a -> In x b) ->
            forall v, cell_value (select_month a y m) (date_str y m d) = Some v ->
                      cell_value (select_month b y m) (date_str y m d) = Some v) as T.
  { intros a b Ha Hb' Hab v Hv.
    apply cell_value_inv in Hv; [|exact Ha|lia].
    destruct Hv as [x [Hx [Dx Vx]]].
    assert (In x b) as Hxb by (apply Hab; [rewrite Dx; exact Hwk|exact Hx]).
    pose proof (cell_value_row b x Hb' Hxb) as C. rewrite Dx in C. simpl in C.
    rewrite C, Vx. reflexivity. }
  destruct (cell_value (select_month data y m) (date_str y m d)) as [v|] eqn:E.
  - apply (T data data'); auto. intros x Hx Hin. apply Hw; assumption.
  - destruct (cell_value (select_month data' y m) (date_str y m d)) as [v|] eqn:E';
      [|reflexivity].
    apply (T data' data) in E'; auto; [congruence|].
    intros x Hx Hin. apply Hw; assumption.
Qed.

(** * Positions in the figure *)

Lemma panels_nth_error (f : Axes -> Z * Z -> Axes) (ms : list (Z * Z))
      (axs : list Axes) (i : nat) :
  nth_error (panels f ms axs) i
  = match nth_error axs i with
    | Some ax => Some (match nth_error ms i with
                       | Some ym => f ax ym
                       | None => Ax.axis_off ax
                       end)
    | None => None
    end.
Proof.
  revert axs i. induction ms as [|ym ms IH]; intros axs i.
  - cbn [panels]. rewrite nth_error_map.
    destruct (nth_error axs i); destruct i; reflexivity.
  - destruct axs as [|ax axs]; [destruct i; reflexivity|].
    destruct i as [|i]; [reflexivity|]. cbn [panels nth_error]. apply IH.
Qed.

Lemma range_nth_error (a b : Z) (i : nat) :
  (i < Z.to_nat (b - a))%nat ->
  nth_error (PyCalendar.range a b) i = Some (a + Z.of_nat i).
Proof.
  intros H. unfold PyCalendar.range. rewrite nth_error_map.
  rewrite nth_error_nth' with (d := O) by (rewrite length_seq; exact H).
  rewrite seq_nth by exact H. reflexivity.
Qed.

Lemma new_at_nth_error (L : Z) (i : nat) :
  Z.of_nat i < L ->
  nth_error (map new_at (PyCalendar.range 0 L)) i = Some (new_at (Z.of_nat i)).
Proof.
  intros H. rewrite nth_error_map, range_nth_error by lia. reflexivity.
Qed.

Lemma NoDup_nth_error_unique {A : Type} (l : list A) (i j : nat) (x : A) :
  NoDup l -> nth_error l i = Some x -> nth_error l j = Some x -> i = j.
Proof.
  intros Hn Hi Hj. apply (proj1 (NoDup_nth_error l) Hn).
  - apply nth_error_Some. congruence.
  - congruence.
Qed.


(** * The cell of a date *)

Lemma month_index (data : list Row) (r : Row) :
  In r data ->
  exists i : nat,
    (i < List.length (months_of data))%nat /\
    forall j, nth_error (months_of data) j
              = Some (PyDatetime.year (Date r), PyDatetime.month (Date r)) <-> j = i.
Proof.
  intros Hr.
  assert (In (PyDatetime.year (Date r), PyDatetime.month (Date r)) (months_of data)) as H
    by (apply months_of_In; exists r; auto).
  apply In_nth_error in H. destruct H as [i Hi]. exists i. split.
  - apply nth_error_Some. congruence.
  - intros j. split; [|intros ->; exact Hi].
    intros Hj. eapply NoDup_nth_error_unique; eauto using months_of_NoDup.
Qed.

Lemma n_rows_enough (n : nat) : Z.of_nat n <= 4 * n_rows_of n.
Proof. unfold n_rows_of. Z.div_mod_to_equations; lia. Qed.

(** The panel of the month at position [i] of [months]. *)
Lemma panel_at (f : Axes -> Z * Z -> Axes) (months : list (Z * Z)) (i : nat)
      (ym : Z * Z) :
  nth_error months i = Some ym ->
  nth_error (panels f months
               (map new_at (PyCalendar.range 0 (4 * n_rows_of (List.length months))))) i
  = Some (f (new_at (Z.of_nat i)) ym).
Proof.
  intros H. rewrite panels_nth_error, new_at_nth_error, H; [reflexivity|].
  assert (i < List.length months)%nat by (apply nth_error_Some; congruence).
  pose proof (n_rows_enough (List.length months)). lia.
Qed.

(** C1. Every date of the series that falls on Monday to Friday is shown
    by exactly one cell of exactly one month panel of the figure, and that
    cell holds its value; a date on Saturday or Sunday is shown by no
    cell, and the cells of its month are the same with and without it. *)
Theorem C1_each_weekday_date_in_exactly_one_cell
        (ticker : string) (start_date end_date : PyDatetime.date)
        (data : list Row) (r : Row) :
  series_ok data -> In r data ->
  let y := PyDatetime.year (Date r) in
  let m := PyDatetime.month (Date r) in
  let d := PyDatetime.day (Date r) in
  let st := style_main norm_main_float cmap_main_float in
  let df_month := select_month data y m in
  let month_days := month_days_of y m in
  let cells := month_cells y m df_month month_days in
  exists (fig : Figure) (i : nat) (ax : Axes),
    CalendarHeatmap.render ticker start_date end_date data = Ok fig /\
    PyCalendar.monthdayscalendar 0 y m = Ok month_days /\
    (forall j, nth_error (months_of data) j = Some (y, m) <-> j = i) /\
    nth_error (fig_axes fig) i = Some ax /\
    patches ax = map (rect_of st) cells /\
    texts ax = map (text_of st) cells
               ++ [avg_text df_month (Z.of_nat (List.length month_days))] /\
    (PyDatetime.weekday (Date r) < 5 ->
     filter (fun c => day_of_month c =? d) cells
     = [mkCell ((day1_of y m + d - 1) / 7) (PyDatetime.weekday (Date r)) d
               (Some (Daily_Return r))]) /\
    (5 <= PyDatetime.weekday (Date r) ->
     filter (fun c => day_of_month c =? d) cells = [] /\
     forall data', series_ok data' ->
                   (forall x, In x data' <-> In x data /\ x <> r) ->
                   month_cells y m (select_month data' y m) month_days = cells).
Proof.
  intros Hs Hr y m d st df_month month_days cells.
  assert (data <> []) as Hne by (intros ->; contradiction).
  pose proof Hs as [Hok _]. rewrite Forall_forall in Hok.
  destruct (Hok r Hr) as [(Hy & Hm & Hd) _].
  destruct (month_index data r Hr) as [i [Hi Hu]].
  pose proof (proj2 (Hu i) eq_refl) as Hym.
  eexists. exists i. eexists.
  split; [apply render_main; assumption|].
  split; [apply monthdayscalendar_ok; lia|].
  split; [exact Hu|].
  split; [cbn [fig_axes]; apply panel_at; exact Hym|].
  split; [reflexivity|]. split; [reflexivity|].
  pose proof (cells_of_row data r Hs Hr) as Hc. cbv zeta in Hc.
  split.
  - intros Hw. unfold cells, df_month, month_days, y, m, d. rewrite Hc.
    apply Z.ltb_lt in Hw. rewrite Hw. reflexivity.
  - intros Hw. split.
    + unfold cells, df_month, month_days, y, m, d. rewrite Hc.
      destruct (PyDatetime.weekday (Date r) <? 5) eqn:E; [|reflexivity].
      apply Z.ltb_lt in E. lia.
    + intros data' Hs' Hd'. apply weekend_rows_irrelevant; try assumption.
      intros x Hx. rewrite Hd'. split; [tauto|]. intros Hin. split; [exact Hin|].
      intros ->. lia.
Qed.

Lemma C1_witness :
  exists (fig : Figure) (ax : Axes),
    CalendarHeatmap.render "T" (PyDatetime.mkdate 2023 1 6)
                           (PyDatetime.mkdate 2024 1 6) friday_saturday = Ok fig
    /\ nth_error (fig_axes fig) 0 = Some ax
    /\ filter (fun c => day_of_month c =? 5)
               (month_cells 2024 1 (select_month friday_saturday 2024 1)
                            (month_days_of 2024 1))
       = [mkCell 0 4 5 (Some (Finite 1))].
Proof.
  assert (series_ok friday_saturday) as Hs.
  { split.
    - repeat constructor; vm_compute; congruence.
    - repeat constructor; simpl; intuition congruence. }
  destruct (C1_each_weekday_date_in_exactly_one_cell "T" (PyDatetime.mkdate 2023 1 6)
              (PyDatetime.mkdate 2024 1 6) friday_saturday
              (mkRow "2024-01-05" (PyDatetime.mkdate 2024 1 5) (Finite 1)) Hs
              ltac:(left; reflexivity))
    as (fig & i & ax & H1 & _ & H3 & H4 & _ & _ & H7 & _).
  exists fig, ax. split; [exact H1|].
  assert (i = 0%nat) as -> by (symmetry; apply (proj1 (H3 0%nat)); reflexivity).
  split; [exact H4|]. apply H7. vm_compute. reflexivity.
Defined.


(** [monthrange] on any year: years that [datetime] does not accept are
    mapped into the 400-year cycle first. *)
Lemma monthrange_total (y m : Z) :
  1 <= m <= 12 ->
  exists day1 ndays,
    PyCalendar.monthrange y m = Ok (day1, ndays)
    /\ 0 <= day1 <= 6 /\ 28 <= ndays <= 31.
Proof.
  intros Hm. unfold PyCalendar.monthrange, PyCalendar.weekday.
  assert ((1 <=? m) && (m <=? 12) = true) as Em by (apply andb_true_iff; lia).
  rewrite Em. cbn [negb]. cbv zeta.
  set (y1 := if negb ((PyDatetime.MINYEAR <=? y) && (y <=? PyDatetime.MAXYEAR))
             then 2000 + y mod 400 else y).
  assert (1 <= y1 <= 9999) as Hy1.
  { unfold y1, PyDatetime.MINYEAR, PyDatetime.MAXYEAR.
    destruct ((1 <=? y) && (y <=? 9999)) eqn:E; cbn [negb].
    - apply andb_true_iff in E. lia.
    - pose proof (Z.mod_pos_bound y 400). lia. }
  pose proof (days_in_month_bounds y1 m Hm) as Hd1.
  pose proof (days_in_month_bounds y m Hm) as Hd.
  unfold PyDatetime._check_date_fields, PyDatetime.MINYEAR, PyDatetime.MAXYEAR.
  assert ((1 <=? y1) && (y1 <=? 9999) = true) as Ey by (apply andb_true_iff; lia).
  assert ((1 <=? 1) && (1 <=? PyDatetime._days_in_month y1 m) = true) as Ed
    by (apply andb_true_iff; split; apply Z.leb_le; lia).
  rewrite Ey, Em, Ed. cbn [negb bind].
  rewrite monthlen_days_in_month by assumption.
  eexists. eexists. split; [reflexivity|]. split; [apply weekday_bounds|exact Hd].
Qed.

Lemma layout_shape (day1 ndays : Z) :
  0 <= day1 <= 6 -> 28 <= ndays <= 31 ->
  (4 <= List.length (layout day1 ndays) <= 6)%nat /\
  Forall (fun s => 0 <= fst (fst s) < Z.of_nat (List.length (layout day1 ndays))
                   /\ 0 <= snd (fst s) < 5)
         (weekday_slots (layout day1 ndays)).
Proof.
  intros H1 H2. destruct (weekday_slots_layout day1 ndays H1 H2) as [Es El].
  split; [Z.div_mod_to_equations; lia|].
  rewrite Es, El. apply Forall_forall. intros s Hs.
  unfold slots_spec in Hs. apply in_map_iff in Hs. destruct Hs as [d [<- Hd]].
  apply filter_In in Hd. destruct Hd as [Hr Hw]. apply range_In in Hr.
  apply Z.ltb_lt in Hw. unfold slot_of. cbn [fst snd].
  Z.div_mod_to_equations; lia.
Qed.

Lemma cell_value_nil (s : string) : cell_value [] s = None.
Proof. reflexivity. Qed.

Lemma month_cells_nil (y m : Z) (md : list (list Z)) :
  month_cells y m [] md
  = map (fun s => mkCell (fst (fst s)) (snd (fst s)) (snd s) None) (weekday_slots md).
Proof. reflexivity. Qed.

Lemma rect_positions (st : Style) (y m : Z) (df : MonthFrame) (md : list (list Z)) :
  map xy (map (rect_of st) (month_cells y m df md))
  = map (fun s => (snd (fst s), - fst (fst s))) (weekday_slots md).
Proof. unfold month_cells. rewrite !map_map. reflexivity. Qed.

(** C2 (as amended). For a month from 1 to 12 of any year, the grid that
    [draw_calendar] lays out is fixed by the year and the month: between
    four and six week rows, cells in the five columns Monday to Friday
    only, at the same positions and with the same axis limits whatever the
    frame holds.  With an empty frame every cell is a white cell with an
    empty label.  February 2023 has five week rows. *)
Theorem C2_grid_shape_fixed_by_year_and_month :
  (forall year month : Z,
      1 <= month <= 12 ->
      exists month_days : list (list Z),
        PyCalendar.monthdayscalendar 0 year month = Ok month_days /\
        (4 <= List.length month_days <= 6)%nat /\
        Forall (fun s => 0 <= fst (fst s) < Z.of_nat (List.length month_days)
                         /\ 0 <= snd (fst s) < 5)
               (weekday_slots month_days) /\
        (forall ax df_month norm cmap,
            NoDup (map fst df_month) ->
            exists ax1 ax2,
              CalendarHeatmap.draw_calendar ax year month df_month norm cmap = Ok ax1 /\
              CalendarHeatmapTest.draw_calendar ax year month df_month norm cmap = Ok ax2 /\
              map xy (patches ax1)
              = map (fun s => (snd (fst s), - fst (fst s))) (weekday_slots month_days) /\
              map xy (patches ax2) = map xy (patches ax1) /\
              xlim ax1 = (0, 5)%Q /\ xlim ax2 = (0, 5)%Q /\
              ylim ax1 = (inject_Z (- Z.of_nat (List.length month_days)), 1 # 2)%Q /\
              ylim ax2 = ylim ax1) /\
        (forall ax norm cmap,
            exists ax1,
              CalendarHeatmap.draw_calendar ax year month [] norm cmap = Ok ax1 /\
              patches ax1
              = map (fun s => mkRectangle (snd (fst s), - fst (fst s)) 1 1 (8 # 10)
                                          "lightgray" (Named "white"))
                    (weekday_slots month_days) /\
              Forall (fun t => text_s t = EmptyString) (texts ax1) /\
              List.length (texts ax1) = List.length (patches ax1)))
  /\ (exists month_days : list (list Z),
         PyCalendar.monthdayscalendar 0 2023 2 = Ok month_days
         /\ List.length month_days = 5%nat).
Proof.
  split; [|eexists; split; reflexivity].
  intros year month Hm.
  destruct (monthrange_total year month Hm) as (day1 & ndays & Hr & H1 & H2).
  pose proof (monthdayscalendar_layout year month day1 ndays Hr) as Hmd.
  destruct (layout_shape day1 ndays H1 H2) as [Hl Hf].
  exists (layout day1 ndays). split; [exact Hmd|]. split; [exact Hl|].
  split; [exact Hf|]. split.
  - intros ax df norm cmap Hn. eexists. eexists.
    split; [apply draw_calendar_main; eassumption|].
    split; [apply draw_calendar_test; eassumption|].
    cbn [drawn patches xlim ylim]. rewrite !rect_positions. repeat split.
  - intros ax norm cmap. eexists.
    split; [apply draw_calendar_main; [constructor|eassumption]|].
    cbn [drawn patches texts]. rewrite month_cells_nil, !map_map.
    split; [reflexivity|]. split; [|rewrite !length_map; reflexivity].
    apply Forall_forall. intros t Ht. apply in_map_iff in Ht.
    destruct Ht as [s [<- _]]. reflexivity.
Qed.

(** The grid of February 2023 does not have four week rows. *)
Lemma C2_february_2023_not_four_weeks :
  ~ (exists month_days : list (list Z),
        PyCalendar.monthdayscalendar 0 2023 2 = Ok month_days
        /\ List.length month_days = 4%nat).
Proof.
  intros [md [H L]]. vm_compute in H. inversion H; subst. discriminate L.
Qed.

Lemma C2_witness :
  exists month_days : list (list Z),
    PyCalendar.monthdayscalendar 0 2023 2 = Ok month_days
    /\ (4 <= List.length month_days <= 6)%nat.
Proof.
  destruct (proj1 C2_grid_shape_fixed_by_year_and_month 2023 2 ltac:(lia))
    as (md & H & L & _).
  exists md. split; assumption.
Defined.


Lemma combine_range_In {A : Type} (l : list A) (k : Z) (i : nat) (x : A) :
  nth_error l i = Some x ->
  In (k + Z.of_nat i, x)
     (combine (PyCalendar.range k (k + Z.of_nat (List.length l))) l).
Proof.
  revert k i. induction l as [|a l IH]; intros k i H; [destruct i; discriminate|].
  rewrite range_cons by (cbn [List.length]; lia). cbn [combine].
  destruct i as [|i]; cbn [nth_error] in H.
  - inversion H; subst. left. f_equal. simpl. lia.
  - right. specialize (IH (k + 1) i H).
    replace (k + 1 + Z.of_nat (List.length l))
      with (k + Z.of_nat (List.length (a :: l))) in IH by (cbn [List.length]; lia).
    replace (k + Z.of_nat (S i)) with (k + 1 + Z.of_nat i) by lia. exact IH.
Qed.

Lemma enumerate_In {A : Type} (l : list A) (i : nat) (x : A) :
  nth_error l i = Some x -> In (Z.of_nat i, x) (enumerate l).
Proof. intros H. apply (combine_range_In l 0 i x H). Qed.

(** A slot that the loops keep is one of the weekday slots. *)
Lemma weekday_slots_In (md : list (list Z)) (w c : nat) (week : list Z) (day : Z) :
  nth_error md w = Some week -> nth_error week c = Some day ->
  day <> 0 -> (c < 5)%nat ->
  In (Z.of_nat w, Z.of_nat c, day) (weekday_slots md).
Proof.
  intros Hw Hc Hd H5. unfold weekday_slots. apply in_flat_map.
  exists (Z.of_nat w, week). split; [apply enumerate_In, Hw|].
  apply in_flat_map. exists (Z.of_nat c, day). split; [apply enumerate_In, Hc|].
  cbn [fst snd]. destruct (day =? 0) eqn:E; [apply Z.eqb_eq in E; contradiction|].
  destruct (Z.of_nat c >=? 5) eqn:E5; [rewrite Z.geb_le in E5; lia|].
  left. reflexivity.
Qed.

Lemma combine_map {A B C : Type} (f : A -> B) (g : A -> C) (l : list A) :
  combine (map f l) (map g l) = map (fun x => (f x, g x)) l.
Proof. induction l as [|a l IH]; simpl; [reflexivity|]. rewrite IH. reflexivity. Qed.

(** The pair of artists of a kept slot is among the drawn cells. *)
Lemma drawn_cell (st : Style) (spec : Z * Z) (face : option string) (y m : Z)
      (df : MonthFrame) (md : list (list Z)) (weeks : Z) (t : Title)
      (w c : nat) (week : list Z) (day : Z) :
  nth_error md w = Some week -> nth_error week c = Some day ->
  day <> 0 -> (c < 5)%nat ->
  let cell := mkCell (Z.of_nat w) (Z.of_nat c) day
                     (cell_value df (date_str y m day)) in
  let ax := drawn st spec face (month_cells y m df md) weeks t in
  In (rect_of st cell, text_of st cell) (combine (patches ax) (texts ax)).
Proof.
  intros Hw Hc Hd H5 cell ax. unfold ax. cbn [drawn patches texts].
  rewrite combine_map. apply in_map_iff. exists cell. split; [reflexivity|].
  unfold month_cells. apply in_map_iff. exists (Z.of_nat w, Z.of_nat c, day).
  split; [reflexivity|]. eapply weekday_slots_In; eassumption.
Qed.

(** C3. A kept slot (a weekday column, a day other than 0) whose date is
    in the index of the frame is drawn as a rectangle of the mapped colour
    with the day number, a line break and the value with two decimals and
    a percent sign as its label; a slot whose date is missing is drawn
    white, with an empty label.  With the single entry 2024-01-01 at 2.5,
    January 2024 has one labelled cell, in week 0 and column 0, and its
    label is the day 1, a line break and 2.50%. *)
Theorem C3_cell_of_a_weekday_slot :
  (forall (ax : Axes) (year month : Z) (df_month : MonthFrame)
          (norm : float64 -> float64) (cmap : float64 -> Mpl.rgba)
          (month_days : list (list Z)) (w c : nat) (week : list Z) (day : Z),
      NoDup (map fst df_month) ->
      PyCalendar.monthdayscalendar 0 year month = Ok month_days ->
      nth_error month_days w = Some week -> nth_error week c = Some day ->
      day <> 0 -> (c < 5)%nat ->
      exists ax1,
        CalendarHeatmap.draw_calendar ax year month df_month norm cmap = Ok ax1 /\
        (forall val : float64,
            In (date_str year month day, val) df_month ->
            In (mkRectangle (Z.of_nat c, - Z.of_nat w) 1 1 (8 # 10) "lightgray"
                            (RGBA (cmap (norm val))),
                mkText (inject_Z (Z.of_nat c) + (1 # 2))
                       (inject_Z (- Z.of_nat w) + (6 # 10))
                       (PyFormat.str day ++ PyFormat.nl
                        ++ PyFormat.format_2f_float64 val ++ "%")%string
                       "center" "top" 7 None)
               (combine (patches ax1) (texts ax1))) /\
        (~ In (date_str year month day) (map fst df_month) ->
         In (mkRectangle (Z.of_nat c, - Z.of_nat w) 1 1 (8 # 10) "lightgray"
                         (Named "white"),
             mkText (inject_Z (Z.of_nat c) + (1 # 2))
                    (inject_Z (- Z.of_nat w) + (6 # 10))
                    EmptyString "center" "top" 7 None)
            (combine (patches ax1) (texts ax1))))
  /\ (forall (ax : Axes) (norm : float64 -> float64) (cmap : float64 -> Mpl.rgba),
         exists ax1,
           CalendarHeatmap.draw_calendar ax 2024 1 [("2024-01-01"%string, Finite (25 # 10))]
                                         norm cmap = Ok ax1 /\
           filter (fun pt => negb (String.eqb (text_s (snd pt)) EmptyString))
                  (combine (patches ax1) (texts ax1))
           = [(mkRectangle (0, 0) 1 1 (8 # 10) "lightgray"
                           (RGBA (cmap (norm (Finite (25 # 10))))),
               mkText (1 # 2) (6 # 10)
                      (String "1" (String (ascii_of_nat 10) "2.50%"))
                      "center" "top" 7 None)]).
Proof.
  split.
  - intros ax year month df norm cmap md w c week day Hn Hmd Hw Hc Hd H5.
    eexists. split; [apply draw_calendar_main; eassumption|].
    pose proof (drawn_cell (style_main norm cmap) (subplotspec ax) (ax_facecolor ax)
                  year month df md (Z.of_nat (List.length md))
                  (title_of year month 12 None) w c week day Hw Hc Hd H5) as H.
    cbv zeta in H. split.
    + intros val Hin. rewrite (cell_value_In df _ val Hn Hin) in H. exact H.
    + intros Hnin. rewrite (cell_value_not_In df _ Hnin) in H. exact H.
  - intros ax norm cmap. eexists.
    split; [apply draw_calendar_main; [repeat constructor; simpl; tauto|reflexivity]|].
    vm_compute. reflexivity.
Qed.

Lemma C3_witness :
  exists ax1,
    CalendarHeatmap.draw_calendar (Ax.new (0, 0)) 2024 1
      [("2024-01-01"%string, Finite (25 # 10))]
      (Mpl.Normalize__call__ (Mpl.mkNormalize CalendarHeatmap.RETURN_MIN
                                              CalendarHeatmap.RETURN_MAX))
      (Mpl.Colormap__call__ CalendarHeatmap.heatmap_cmap) = Ok ax1
    /\ In (mkRectangle (0, 0) 1 1 (8 # 10) "lightgray"
                       (RGBA (42 # 85, 1313 # 1700, 42 # 85, 1)%Q),
           mkText (0 + (1 # 2)) (0 + (6 # 10))
                  (String "1" (String (ascii_of_nat 10) "2.50%"))
                  "center" "top" 7 None)
          (combine (patches ax1) (texts ax1)).
Proof.
  destruct (proj1 C3_cell_of_a_weekday_slot (Ax.new (0, 0)) 2024 1
              [("2024-01-01"%string, Finite (25 # 10))]
              (Mpl.Normalize__call__ (Mpl.mkNormalize CalendarHeatmap.RETURN_MIN
                                                      CalendarHeatmap.RETURN_MAX))
              (Mpl.Colormap__call__ CalendarHeatmap.heatmap_cmap)
              [[1; 2; 3; 4; 5; 6; 7]; [8; 9; 10; 11; 12; 13; 14];
               [15; 16; 17; 18; 19; 20; 21]; [22; 23; 24; 25; 26; 27; 28];
               [29; 30; 31; 0; 0; 0; 0]]
              0%nat 0%nat [1; 2; 3; 4; 5; 6; 7] 1)
    as (ax1 & Hd & Hf & _).
  - repeat constructor. simpl. tauto.
  - reflexivity.
  - reflexivity.
  - reflexivity.
  - lia.
  - lia.
  - exists ax1. split; [exact Hd|].
    apply (Hf (Finite (25 # 10))). left. reflexivity.
Defined.


(** * The colour scale *)

(** On a finite float the mapper of each script is the mapper of its
    value. *)
Lemma mapper_main_finite (v : Q) :
  cmap_main_float (norm_main_float (Finite v)) = cmap_main (norm_main v).
Proof. reflexivity. Qed.

Lemma mapper_test_finite (v : Q) :
  cmap_test_float (norm_test_float (Finite v)) = cmap_test (norm_test v).
Proof. reflexivity. Qed.

Lemma py_min_finite (a b : Q) :
  py_min_float (Finite a) (Finite b) = Finite (py_min a b).
Proof.
  unfold py_min_float, py_min, Qltb. cbn [Float64.ltb].
  destruct (Qle_bool a b); reflexivity.
Qed.

Lemma py_max_finite (a b : Q) :
  py_max_float (Finite a) (Finite b) = Finite (py_max a b).
Proof.
  unfold py_max_float, py_max, Qltb. cbn [Float64.ltb].
  destruct (Qle_bool b a); reflexivity.
Qed.

Lemma clipped_finite (v : Q) : clipped_float (Finite v) = Finite (clipped v).
Proof. unfold clipped_float, clipped. rewrite py_min_finite, py_max_finite. reflexivity. Qed.

Lemma norm_main_eq (val : Q) : (norm_main val == (val + 5) * (1 # 10))%Q.
Proof.
  unfold norm_main, Mpl.Normalize_call. cbn [Mpl.vmin Mpl.vmax].
  unfold CalendarHeatmap.RETURN_MIN, CalendarHeatmap.RETURN_MAX.
  change (Qeq_bool (-5) 5) with false. cbv iota. field.
Qed.

Lemma index_over (cm : Mpl.Colormap) (X : Q) :
  0 < Mpl.N cm -> (1 < X)%Q -> Mpl.Colormap_index cm X = Mpl._i_over cm.
Proof.
  intros HN HX. unfold Mpl.Colormap_index.
  assert (inject_Z (Mpl.N cm) < X * inject_Z (Mpl.N cm))%Q as H.
  { assert (0 < inject_Z (Mpl.N cm))%Q as H0
        by (change 0%Q with (inject_Z 0); rewrite <- Zlt_Qlt; exact HN).
    setoid_replace (inject_Z (Mpl.N cm)) with (1 * inject_Z (Mpl.N cm))%Q at 1 by ring.
    apply Qmult_lt_compat_r; assumption. }
  destruct (Qeq_bool (X * inject_Z (Mpl.N cm)) (inject_Z (Mpl.N cm))) eqn:E.
  - apply Qeq_bool_eq in E. rewrite E in H. exfalso. apply (Qlt_irrefl _ H).
  - assert (Qle_bool (inject_Z (Mpl.N cm)) (X * inject_Z (Mpl.N cm)) = true) as ->
        by (apply Qle_bool_iff, Qlt_le_weak, H).
    reflexivity.
Qed.

Lemma index_under (cm : Mpl.Colormap) (X : Q) :
  0 < Mpl.N cm -> (X < 0)%Q -> Mpl.Colormap_index cm X = Mpl._i_under cm.
Proof.
  intros HN HX. unfold Mpl.Colormap_index.
  assert (0 < inject_Z (Mpl.N cm))%Q as H0
      by (change 0%Q with (inject_Z 0); rewrite <- Zlt_Qlt; exact HN).
  assert (X * inject_Z (Mpl.N cm) < 0)%Q as H.
  { setoid_replace 0%Q with (0 * inject_Z (Mpl.N cm))%Q by ring.
    apply Qmult_lt_compat_r; assumption. }
  destruct (Qeq_bool (X * inject_Z (Mpl.N cm)) (inject_Z (Mpl.N cm))) eqn:E.
  - apply Qeq_bool_eq in E. rewrite E in H. exfalso.
    apply (Qlt_irrefl 0). eapply Qlt_trans; eassumption.
  - destruct (Qle_bool (inject_Z (Mpl.N cm)) (X * inject_Z (Mpl.N cm))) eqn:E1.
    + apply Qle_bool_iff in E1. exfalso. apply (Qlt_irrefl 0).
      eapply Qlt_trans; [exact H0|]. eapply Qle_lt_trans; eassumption.
    + destruct (Qle_bool 0 (X * inject_Z (Mpl.N cm))) eqn:E2; [|reflexivity].
      apply Qle_bool_iff in E2. exfalso. apply (Qlt_irrefl 0).
      eapply Qle_lt_trans; eassumption.
Qed.

(** The colour map of [calendar_heatmap.py] saturates outside the domain. *)
Lemma cmap_main_saturates (val : Q) :
  ((CalendarHeatmap.RETURN_MAX < val)%Q ->
   cmap_main (norm_main val) = cmap_main (norm_main CalendarHeatmap.RETURN_MAX))
  /\ ((val < CalendarHeatmap.RETURN_MIN)%Q ->
      cmap_main (norm_main val) = cmap_main (norm_main CalendarHeatmap.RETURN_MIN)).
Proof.
  unfold CalendarHeatmap.RETURN_MAX, CalendarHeatmap.RETURN_MIN.
  pose proof (norm_main_eq val) as E. split; intros H.
  - unfold cmap_main at 1, Mpl.Colormap_call.
    rewrite index_over; [vm_compute; reflexivity|reflexivity|].
    rewrite E. lra.
  - unfold cmap_main at 1, Mpl.Colormap_call.
    rewrite index_under; [vm_compute; reflexivity|reflexivity|].
    rewrite E. lra.
Qed.

Lemma clip_above (val : Q) :
  (CalendarHeatmapTest.RETURN_MAX < val)%Q ->
  py_max (py_min val CalendarHeatmapTest.RETURN_MAX) CalendarHeatmapTest.RETURN_MIN
  = CalendarHeatmapTest.RETURN_MAX.
Proof.
  intros H. unfold py_min, Qltb.
  assert (Qle_bool val CalendarHeatmapTest.RETURN_MAX = false) as ->.
  { destruct (Qle_bool val CalendarHeatmapTest.RETURN_MAX) eqn:E; [|reflexivity].
    apply Qle_bool_iff in E. exfalso. apply (Qlt_irrefl val).
    eapply Qle_lt_trans; eassumption. }
  reflexivity.
Qed.

Lemma clip_below (val : Q) :
  (val < CalendarHeatmapTest.RETURN_MIN)%Q ->
  py_max (py_min val CalendarHeatmapTest.RETURN_MAX) CalendarHeatmapTest.RETURN_MIN
  = CalendarHeatmapTest.RETURN_MIN.
Proof.
  intros H. unfold py_min, py_max, Qltb,
    CalendarHeatmapTest.RETURN_MAX, CalendarHeatmapTest.RETURN_MIN in *.
  assert (Qle_bool val 5 = true) as -> by (apply Qle_bool_iff; lra).
  cbn [negb].
  assert (Qle_bool (-5) val = false) as ->.
  { destruct (Qle_bool (-5) val) eqn:E; [|reflexivity].
    apply Qle_bool_iff in E. lra. }
  reflexivity.
Qed.

(** C4. A value above the upper bound of the domain is painted with the
    colour of the bound itself, and a value below the lower bound with the
    colour of the lower bound; the drawing does not fail on such a value
    and the label of the cell shows the value as it is.  In
    [calendar_heatmap_test.py] the value is clipped before it is
    normalised, whatever [norm] and [cmap] are; in [calendar_heatmap.py]
    the colour map of the script saturates. *)
Theorem C4_out_of_domain_values_saturate
        (ax : Axes) (year month : Z) (df_month : MonthFrame)
        (month_days : list (list Z)) (w c : nat) (week : list Z) (day : Z)
        (val : Q) :
  NoDup (map fst df_month) ->
  PyCalendar.monthdayscalendar 0 year month = Ok month_days ->
  nth_error month_days w = Some week -> nth_error week c = Some day ->
  day <> 0 -> (c < 5)%nat ->
  In (date_str year month day, Finite val) df_month ->
  (val < -5 \/ 5 < val)%Q ->
  let bound : Q := if Qle_bool val 0 then (-5)%Q else 5%Q in
  let position :=
    (inject_Z (Z.of_nat c) + (1 # 2), inject_Z (- Z.of_nat w) + (6 # 10))%Q in
  (forall (norm : float64 -> float64) (cmap : float64 -> Mpl.rgba),
      exists ax1,
        CalendarHeatmapTest.draw_calendar ax year month df_month norm cmap = Ok ax1 /\
        In (mkRectangle (Z.of_nat c, - Z.of_nat w) 1 1 (8 # 10) "gray"
                        (RGBA (cmap (norm (Finite bound)))),
            mkText (fst position) (snd position)
                   (PyFormat.str day ++ PyFormat.nl
                    ++ PyFormat.format_plus_2f val ++ "%")%string
                   "center" "top" 7 (Some "black"%string))
           (combine (patches ax1) (texts ax1)))
  /\ (exists ax1,
         CalendarHeatmap.draw_calendar ax year month df_month
                                       norm_main_float cmap_main_float
         = Ok ax1 /\
         In (mkRectangle (Z.of_nat c, - Z.of_nat w) 1 1 (8 # 10) "lightgray"
                         (RGBA (cmap_main (norm_main bound))),
             mkText (fst position) (snd position)
                    (PyFormat.str day ++ PyFormat.nl
                     ++ PyFormat.format_2f val ++ "%")%string
                    "center" "top" 7 None)
            (combine (patches ax1) (texts ax1))).
Proof.
  intros Hn Hmd Hw Hc Hd H5 Hin Hout bound position.
  assert (py_max (py_min val CalendarHeatmapTest.RETURN_MAX) CalendarHeatmapTest.RETURN_MIN
          = bound /\ cmap_main (norm_main val) = cmap_main (norm_main bound)) as [Eb Ec].
  { unfold bound. destruct Hout as [Hlo|Hhi].
    - assert (Qle_bool val 0 = true) as -> by (apply Qle_bool_iff; lra).
      split; [apply clip_below; exact Hlo|].
      apply (proj2 (cmap_main_saturates val)). exact Hlo.
    - assert (Qle_bool val 0 = false) as ->.
      { destruct (Qle_bool val 0) eqn:E; [|reflexivity].
        apply Qle_bool_iff in E. lra. }
      split; [apply clip_above; exact Hhi|].
      apply (proj1 (cmap_main_saturates val)). exact Hhi. }
  split.
  - intros norm cmap. eexists.
    split; [apply draw_calendar_test; eassumption|].
    pose proof (drawn_cell (style_test norm cmap) (subplotspec ax)
                  (Some "white"%string) year month df_month month_days
                  (Z.of_nat (List.length month_days))
                  (title_of year month 13 (Some 12)) w c week day Hw Hc Hd H5) as H.
    cbv zeta in H. rewrite (cell_value_In df_month _ (Finite val) Hn Hin) in H.
    unfold rect_of, text_of, paint, style_test in H.
    cbn [value found fst snd day_of_month week_idx day_idx edge ink] in H.
    rewrite py_min_finite, py_max_finite, Eb in H. exact H.
  - eexists. split; [apply draw_calendar_main; eassumption|].
    pose proof (drawn_cell (style_main norm_main_float cmap_main_float) (subplotspec ax)
                  (ax_facecolor ax) year month df_month month_days
                  (Z.of_nat (List.length month_days))
                  (title_of year month 12 None) w c week day Hw Hc Hd H5) as H.
    cbv zeta in H. rewrite (cell_value_In df_month _ (Finite val) Hn Hin) in H.
    unfold rect_of, text_of, paint, style_main in H.
    cbn [value found fst snd day_of_month week_idx day_idx edge ink] in H.
    rewrite mapper_main_finite, Ec in H. exact H.
Qed.

Lemma C4_witness :
  exists ax1,
    CalendarHeatmapTest.draw_calendar (Ax.new (0, 0)) 2024 3
      [("2024-03-15"%string, Finite 7)] norm_test_float cmap_test_float = Ok ax1
    /\ In (mkRectangle (4, -2) 1 1 (8 # 10) "gray"
                       (RGBA (cmap_test (norm_test 5))),
           mkText (4 + (1 # 2)) (-2 + (6 # 10))
                  (String "1" (String "5" (String (ascii_of_nat 10) "+7.00%")))
                  "center" "top" 7 (Some "black"%string))
          (combine (patches ax1) (texts ax1)).
Proof.
  destruct (C4_out_of_domain_values_saturate (Ax.new (0, 0)) 2024 3
              [("2024-03-15"%string, Finite 7)]
              [[0; 0; 0; 0; 1; 2; 3]; [4; 5; 6; 7; 8; 9; 10];
               [11; 12; 13; 14; 15; 16; 17]; [18; 19; 20; 21; 22; 23; 24];
               [25; 26; 27; 28; 29; 30; 31]]
              2%nat 4%nat [11; 12; 13; 14; 15; 16; 17] 15 7%Q) as [Ht _].
  - repeat constructor. simpl. tauto.
  - reflexivity.
  - reflexivity.
  - reflexivity.
  - lia.
  - lia.
  - left. reflexivity.
  - right. reflexivity.
  - exact (Ht norm_test_float cmap_test_float).
Defined.


(** C5 (what the code does). A return of 0 is normalised to 0.5 and looked
    up in row 128 of the 256 rows of the table, which holds the colour at
    128/255 of the scale and not the white of the stop at 0.5: each
    channel is a little below 1.  The two ends of the domain are painted
    with the first and the last stop of the list. *)
Theorem C5_zero_is_painted_off_white :
  norm_main 0 == 1 # 2
  /\ Mpl.Colormap_index CalendarHeatmap.heatmap_cmap (norm_main 0) = 128
  /\ cmap_main (norm_main 0) = (254 # 255, 1697 # 1700, 254 # 255, 1)%Q
  /\ cmap_main (norm_main 0) <> white
  /\ cmap_main (norm_main CalendarHeatmap.RETURN_MIN) = (Qred (55 # 100), 0, 0, 1)%Q
  /\ cmap_main (norm_main CalendarHeatmap.RETURN_MAX) = (0, Qred (55 # 100), 0, 1)%Q
  /\ cmap_test (norm_test 0) = (4298 # 4335, 764 # 765, 4298 # 4335, 1)%Q
  /\ cmap_test (norm_test 0) <> white
  /\ cmap_test (norm_test CalendarHeatmapTest.RETURN_MIN) = Mpl.to_rgba "#8B0000"
  /\ cmap_test (norm_test CalendarHeatmapTest.RETURN_MAX) = Mpl.to_rgba "#006400".
Proof.
  repeat split; try (vm_compute; reflexivity); vm_compute; discriminate.
Qed.


(** * The average below a panel *)

Lemma day_values_NoDup (df : MonthFrame) (y m : Z) (l : list Z) :
  NoDup l -> NoDup (flat_map (day_value df y m) l).
Proof.
  induction 1 as [|a l Ha Hl IH]; simpl; [constructor|].
  unfold day_value at 1. destruct (cell_value df (date_str y m a)); simpl; [|exact IH].
  constructor; [|exact IH]. intros Hin. apply in_flat_map in Hin.
  destruct Hin as [d [Hd Hv]]. unfold day_value in Hv.
  destruct (cell_value df (date_str y m d)); simpl in Hv; [|contradiction].
  destruct Hv as [Hv|[]]. inversion Hv; subst. contradiction.
Qed.

Lemma shown_values_days (df : MonthFrame) (y m day1 : Z) (l : list Z) :
  shown_values (map (fun d => cell_at y m df (slot_of day1 d)) l)
  = map snd (flat_map (day_value df y m) l).
Proof.
  induction l as [|d l IH]; simpl; [reflexivity|].
  rewrite map_app, <- IH. unfold shown_values at 1. simpl.
  unfold day_value. destruct (cell_value df (date_str y m d)); reflexivity.
Qed.

(** Without weekend rows in the month, the cells show the values of the
    rows of the month, each once. *)
Lemma shown_values_perm (data : list Row) (y m : Z) :
  series_ok data -> 1 <= m <= 12 ->
  (forall r, In r data -> in_month y m r = true -> PyDatetime.weekday (Date r) < 5) ->
  Permutation
    (shown_values (month_cells y m (select_month data y m) (month_days_of y m)))
    (map snd (select_month data y m)).
Proof.
  intros Hs Hm Hwk. pose proof Hs as [Hok Hnd]. rewrite Forall_forall in Hok.
  rewrite month_cells_spec by assumption. rewrite shown_values_days.
  rewrite select_month_eq, map_map. cbn [snd].
  rewrite <- (map_map (fun r => (PyDatetime.day (Date r), Daily_Return r)) snd).
  apply Permutation_map. apply NoDup_Permutation.
  - apply day_values_NoDup, NoDup_filter, range_NoDup.
  - apply (NoDup_map_inv fst). rewrite map_map. cbn [fst].
    apply (NoDup_map_inj Date); [|apply NoDup_map_filter, Hnd].
    intros a b Ha Hb E. apply filter_In in Ha, Hb.
    destruct Ha as [_ Ha], Hb as [_ Hb]. apply in_month_true in Ha, Hb.
    apply date_eq; [lia|lia|exact E].
  - intros [d v]. split.
    + intros H. apply in_flat_map in H. destruct H as [d' [Hd' Hv]].
      apply filter_In in Hd'. destruct Hd' as [Hr _]. apply range_In in Hr.
      unfold day_value in Hv. rewrite <- select_month_eq in Hv.
      destruct (cell_value (select_month data y m) (date_str y m d')) as [v'|] eqn:E;
        [|destruct Hv].
      destruct Hv as [Hv|[]]. inversion Hv; subst.
      pose proof (days_in_month_bounds y m Hm).
      apply cell_value_inv in E; [|exact Hs|lia].
      destruct E as [r [Hin [Dr Vr]]]. apply in_map_iff. exists r.
      split; [rewrite Dr, Vr; reflexivity|].
      apply filter_In. split; [exact Hin|]. apply in_month_true. rewrite Dr. auto.
    + intros H. apply in_map_iff in H. destruct H as [r [E Hf]].
      inversion E; subst. apply filter_In in Hf. destruct Hf as [Hin Hmo].
      pose proof (Hwk r Hin Hmo) as Hw. apply in_month_true in Hmo.
      destruct Hmo as [Ey Em]. destruct (Hok r Hin) as [(Hy & Hmm & Hd) _].
      apply in_flat_map. exists (PyDatetime.day (Date r)). split.
      * apply filter_In. split; [apply range_In; subst; lia|].
        subst y m. rewrite is_weekday_weekday, date_eta. apply Z.ltb_lt, Hw.
      * unfold day_value. subst y m. rewrite <- select_month_eq.
        rewrite (cell_value_row data r Hs Hin).
        left. reflexivity.
Qed.

(** Without not-a-number entries, the mean is numpy's sum of all values
    divided by their number. *)
Lemma mean_without_nan (df : MonthFrame) :
  Forall (fun x => snd x <> NaN) df -> df <> [] ->
  mean df
  = Float64.of_binary64
      (Float64.div (np_sum (map (fun x => Float64.to_binary64 (snd x)) df))
                   (Float64.of_Z (Z.of_nat (List.length df)))).
Proof.
  intros Hn Hne. unfold mean.
  assert (filter (fun x => negb (Float64.isnan x)) (map snd df) = map snd df) as ->.
  { clear Hne. induction Hn as [|[k v] l Hv _ IH]; [reflexivity|].
    cbn [map snd filter] in *. destruct v; try (rewrite IH; reflexivity).
    exfalso. apply Hv. reflexivity. }
  assert (map (fun x => if Float64.isnan x then SpecFloat.S754_zero false
                        else Float64.to_binary64 x) (map snd df)
          = map (fun x => Float64.to_binary64 (snd x)) df) as ->.
  { rewrite map_map. apply map_ext_in. intros [k v] Hin.
    rewrite Forall_forall in Hn. specialize (Hn _ Hin). cbn [snd] in *.
    destruct v; try reflexivity. exfalso. apply Hn. reflexivity. }
  rewrite length_map. destruct df; [congruence|reflexivity].
Qed.

(** C6 (as amended). In [calendar_heatmap.py], below the grid of each
    month panel there is one line with the mean of the values of all rows
    of the series in that month, rows on Saturdays and Sundays included,
    with two decimals and a percent sign.  The mean is the one pandas
    computes: numpy's binary64 sum of the values divided by their number.
    When the month has no row on a weekend, the values averaged are the
    values that the cells show, each once.  A panel always has at least
    one row; the loop body would print nan% for a month without rows, but
    such a month is not among the months of the figure.  The panels of
    [calendar_heatmap_test.py] have no such line. *)
Theorem C6_average_of_the_rows_of_the_month
        (ticker : string) (start_date end_date : PyDatetime.date)
        (data : list Row) (i : nat) (y m : Z) :
  series_ok data ->
  nth_error (months_of data) i = Some (y, m) ->
  let df_month := select_month data y m in
  let month_days := month_days_of y m in
  let cells := month_cells y m df_month month_days in
  let weeks := Z.of_nat (List.length month_days) in
  let st := style_main norm_main_float cmap_main_float in
  (exists (fig : Figure) (ax : Axes),
      CalendarHeatmap.render ticker start_date end_date data = Ok fig /\
      nth_error (fig_axes fig) i = Some ax /\
      texts ax
      = map (text_of st) cells
        ++ [mkText (25 # 10) (inject_Z (- weeks) - (3 # 10))
                   ("Avg Daily Return:" ++ PyFormat.nl
                    ++ PyFormat.format_2f_float64 (mean df_month) ++ "%")%string
                   "center" "top" 8 (Some "black"%string)])
  /\ (exists (fig : Figure) (ax : Axes),
         CalendarHeatmapTest.render ticker start_date end_date data = Ok fig /\
         nth_error (fig_axes fig) i = Some ax /\
         texts ax = map (text_of (style_test norm_test_float cmap_test_float)) cells)
  /\ map snd df_month = map Daily_Return (filter (in_month y m) data)
  /\ df_month <> []
  /\ (Forall (fun r => Daily_Return r <> NaN) data ->
      mean df_month
      = Float64.of_binary64
          (Float64.div (np_sum (map (fun x => Float64.to_binary64 (snd x)) df_month))
                       (Float64.of_Z (Z.of_nat (List.length df_month)))))
  /\ ((forall r, In r data -> in_month y m r = true ->
                 PyDatetime.weekday (Date r) < 5) ->
      Permutation (shown_values cells) (map snd df_month)
      /\ List.length (shown_values cells) = List.length df_month)
  /\ (forall (pre post : list Axes) (ax0 : Axes) (y' m' : Z),
         1 <= y' <= 9999 -> 1 <= m' <= 12 -> select_month data y' m' = [] ->
         ~ In (y', m') (months_of data)
         /\ exists ax' : Axes,
             CalendarHeatmap.panel data norm_main_float cmap_main_float
                                   (pre ++ ax0 :: post)
                                   (Z.of_nat (List.length pre), (y', m'))
             = Ok (pre ++ ax' :: post)
             /\ texts ax'
                = map (text_of st) (month_cells y' m' [] (month_days_of y' m'))
                  ++ [mkText (25 # 10)
                             (inject_Z (- Z.of_nat (List.length (month_days_of y' m')))
                              - (3 # 10))
                             ("Avg Daily Return:" ++ PyFormat.nl ++ "nan%")%string
                             "center" "top" 8 (Some "black"%string)]).
Proof.
  intros Hs Hi df_month month_days cells weeks st.
  assert (In (y, m) (months_of data)) as Hin by (eapply nth_error_In; eauto).
  pose proof Hin as Hr. apply months_of_In in Hr. destruct Hr as [r [Hr E]].
  inversion E; subst y m. clear E.
  assert (data <> []) as Hne by (intros ->; contradiction).
  pose proof Hs as [Hok _]. rewrite Forall_forall in Hok.
  destruct (Hok r Hr) as [(Hy & Hm & Hd) _].
  assert (df_month <> []) as Hdf.
  { unfold df_month. rewrite select_month_eq.
    intros E. apply map_eq_nil in E.
    assert (In r (filter (in_month (PyDatetime.year (Date r))
                                   (PyDatetime.month (Date r))) data)) as F
        by (apply filter_In; split; [exact Hr|apply in_month_true; auto]).
    rewrite E in F. exact F. }
  split; [|split; [|split; [|split; [|split; [|split]]]]].
  - eexists. eexists. split; [apply render_main; assumption|].
    split; [cbn [fig_axes]; apply panel_at; exact Hi|]. reflexivity.
  - eexists. eexists. split; [apply render_test; assumption|].
    split; [cbn [fig_axes]; apply panel_at; exact Hi|]. reflexivity.
  - unfold df_month. rewrite select_month_eq, map_map. reflexivity.
  - exact Hdf.
  - intros Hnan. apply mean_without_nan; [|exact Hdf].
    apply Forall_forall. intros [k v] Hkv. unfold df_month in Hkv.
    rewrite select_month_eq in Hkv. apply in_map_iff in Hkv.
    destruct Hkv as [r' [E Hr']]. inversion E; subst. cbn [snd].
    apply filter_In in Hr'. rewrite Forall_forall in Hnan. apply Hnan, Hr'.
  - intros Hw.
    pose proof (shown_values_perm data _ _ Hs Hm Hw) as P.
    split; [exact P|].
    unfold cells, df_month, month_days. rewrite (Permutation_length P), length_map.
    reflexivity.
  - intros pre post ax0 y' m' Hy' Hm' He. split.
    + intros Hin'. apply months_of_In in Hin'. destruct Hin' as [r' [Hr' Ey]].
      inversion Ey; subst.
      assert (In (Date_str r', Daily_Return r')
                 (select_month data (PyDatetime.year (Date r'))
                               (PyDatetime.month (Date r')))) as F.
      { rewrite select_month_eq. apply in_map_iff. exists r'. split; [reflexivity|].
        apply filter_In. split; [exact Hr'|]. apply in_month_true. auto. }
      rewrite He in F. exact F.
    + eexists. split.
      * apply panel_main_spec. unfold good_month. cbn [fst snd].
        split; [exact Hy'|]. split; [exact Hm'|]. rewrite He. constructor.
      * unfold panel_main. cbn [fst snd]. rewrite He. reflexivity.
Qed.

(** Three months whose line is not the exact mean of the values in the
    cells.  On a Friday at 1 and a Saturday at -3 the only value in a
    cell is 1, but the line reads -1.00%.  With a single row, on a
    Saturday, no cell holds a value, and the line reads -3.00%, not nan%.
    With the closes 1250, 1200 and 1179 the line reads -2.88%, although
    the arithmetic mean of the two values shown, taken exactly, is
    printed as -2.87. *)
Lemma C6_average_counts_the_saturday :
  let line (fig : Figure) :=
    match nth_error (fig_axes fig) 0 with
    | Some ax => map text_s (skipn (List.length (patches ax)) (texts ax))
    | None => []
    end in
  let shown (data : list Row) :=
    shown_values (month_cells 2024 1 (select_month data 2024 1)
                              (month_days_of 2024 1)) in
  (exists fig : Figure,
      CalendarHeatmap.render "T" (PyDatetime.mkdate 2023 1 6)
                             (PyDatetime.mkdate 2024 1 6) friday_saturday = Ok fig
      /\ shown friday_saturday = [Finite 1]
      /\ line fig = [("Avg Daily Return:" ++ PyFormat.nl ++ "-1.00%")%string])
  /\ (exists fig : Figure,
         CalendarHeatmap.render "T" (PyDatetime.mkdate 2023 1 6)
                                (PyDatetime.mkdate 2024 1 6) saturday_only = Ok fig
         /\ shown saturday_only = []
         /\ line fig = [("Avg Daily Return:" ++ PyFormat.nl ++ "-3.00%")%string])
  /\ (exists (rows : list Row) (fig : Figure) (a b : Q),
         prepare three_closes "Close" = Ok rows
         /\ CalendarHeatmap.render "T" (PyDatetime.mkdate 2023 1 6)
                                   (PyDatetime.mkdate 2024 1 6) rows = Ok fig
         /\ shown rows = [Finite a; Finite b]
         /\ PyFormat.format_2f (arithmetic_mean [a; b]) = "-2.87"%string
         /\ line fig = [("Avg Daily Return:" ++ PyFormat.nl ++ "-2.88%")%string]).
Proof.
  split; [|split].
  - eexists. split; [vm_compute; reflexivity|].
    split; vm_compute; reflexivity.
  - eexists. split; [vm_compute; reflexivity|].
    split; vm_compute; reflexivity.
  - eexists. eexists. eexists. eexists.
    split; [vm_compute; reflexivity|].
    split; [vm_compute; reflexivity|].
    split; [vm_compute; reflexivity|].
    split; vm_compute; reflexivity.
Qed.

Lemma C6_witness :
  exists (fig : Figure) (ax : Axes),
    CalendarHeatmap.render "T" (PyDatetime.mkdate 2023 1 6)
                           (PyDatetime.mkdate 2024 1 6) friday_saturday = Ok fig
    /\ nth_error (fig_axes fig) 0 = Some ax
    /\ last (map text_s (texts ax)) EmptyString
       = ("Avg Daily Return:" ++ PyFormat.nl ++ "-1.00%")%string.
Proof.
  assert (series_ok friday_saturday) as Hs.
  { split.
    - repeat constructor; vm_compute; congruence.
    - repeat constructor; simpl; intuition congruence. }
  destruct (C6_average_of_the_rows_of_the_month "T" (PyDatetime.mkdate 2023 1 6)
              (PyDatetime.mkdate 2024 1 6) friday_saturday 0 2024 1 Hs eq_refl)
    as [(fig & ax & H1 & H2 & H3) _].
  exists fig, ax. split; [exact H1|]. split; [exact H2|].
  rewrite H3. vm_compute. reflexivity.
Defined.


(** * The layout of the panels *)

Lemma panels_length (f : Axes -> Z * Z -> Axes) (ms : list (Z * Z)) (axs : list Axes) :
  (List.length ms <= List.length axs)%nat ->
  List.length (panels f ms axs) = List.length axs.
Proof.
  revert axs. induction ms as [|ym ms IH]; intros axs H.
  - cbn [panels]. apply length_map.
  - destruct axs as [|ax axs]; [simpl in H; lia|].
    cbn [panels List.length] in *. rewrite IH by lia. reflexivity.
Qed.

Lemma blank_at (f : Axes -> Z * Z -> Axes) (months : list (Z * Z)) (j : nat) :
  (List.length months <= j)%nat ->
  Z.of_nat j < 4 * n_rows_of (List.length months) ->
  nth_error (panels f months
               (map new_at (PyCalendar.range 0 (4 * n_rows_of (List.length months))))) j
  = Some (Ax.axis_off (new_at (Z.of_nat j))).
Proof.
  intros H1 H2. rewrite panels_nth_error, new_at_nth_error by exact H2.
  assert (nth_error months j = None) as -> by (apply nth_error_None; exact H1).
  reflexivity.
Qed.

(** C7. The months that are laid out are in strictly ascending order of
    (year, month).  With four columns the figure has as many rows as the
    months need, rounded up; the panel of the month at position i is the
    axes in row i // 4 and column i % 4, and every axes after the last
    month is left without any cell or text and switched off. *)
Theorem C7_panels_in_month_order_row_by_row
        (ticker : string) (start_date end_date : PyDatetime.date)
        (data : list Row) :
  series_ok data -> data <> [] ->
  let months := months_of data in
  let n := List.length months in
  let n_rows := (Z.of_nat n + 4 - 1) / 4 in
  StronglySorted ym_lt months
  /\ 4 * (n_rows - 1) < Z.of_nat n <= 4 * n_rows
  /\ exists fig : Figure,
      CalendarHeatmap.render ticker start_date end_date data = Ok fig
      /\ Z.of_nat (List.length (fig_axes fig)) = n_rows * 4
      /\ (forall (i : nat) (y m : Z),
             nth_error months i = Some (y, m) ->
             exists ax : Axes,
               nth_error (fig_axes fig) i = Some ax
               /\ subplotspec ax = (Z.of_nat i / 4, Z.of_nat i mod 4)
               /\ title ax = Some (title_of y m 12 None)
               /\ patches ax
                  = map (rect_of (style_main norm_main_float cmap_main_float))
                        (month_cells y m (select_month data y m) (month_days_of y m)))
      /\ (forall j : nat,
             (n <= j)%nat -> Z.of_nat j < n_rows * 4 ->
             exists ax : Axes,
               nth_error (fig_axes fig) j = Some ax
               /\ subplotspec ax = (Z.of_nat j / 4, Z.of_nat j mod 4)
               /\ patches ax = [] /\ texts ax = [] /\ title ax = None
               /\ axison ax = false).
Proof.
  intros Hs Hne months n n_rows.
  split; [apply months_of_strict|].
  split; [unfold n_rows; Z.div_mod_to_equations; lia|].
  eexists. split; [apply render_main; assumption|]. cbn [fig_axes].
  fold months. fold n. change (n_rows_of n) with n_rows.
  assert (Z.of_nat n <= 4 * n_rows) as Hle by apply n_rows_enough.
  split; [|split].
  - rewrite panels_length; rewrite length_map, range_length; lia.
  - intros i y m Hi. eexists. split; [apply panel_at; exact Hi|].
    repeat split.
  - intros j H1 H2. eexists. split; [apply blank_at; [exact H1|]|].
    + change (n_rows_of (List.length months)) with n_rows. lia.
    + repeat split.
Qed.

Lemma C7_witness :
  exists fig : Figure,
    CalendarHeatmap.render "T" (PyDatetime.mkdate 2023 1 6)
                           (PyDatetime.mkdate 2024 1 6) friday_saturday = Ok fig
    /\ Z.of_nat (List.length (fig_axes fig)) = 4.
Proof.
  assert (series_ok friday_saturday) as Hs.
  { split.
    - repeat constructor; vm_compute; congruence.
    - repeat constructor; simpl; intuition congruence. }
  destruct (C7_panels_in_month_order_row_by_row "T" (PyDatetime.mkdate 2023 1 6)
              (PyDatetime.mkdate 2024 1 6) friday_saturday Hs ltac:(discriminate))
    as (_ & _ & fig & H1 & H2 & _).
  exists fig. split; [exact H1|exact H2].
Defined.

(** * Empty input *)

(** C8. When the downloaded table has no row, the script prints its
    message and exits: no figure is built and nothing is saved.  The same
    holds for both scripts.  A prepared frame without rows makes the
    figure fail before any month is drawn. *)
Theorem C8_empty_input_exits_before_drawing
        (ticker : string) (start_date end_date : PyDatetime.date)
        (data : Download) :
  index data = [] ->
  CalendarHeatmap.main ticker start_date end_date data
  = mkOutcome ["No data fetched. Check the ticker symbol and try again."%string]
              None Exited
  /\ CalendarHeatmapTest.main ticker start_date end_date data
     = mkOutcome ["No data fetched. Check the ticker symbol and try again."%string]
                 None Exited
  /\ CalendarHeatmap.render ticker start_date end_date []
     = Raise (ValueError "Number of rows must be a positive integer")
  /\ CalendarHeatmapTest.render ticker start_date end_date []
     = Raise (ValueError "Number of rows must be a positive integer").
Proof.
  intros H. unfold CalendarHeatmap.main, CalendarHeatmapTest.main, empty.
  rewrite H. repeat split; reflexivity.
Qed.

Lemma C8_witness :
  CalendarHeatmap.main "T" (PyDatetime.mkdate 2023 1 6) (PyDatetime.mkdate 2024 1 6)
                       (mkDownload (Index ["Close"%string]) [] [])
  = mkOutcome ["No data fetched. Check the ticker symbol and try again."%string]
              None Exited.
Proof.
  apply (C8_empty_input_exits_before_drawing "T" (PyDatetime.mkdate 2023 1 6)
           (PyDatetime.mkdate 2024 1 6) (mkDownload (Index ["Close"%string]) [] [])).
  reflexivity.
Defined.


(** * The colour of a value *)

(** With both bounds given, a call of [norm] returns the normalised value
    and leaves the object as it is. *)
Lemma norm_main_call (v : float64) :
  MplObject.Normalize__call__ (MplObject.norm mapper_main) v
  = Ok (norm_main_float v, MplObject.norm mapper_main).
Proof. destruct v; reflexivity. Qed.

Lemma norm_test_call (v : float64) :
  MplObject.Normalize__call__ (MplObject.norm mapper_test) v
  = Ok (norm_test_float v, MplObject.norm mapper_test).
Proof. destruct v; reflexivity. Qed.

(** The first call of a colour map builds its table, a later call finds
    it; the colour is the same. *)
Lemma cmap_call (cm : MplObject.LinearSegmentedColormap) (X : float64) :
  MplObject._isinit cm = false ->
  MplObject.Colormap__call__ cm X
  = (Mpl.Colormap__call__
       (Mpl.LinearSegmentedColormap (MplObject.red cm) (MplObject.green cm)
                                    (MplObject.blue cm) (MplObject.N cm)) X,
     MplObject._init cm)
  /\ MplObject.Colormap__call__ (MplObject._init cm) X
     = (Mpl.Colormap__call__
          (Mpl.LinearSegmentedColormap (MplObject.red cm) (MplObject.green cm)
                                       (MplObject.blue cm) (MplObject.N cm)) X,
        MplObject._init cm).
Proof.
  intros H. unfold MplObject.Colormap__call__. rewrite H.
  cbn [MplObject._isinit MplObject._init MplObject.N MplObject._lut].
  split; reflexivity.
Qed.

Lemma map_value_shared (m : MplObject.Mapper) (nf : float64 -> float64)
      (v : float64) :
  (forall x, MplObject.Normalize__call__ (MplObject.norm m) x
             = Ok (nf x, MplObject.norm m)) ->
  MplObject._isinit (MplObject.cmap m) = false ->
  let colour :=
    Mpl.Colormap__call__
      (Mpl.LinearSegmentedColormap
         (MplObject.red (MplObject.cmap m)) (MplObject.green (MplObject.cmap m))
         (MplObject.blue (MplObject.cmap m)) (MplObject.N (MplObject.cmap m)))
      (nf v) in
  MplObject.map_value m v = Ok (colour, called m)
  /\ MplObject.map_value (called m) v = Ok (colour, called m).
Proof.
  intros Hn Hi colour.
  destruct (cmap_call (MplObject.cmap m) (nf v) Hi) as [E1 E2].
  unfold MplObject.map_value, called. cbn [MplObject.norm MplObject.cmap].
  rewrite Hn. cbn [bind fst snd]. rewrite E1, E2. split; reflexivity.
Qed.

Lemma map_value_main (v : float64) :
  MplObject.map_value mapper_main v
  = Ok (cmap_main_float (norm_main_float v), called mapper_main)
  /\ MplObject.map_value (called mapper_main) v
     = Ok (cmap_main_float (norm_main_float v), called mapper_main).
Proof. exact (map_value_shared mapper_main norm_main_float v norm_main_call eq_refl). Qed.

Lemma map_value_test (v : float64) :
  MplObject.map_value mapper_test v
  = Ok (cmap_test_float (norm_test_float v), called mapper_test)
  /\ MplObject.map_value (called mapper_test) v
     = Ok (cmap_test_float (norm_test_float v), called mapper_test).
Proof. exact (map_value_shared mapper_test norm_test_float v norm_test_call eq_refl). Qed.

(** A run of calls on the same objects. *)
Lemma map_values_pure (m : MplObject.Mapper) (f : float64 -> Mpl.rgba) :
  (forall v, MplObject.map_value m v = Ok (f v, called m)
             /\ MplObject.map_value (called m) v = Ok (f v, called m)) ->
  forall vals,
    MplObject.map_values m vals
    = Ok (map f vals, match vals with [] => m | _ :: _ => called m end).
Proof.
  intros H.
  assert (forall vals, MplObject.map_values (called m) vals
                       = Ok (map f vals, called m)) as Hc.
  { induction vals as [|v vals IH]; [reflexivity|].
    cbn [MplObject.map_values]. rewrite (proj2 (H v)). cbn [bind snd fst].
    rewrite IH. reflexivity. }
  intros [|v vals]; [reflexivity|].
  cbn [MplObject.map_values]. rewrite (proj1 (H v)). cbn [bind snd fst].
  rewrite Hc. reflexivity.
Qed.

(** The colours that the panels of a figure got from the colour map. *)
Lemma mapped_colours_cells (st : Style) (f : float64 -> Mpl.rgba)
      (cells : list CalendarCell) :
  (forall day v, fst (found st day v) = RGBA (f v)) ->
  (exists name, fst (missing st) = Named name) ->
  flat_map (fun p => mapped_colour (facecolor p)) (map (rect_of st) cells)
  = map f (shown_values cells).
Proof.
  intros Hf [name Hm]. induction cells as [|c cells IH]; [reflexivity|].
  cbn [map flat_map]. rewrite IH. unfold shown_values at 2. cbn [flat_map].
  fold (shown_values cells). unfold rect_of at 1, paint. cbn [facecolor].
  destruct (value c) as [v|].
  - rewrite Hf. reflexivity.
  - rewrite Hm. reflexivity.
Qed.

Lemma mapped_colours_panels (panel : Axes -> Z * Z -> Axes) (st : Style)
      (f : float64 -> Mpl.rgba) (data : list Row) :
  (forall ax ym,
      patches (panel ax ym)
      = map (rect_of st)
            (month_cells (fst ym) (snd ym) (select_month data (fst ym) (snd ym))
                         (month_days_of (fst ym) (snd ym)))) ->
  (forall day v, fst (found st day v) = RGBA (f v)) ->
  (exists name, fst (missing st) = Named name) ->
  forall (months : list (Z * Z)) (axes : list Axes),
    (List.length months <= List.length axes)%nat ->
    Forall (fun ax => patches ax = []) axes ->
    mapped_colours (panels panel months axes)
    = map f (flat_map (fun ym => shown_values
                                   (month_cells (fst ym) (snd ym)
                                                (select_month data (fst ym) (snd ym))
                                                (month_days_of (fst ym) (snd ym))))
                      months).
Proof.
  intros Hp Hf Hm. induction months as [|ym ms IH]; intros axes Hl Ha.
  - cbn [panels flat_map map]. unfold mapped_colours. clear Hl.
    induction Ha as [|ax axes Hax _ IHa]; [reflexivity|].
    cbn [map flat_map]. rewrite IHa. unfold Ax.axis_off. cbn [patches].
    rewrite Hax. reflexivity.
  - destruct axes as [|ax axes]; [cbn [List.length] in Hl; lia|].
    inversion Ha as [|? ? _ Ha']; subst.
    cbn [panels flat_map]. unfold mapped_colours in *. cbn [flat_map].
    rewrite map_app, IH; [|cbn [List.length] in Hl; lia|exact Ha'].
    rewrite Hp, (mapped_colours_cells st f _ Hf Hm). reflexivity.
Qed.

Lemma fresh_axes_have_no_patches (n : Z) :
  Forall (fun ax => patches ax = []) (map new_at (PyCalendar.range 0 n)).
Proof. apply Forall_forall. intros ax H. apply in_map_iff in H. destruct H as [j [<- _]]. reflexivity. Qed.

(** C9. The mapping from a value to its colour is a function of the value
    alone, although the objects behind it have state.  [norm] and [cmap]
    are objects that all cells share; the colour map builds its lookup
    table at the first call.  Whatever values are mapped, and in whatever
    order, each one gets the colour [cmap(norm(v))] that it would get on
    its own, from the first call as from any later one, and the objects
    are left in one and the same state; in [calendar_heatmap_test.py] the
    value is clipped first.  The colours of the cells of a figure are the
    colours that the calls on the shared objects return, in the order of
    the calls. *)
Theorem C9_colour_depends_on_the_value_only :
  (MplObject._isinit (MplObject.cmap mapper_main) = false
   /\ MplObject._isinit (MplObject.cmap (called mapper_main)) = true
   /\ forall (vals : list float64) (v : float64),
       MplObject.map_values mapper_main vals
       = Ok (map (fun v => cmap_main_float (norm_main_float v)) vals,
             match vals with [] => mapper_main | _ :: _ => called mapper_main end)
       /\ MplObject.map_values mapper_main (vals ++ [v; v])
          = Ok (map (fun v => cmap_main_float (norm_main_float v)) vals
                ++ [cmap_main_float (norm_main_float v);
                    cmap_main_float (norm_main_float v)],
                called mapper_main)
       /\ MplObject.map_values mapper_test (map clipped_float vals)
          = Ok (map (fun v => cmap_test_float (norm_test_float (clipped_float v))) vals,
                match vals with [] => mapper_test | _ :: _ => called mapper_test end))
  /\ (forall (ticker : string) (start_date end_date : PyDatetime.date)
             (data : list Row),
         series_ok data -> data <> [] ->
         exists (fig fig' : Figure) (cs cs' : list Mpl.rgba)
                (m m' : MplObject.Mapper),
           CalendarHeatmap.render ticker start_date end_date data = Ok fig
           /\ MplObject.map_values mapper_main (mapped_values data) = Ok (cs, m)
           /\ mapped_colours (fig_axes fig) = cs
           /\ CalendarHeatmapTest.render ticker start_date end_date data = Ok fig'
           /\ MplObject.map_values mapper_test (map clipped_float (mapped_values data))
              = Ok (cs', m')
           /\ mapped_colours (fig_axes fig') = cs').
Proof.
  split.
  - split; [reflexivity|]. split; [reflexivity|]. intros vals v.
    split; [apply (map_values_pure mapper_main _ map_value_main)|].
    split.
    + rewrite (map_values_pure mapper_main _ map_value_main), map_app.
      destruct vals; reflexivity.
    + rewrite (map_values_pure mapper_test _ map_value_test), map_map.
      destruct vals; reflexivity.
  - intros ticker start_date end_date data Hs Hne.
    do 6 eexists.
    split; [apply render_main; assumption|].
    split; [apply (map_values_pure mapper_main _ map_value_main)|].
    split.
    { cbn [fig_axes]. unfold mapped_values.
      apply (mapped_colours_panels _ (style_main norm_main_float cmap_main_float)
               (fun v => cmap_main_float (norm_main_float v)) data).
      - intros ax ym. reflexivity.
      - intros day v. reflexivity.
      - exists "white"%string. reflexivity.
      - rewrite length_map, range_length.
        pose proof (n_rows_enough (List.length (months_of data))). lia.
      - apply fresh_axes_have_no_patches. }
    split; [apply render_test; assumption|].
    split; [apply (map_values_pure mapper_test _ map_value_test)|].
    cbn [fig_axes]. unfold mapped_values. rewrite map_map.
    rewrite <- (map_map clipped_float (fun v => cmap_test_float (norm_test_float v))).
    rewrite map_map.
    apply (mapped_colours_panels _ (style_test norm_test_float cmap_test_float)
             (fun v => cmap_test_float (norm_test_float (clipped_float v))) data).
    + intros ax ym. reflexivity.
    + intros day v. reflexivity.
    + exists "#FFFFFF"%string. reflexivity.
    + rewrite length_map, range_length.
      pose proof (n_rows_enough (List.length (months_of data))). lia.
    + apply fresh_axes_have_no_patches.
Qed.

(** A value of 2.5 is mapped to the same green after a loss, after a
    gain, and first of all; the Friday of [friday_saturday] is painted
    with the colour of its value 1. *)
Lemma C9_witness :
  (exists m m' : MplObject.Mapper,
      MplObject.map_values mapper_main [Finite (-3); Finite (25 # 10)]
      = Ok ([(73 # 100, 2 # 5, 2 # 5, 1)%Q;
             (42 # 85, 1313 # 1700, 42 # 85, 1)%Q], m)
      /\ MplObject.map_values mapper_main [Finite (25 # 10); Finite 4; Finite (25 # 10)]
         = Ok ([(42 # 85, 1313 # 1700, 42 # 85, 1)%Q;
                (cmap_main (norm_main 4));
                (42 # 85, 1313 # 1700, 42 # 85, 1)%Q], m'))
  /\ exists fig : Figure,
      CalendarHeatmap.render "T" (PyDatetime.mkdate 2023 1 6)
                             (PyDatetime.mkdate 2024 1 6) friday_saturday = Ok fig
      /\ mapped_colours (fig_axes fig) = [cmap_main (norm_main 1)].
Proof.
  destruct C9_colour_depends_on_the_value_only as [(_ & _ & Hp) Hf].
  split.
  - do 2 eexists. split.
    + rewrite (proj1 (Hp [Finite (-3); Finite (25 # 10)] NaN)).
      vm_compute. reflexivity.
    + rewrite (proj1 (Hp [Finite (25 # 10); Finite 4; Finite (25 # 10)] NaN)).
      vm_compute. reflexivity.
  - assert (series_ok friday_saturday) as Hs.
    { split.
      - repeat constructor; vm_compute; congruence.
      - repeat constructor; simpl; intuition congruence. }
    destruct (Hf "T"%string (PyDatetime.mkdate 2023 1 6) (PyDatetime.mkdate 2024 1 6)
                 friday_saturday Hs ltac:(discriminate))
      as (fig & _ & cs & _ & m & _ & H1 & H2 & H3 & _).
    exists fig. split; [exact H1|]. rewrite H3.
    rewrite (proj1 (Hp (mapped_values friday_saturday) NaN)) in H2.
    inversion H2. vm_compute. reflexivity.
Defined.

(** The state matters where a bound is left open: a [Normalize] without
    an upper bound takes it from the first value it is called on, and a
    return of 0 then gets one colour after a first value of 5 and another
    one when it comes first. *)
Lemma open_bound_depends_on_the_first_value :
  exists (c c' c1 c2 : Mpl.rgba) (m1 m2 : MplObject.Mapper),
    MplObject.map_values mapper_half_bounded [Finite 5; Finite 0] = Ok ([c; c1], m1)
    /\ MplObject.map_values mapper_half_bounded [Finite 0; Finite 0] = Ok ([c'; c2], m2)
    /\ c1 <> c2.
Proof.
  do 6 eexists. split; [vm_compute; reflexivity|].
  split; [vm_compute; reflexivity|]. vm_compute. discriminate.
Qed.

(** * Drawing twice *)

Lemma draw_day_main_frame (y m : Z) (df : MonthFrame) (norm : float64 -> float64)
      (cmap : float64 -> Mpl.rgba) (w : Z) (a : Axes) (s : Z * Z) (a1 b : Axes) :
  same_frame a b ->
  CalendarHeatmap.draw_day y m df norm cmap w a s = Ok a1 -> same_frame a1 b.
Proof.
  intros Hf. destruct s as [c d]. unfold CalendarHeatmap.draw_day.
  destruct (d =? 0); [intros H; inversion H; subst; exact Hf|].
  destruct (c >=? 5); [intros H; inversion H; subst; exact Hf|].
  destruct (index_contains df (date_str y m d)).
  - destruct (loc df (date_str y m d)) as [|v [|v' l]]; cbn [bind];
      intros H; inversion H; subst; exact Hf.
  - cbn [bind]. intros H; inversion H; subst; exact Hf.
Qed.

Lemma draw_day_test_frame (y m : Z) (df : MonthFrame) (norm : float64 -> float64)
      (cmap : float64 -> Mpl.rgba) (w : Z) (a : Axes) (s : Z * Z) (a1 b : Axes) :
  same_frame a b ->
  CalendarHeatmapTest.draw_day y m df norm cmap w a s = Ok a1 -> same_frame a1 b.
Proof.
  intros Hf. destruct s as [c d]. unfold CalendarHeatmapTest.draw_day.
  destruct (d =? 0); [intros H; inversion H; subst; exact Hf|].
  destruct (c >=? 5); [intros H; inversion H; subst; exact Hf|].
  destruct (index_contains df (date_str y m d)).
  - destruct (loc df (date_str y m d)) as [|v [|v' l]]; cbn [bind];
      intros H; inversion H; subst; exact Hf.
  - cbn [bind]. intros H; inversion H; subst; exact Hf.
Qed.

Lemma draw_calendar_main_frame (ax : Axes) (y m : Z) (df : MonthFrame)
      (norm : float64 -> float64) (cmap : float64 -> Mpl.rgba) (ax1 : Axes) :
  CalendarHeatmap.draw_calendar ax y m df norm cmap = Ok ax1 ->
  Ax.cla ax1 = Ax.cla ax.
Proof.
  unfold CalendarHeatmap.draw_calendar.
  destruct (PyCalendar.monthdayscalendar 0 y m) as [md|e]; cbn [bind]; [|discriminate].
  destruct (for_each _ _ _) as [a|e] eqn:E; cbn [bind]; [|discriminate].
  intros H. inversion H; subst. clear H.
  assert (same_frame a ax) as [H1 H2].
  { eapply (for_each_invariant (fun s => same_frame s ax)); [| |exact E];
      [|split; reflexivity].
    intros s [w week] s1 Hs Hb. unfold CalendarHeatmap.draw_week in Hb.
    eapply (for_each_invariant (fun s => same_frame s ax)); [|exact Hs|exact Hb].
    intros s2 sl s3 Hs2 Hd. eapply draw_day_main_frame; eassumption. }
  unfold Ax.cla. cbn [subplotspec ax_facecolor Ax.axis_off Ax.set_title Ax.set_yticks
    Ax.tick_params Ax.set_xticklabels Ax.set_xticks Ax.set_ylim Ax.set_xlim].
  rewrite H1, H2. reflexivity.
Qed.

Lemma draw_calendar_test_frame (ax : Axes) (y m : Z) (df : MonthFrame)
      (norm : float64 -> float64) (cmap : float64 -> Mpl.rgba) (ax1 : Axes) :
  CalendarHeatmapTest.draw_calendar ax y m df norm cmap = Ok ax1 ->
  Ax.set_facecolor "white" (Ax.cla ax1) = Ax.set_facecolor "white" (Ax.cla ax).
Proof.
  unfold CalendarHeatmapTest.draw_calendar.
  destruct (PyCalendar.monthdayscalendar 0 y m) as [md|e]; cbn [bind]; [|discriminate].
  destruct (for_each _ _ _) as [a|e] eqn:E; cbn [bind]; [|discriminate].
  intros H. inversion H; subst. clear H.
  assert (same_frame a (Ax.set_facecolor "white" (Ax.cla ax))) as [H1 H2].
  { eapply (for_each_invariant (fun s => same_frame s (Ax.set_facecolor "white" (Ax.cla ax))));
      [| |exact E]; [|split; reflexivity].
    intros s [w week] s1 Hs Hb. unfold CalendarHeatmapTest.draw_week in Hb.
    eapply (for_each_invariant (fun s => same_frame s (Ax.set_facecolor "white" (Ax.cla ax))));
      [|exact Hs|exact Hb].
    intros s2 sl s3 Hs2 Hd. eapply draw_day_test_frame; eassumption. }
  unfold Ax.cla, Ax.set_facecolor.
  cbn [subplotspec ax_facecolor patches texts xlim ylim xticks xticklabels yticks
       tick_left tick_bottom title axison Ax.axis_off Ax.set_title Ax.set_yticks
       Ax.tick_params Ax.set_xticklabels Ax.set_xticks Ax.set_ylim Ax.set_xlim] in *.
  rewrite H1. reflexivity.
Qed.

(** C10. Drawing a month twice in a row on the same axes, with the same
    arguments, leaves the axes as drawing it once does, in both scripts:
    the second call clears what the first one drew.  When the first call
    raises, so does the sequence. *)
Theorem C10_drawing_twice_is_drawing_once
        (ax : Axes) (year month : Z) (df_month : MonthFrame)
        (norm : float64 -> float64) (cmap : float64 -> Mpl.rgba) :
  (ax1 <- CalendarHeatmap.draw_calendar ax year month df_month norm cmap ;;
   CalendarHeatmap.draw_calendar ax1 year month df_month norm cmap)
  = CalendarHeatmap.draw_calendar ax year month df_month norm cmap
  /\ (ax1 <- CalendarHeatmapTest.draw_calendar ax year month df_month norm cmap ;;
      CalendarHeatmapTest.draw_calendar ax1 year month df_month norm cmap)
     = CalendarHeatmapTest.draw_calendar ax year month df_month norm cmap.
Proof.
  split.
  - destruct (CalendarHeatmap.draw_calendar ax year month df_month norm cmap)
      as [ax1|e] eqn:E; cbn [bind]; [|reflexivity].
    pose proof (draw_calendar_main_frame _ _ _ _ _ _ _ E) as F.
    rewrite <- E. unfold CalendarHeatmap.draw_calendar. rewrite F. reflexivity.
  - destruct (CalendarHeatmapTest.draw_calendar ax year month df_month norm cmap)
      as [ax1|e] eqn:E; cbn [bind]; [|reflexivity].
    pose proof (draw_calendar_test_frame _ _ _ _ _ _ _ E) as F.
    rewrite <- E. unfold CalendarHeatmapTest.draw_calendar. rewrite F. reflexivity.
Qed.


(** * Which binary64 operations can give not-a-number *)

Lemma shr_1_nonneg (mrs : SpecFloat.shr_record) :
  0 <= SpecFloat.shr_m mrs -> 0 <= SpecFloat.shr_m (SpecFloat.shr_1 mrs).
Proof.
  destruct mrs as [m r s]. cbn [SpecFloat.shr_m]. intros H.
  destruct m as [|p|p]; [cbn; lia| |lia].
  destruct p; cbn; lia.
Qed.

Lemma iter_shr_1_nonneg (p : positive) (mrs : SpecFloat.shr_record) :
  0 <= SpecFloat.shr_m mrs ->
  0 <= SpecFloat.shr_m (SpecFloat.iter_pos SpecFloat.shr_1 p mrs).
Proof.
  revert mrs. induction p as [p IH|p IH|]; intros mrs H; cbn [SpecFloat.iter_pos].
  - apply IH, IH, shr_1_nonneg, H.
  - apply IH, IH, H.
  - apply shr_1_nonneg, H.
Qed.

Lemma shr_fexp_nonneg (m e : Z) (l : SpecFloat.location) :
  0 <= m ->
  0 <= SpecFloat.shr_m (fst (SpecFloat.shr_fexp Float64.prec Float64.emax m e l)).
Proof.
  intros H. unfold SpecFloat.shr_fexp, SpecFloat.shr.
  assert (0 <= SpecFloat.shr_m (SpecFloat.shr_record_of_loc m l)) as H0
      by (destruct l as [|[| |]]; exact H).
  destruct (_ - e) as [|p|p]; cbn [fst]; [exact H0| |exact H0].
  apply iter_shr_1_nonneg, H0.
Qed.

Lemma round_nearest_even_nonneg (m : Z) (l : SpecFloat.location) :
  0 <= m -> 0 <= SpecFloat.round_nearest_even m l.
Proof.
  intros H. unfold SpecFloat.round_nearest_even.
  destruct l as [|[| |]]; try lia. destruct (Z.even m); lia.
Qed.

Lemma binary_round_aux_not_nan (s : bool) (m e : Z) (l : SpecFloat.location) :
  0 <= m ->
  Float64.is_nan (SpecFloat.binary_round_aux Float64.prec Float64.emax s m e l) = false.
Proof.
  intros H. unfold SpecFloat.binary_round_aux.
  pose proof (shr_fexp_nonneg m e l H) as H1.
  destruct (SpecFloat.shr_fexp Float64.prec Float64.emax m e l) as [mrs' e'].
  cbn [fst] in H1.
  pose proof (shr_fexp_nonneg _ e' SpecFloat.loc_Exact
                (round_nearest_even_nonneg _ (SpecFloat.loc_of_shr_record mrs') H1)) as H2.
  destruct (SpecFloat.shr_fexp Float64.prec Float64.emax _ e' SpecFloat.loc_Exact)
    as [mrs'' e''].
  cbn [fst] in H2.
  destruct (SpecFloat.shr_m mrs'') as [|p|p]; [reflexivity| |lia].
  destruct (e'' <=? _); reflexivity.
Qed.

Lemma binary_normalize_not_nan (m e : Z) (z : bool) :
  Float64.is_nan (SpecFloat.binary_normalize Float64.prec Float64.emax m e z) = false.
Proof.
  unfold SpecFloat.binary_normalize, SpecFloat.binary_round.
  destruct m as [|p|p]; [reflexivity| |];
    destruct (SpecFloat.shl_align _ _ _) as [mz ez];
    apply binary_round_aux_not_nan; lia.
Qed.

(** The quotient of two numbers other than 0 is a number, a zero or an
    infinity. *)
Lemma div_not_nan (s s' : bool) (m m' : positive) (e e' : Z) :
  Float64.is_nan (Float64.div (SpecFloat.S754_finite s m e)
                              (SpecFloat.S754_finite s' m' e')) = false.
Proof.
  unfold Float64.div, SpecFloat.SFdiv, SpecFloat.SFdiv_core_binary.
  destruct (Z.div_eucl _ (Z.pos m')) as [q r] eqn:E.
  apply binary_round_aux_not_nan.
  assert (q = fst (Z.div_eucl
                     match e - e' - Z.min (SpecFloat.fexp Float64.prec Float64.emax
                                            (SpecFloat.Zdigits2 (Z.pos m) + e
                                             - (SpecFloat.Zdigits2 (Z.pos m') + e')))
                                          (e - e') with
                     | 0 => Z.pos m
                     | Z.pos _ => Z.shiftl (Z.pos m) (e - e' - Z.min (SpecFloat.fexp Float64.prec Float64.emax
                                            (SpecFloat.Zdigits2 (Z.pos m) + e
                                             - (SpecFloat.Zdigits2 (Z.pos m') + e')))
                                          (e - e'))
                     | Z.neg _ => 0
                     end (Z.pos m'))) as -> by (rewrite E; reflexivity).
  change (fst (Z.div_eucl ?a ?b)) with (a / b).
  apply Z.div_pos; [|lia].
  destruct (e - e' - _) as [|p|p] eqn:Es; [lia| |lia].
  apply Z.shiftl_nonneg. lia.
Qed.

(** Subtracting or multiplying by a number other than 0 does not turn a
    float into not-a-number. *)
Lemma sub_not_nan (x : Float64.binary64) (s : bool) (m : positive) (e : Z) :
  Float64.is_nan x = false ->
  Float64.is_nan (Float64.sub x (SpecFloat.S754_finite s m e)) = false.
Proof.
  intros H. destruct x as [sx|sx| |sx mx ex]; try discriminate H; try reflexivity.
  unfold Float64.sub, SpecFloat.SFsub. apply binary_normalize_not_nan.
Qed.

Lemma mul_not_nan (x : Float64.binary64) (s : bool) (m : positive) (e : Z) :
  Float64.is_nan x = false ->
  Float64.is_nan (Float64.mul x (SpecFloat.S754_finite s m e)) = false.
Proof.
  intros H. destruct x as [sx|sx| |sx mx ex]; try discriminate H; try reflexivity.
  unfold Float64.mul, SpecFloat.SFmul. apply binary_round_aux_not_nan. lia.
Qed.

(** The return of a price after a price is not not-a-number. *)
Lemma return_not_nan (q p : Q) :
  is_price q = true -> is_price p = true ->
  Float64.is_nan (return_of q p) = false.
Proof.
  unfold is_price, return_of. intros Hq Hp.
  destruct (Float64.of_Q q) as [| | |sq mq eq]; try discriminate Hq.
  destruct (Float64.of_Q p) as [| | |sp mp ep]; try discriminate Hp.
  change (Float64.of_Z 100) with (SpecFloat.S754_finite false 7036874417766400 (-46)).
  change (Float64.of_Z 1) with (SpecFloat.S754_finite false 4503599627370496 (-52)).
  apply mul_not_nan, sub_not_nan, div_not_nan.
Qed.


(** * From the download to the figure *)

Lemma prepare_rows (idx : list PyDatetime.date) (rets : list Float64.binary64)
      (r : Row) :
  In r (flat_map (fun dr : PyDatetime.date * Float64.binary64 =>
                    if Float64.is_nan (snd dr) then []
                    else [mkRow (strftime_Ymd (fst dr)) (fst dr)
                                (Float64.of_binary64 (snd dr))])
                 (combine idx rets)) ->
  In (Date r) idx /\ Date_str r = strftime_Ymd (Date r) /\ Daily_Return r <> NaN.
Proof.
  intros H. apply in_flat_map in H. destruct H as [[d o] [Hc Hr]].
  apply in_combine_l in Hc. cbn [fst snd] in Hr.
  destruct o as [s|s| |s m e]; cbn [Float64.is_nan] in Hr;
    try destruct Hr as [<-|[]]; try contradiction;
    cbn [Date Date_str Daily_Return Float64.of_binary64];
    (split; [exact Hc|split; [reflexivity|]]);
    try destruct s; discriminate.
Qed.

Lemma prepare_dates_NoDup (idx : list PyDatetime.date) (rets : list Float64.binary64) :
  NoDup idx ->
  NoDup (map Date
             (flat_map (fun dr : PyDatetime.date * Float64.binary64 =>
                          if Float64.is_nan (snd dr) then []
                          else [mkRow (strftime_Ymd (fst dr)) (fst dr)
                                      (Float64.of_binary64 (snd dr))])
                       (combine idx rets))).
Proof.
  revert rets. induction idx as [|d idx IH]; intros rets Hn; [constructor|].
  destruct rets as [|o rets]; [constructor|].
  inversion Hn as [|? ? Hd Hi]; subst. cbn [combine flat_map snd fst].
  destruct (Float64.is_nan o); cbn [app map Date]; [apply IH, Hi|].
  constructor; [|apply IH, Hi].
  intros Hin. apply in_map_iff in Hin. destruct Hin as [r [E Hr]].
  apply prepare_rows in Hr. destruct Hr as [Hr _]. rewrite E in Hr. contradiction.
Qed.

(** The prepared frame of a download with valid, distinct dates is a
    well-formed series without not-a-number. *)
Lemma prepare_series_ok (data : Download) (close_col : string) (rows : list Row) :
  Forall valid_date (index data) -> NoDup (index data) ->
  prepare data close_col = Ok rows ->
  series_ok rows /\ Forall (fun r => Daily_Return r <> NaN) rows.
Proof.
  intros Hv Hn. unfold prepare.
  destruct (1 <? _)%nat; [discriminate|]. intros E. inversion E as [E']. clear E.
  split; [split|].
  - apply Forall_forall. intros r Hr. apply prepare_rows in Hr.
    destruct Hr as (Hin & Hs & _). split; [|exact Hs].
    rewrite Forall_forall in Hv. apply Hv, Hin.
  - apply prepare_dates_NoDup, Hn.
  - apply Forall_forall. intros r Hr. apply prepare_rows in Hr. apply Hr.
Qed.

(** With a close label that occurs once, the frame is prepared; its first
    row is the second row of the table when the first two closes are
    prices. *)
Lemma prepare_nonempty (data : Download) (close_col : string)
      (d0 d1 : PyDatetime.date) (ds : list PyDatetime.date)
      (c0 c1 : Q) (cs : list Q) :
  count_occ string_dec (flatten_columns (columns data)) close_col = 1%nat ->
  index data = d0 :: d1 :: ds -> closes_of data close_col = c0 :: c1 :: cs ->
  is_price c0 = true -> is_price c1 = true ->
  exists rows, prepare data close_col = Ok (return_row (d1, (c0, c1)) :: rows).
Proof.
  intros Hu Hi Hc H0 H1. unfold prepare. rewrite Hu, Hi. cbn [Nat.ltb Nat.leb].
  unfold closes_of in Hc. rewrite <- (map_map _ Float64.of_Q), Hc.
  cbn [map pct_change combine flat_map fst snd Float64.is_nan].
  fold (return_of c0 c1). rewrite (return_not_nan c0 c1 H0 H1).
  eexists. reflexivity.
Qed.

(** X1. A download whose close label occurs once, with at least two rows
    on valid and distinct dates, the first two closes being numbers other
    than 0, is prepared into a well-formed series, drawn and saved: the
    script runs to its end. *)
Theorem main_saves_the_figure
        (ticker : string) (start_date end_date : PyDatetime.date) (data : Download)
        (close_col : string) (others : list string)
        (d0 d1 : PyDatetime.date) (ds : list PyDatetime.date)
        (c0 c1 : Q) (cs : list Q) :
  possible_close_cols (flatten_columns (columns data)) = close_col :: others ->
  count_occ string_dec (flatten_columns (columns data)) close_col = 1%nat ->
  index data = d0 :: d1 :: ds -> closes_of data close_col = c0 :: c1 :: cs ->
  is_price c0 = true -> is_price c1 = true ->
  Forall valid_date (index data) -> NoDup (index data) ->
  exists (rows : list Row) (fig : Figure),
    prepare data close_col = Ok rows
    /\ series_ok rows
    /\ CalendarHeatmap.render ticker start_date end_date rows = Ok fig
    /\ CalendarHeatmap.main ticker start_date end_date data
       = mkOutcome [("Saved heatmap to " ++ output_path ticker)%string]
                   (Some (output_path ticker, fig)) Completed
    /\ fig_colorbar fig
       = mkColorbar (2 # 10, 4 # 100, 6 # 10, 3 # 100)%Q CalendarHeatmap.heatmap_cmap
                    (Mpl.mkNormalize CalendarHeatmap.RETURN_MIN CalendarHeatmap.RETURN_MAX)
                    "horizontal" "Daily Return %".
Proof.
  intros Hc Hu Hi Hcl H0 H1 Hd Hn.
  destruct (prepare_nonempty data close_col d0 d1 ds c0 c1 cs Hu Hi Hcl H0 H1)
    as [rows Hp].
  destruct (prepare_series_ok data close_col _ Hd Hn Hp) as [Hs _].
  pose proof (render_main ticker start_date end_date _ Hs ltac:(discriminate)) as R.
  eexists. eexists. split; [exact Hp|]. split; [exact Hs|].
  split; [exact R|]. split; [|reflexivity].
  unfold CalendarHeatmap.main.
  assert (empty data = false) as ->.
  { unfold empty. rewrite Hi. cbn [List.length Nat.eqb orb].
    destruct (columns data) as [names|tuples]; cbn [len_columns flatten_columns] in *.
    - destruct names; [discriminate Hc|reflexivity].
    - destruct tuples; [discriminate Hc|reflexivity]. }
  rewrite Hc, Hp. cbn [bind]. rewrite R. reflexivity.
Qed.

Lemma main_saves_the_figure_example :
  exists fig : Figure,
    CalendarHeatmap.main "T" (PyDatetime.mkdate 2023 1 8) (PyDatetime.mkdate 2024 1 8)
      (mkDownload (MultiIndex [["Close"; "T"]; ["Volume"; "T"]]%string)
                  [PyDatetime.mkdate 2024 1 4; PyDatetime.mkdate 2024 1 5]
                  [[100; 7]; [101; 9]]%Q)
    = mkOutcome [("Saved heatmap to " ++ output_path "T")%string]
                (Some (output_path "T", fig)) Completed.
Proof.
  destruct (main_saves_the_figure "T" (PyDatetime.mkdate 2023 1 8)
              (PyDatetime.mkdate 2024 1 8)
              (mkDownload (MultiIndex [["Close"; "T"]; ["Volume"; "T"]]%string)
                          [PyDatetime.mkdate 2024 1 4; PyDatetime.mkdate 2024 1 5]
                          [[100; 7]; [101; 9]]%Q)
              "Close T"%string [] (PyDatetime.mkdate 2024 1 4)
              (PyDatetime.mkdate 2024 1 5) [] 100%Q 101%Q [])
    as (rows & fig & _ & _ & _ & H & _).
  - reflexivity.
  - reflexivity.
  - reflexivity.
  - reflexivity.
  - reflexivity.
  - reflexivity.
  - repeat constructor; vm_compute; congruence.
  - repeat constructor; simpl; intuition congruence.
  - exists fig. exact H.
Defined.

(** * The cells are the weekdays of the month *)

(** X2. In a month from 1 to 12 of a year from 1 to 9999 the grid has as many
    week rows as a Monday-first calendar needs, and [draw_calendar] draws
    one cell for each day of the month that falls on Monday to Friday, in
    the order of the days, in the column of its weekday and the row of its
    week; padding slots and weekend days get no cell. *)
Theorem cells_are_the_weekdays_of_the_month
        (ax : Axes) (year month : Z) (df_month : MonthFrame)
        (norm : float64 -> float64) (cmap : float64 -> Mpl.rgba) :
  1 <= year <= 9999 -> 1 <= month <= 12 -> NoDup (map fst df_month) ->
  let day1 := PyDatetime.weekday (PyDatetime.mkdate year month 1) in
  let ndays := PyDatetime._days_in_month year month in
  exists (month_days : list (list Z)) (ax1 : Axes),
    PyCalendar.monthdayscalendar 0 year month = Ok month_days
    /\ Z.of_nat (List.length month_days) = (day1 + ndays + 6) / 7
    /\ CalendarHeatmap.draw_calendar ax year month df_month norm cmap = Ok ax1
    /\ patches ax1 = map (rect_of (style_main norm cmap))
                         (month_cells year month df_month month_days)
    /\ texts ax1 = map (text_of (style_main norm cmap))
                       (month_cells year month df_month month_days)
    /\ map day_of_month (month_cells year month df_month month_days)
       = filter (fun d => PyDatetime.weekday (PyDatetime.mkdate year month d) <? 5)
                (PyCalendar.range 1 (ndays + 1))
    /\ Forall (fun c =>
                 day_idx c = PyDatetime.weekday (PyDatetime.mkdate year month (day_of_month c))
                 /\ week_idx c = (day1 + day_of_month c - 1) / 7
                 /\ value c = cell_value df_month (date_str year month (day_of_month c)))
              (month_cells year month df_month month_days).
Proof.
  intros Hy Hm Hn day1 ndays.
  exists (month_days_of year month). eexists.
  split; [apply monthdayscalendar_ok; assumption|].
  split; [apply month_weeks_spec; assumption|].
  split; [apply draw_calendar_main; [exact Hn|apply monthdayscalendar_ok; assumption]|].
  split; [reflexivity|]. split; [reflexivity|].
  rewrite month_cells_spec by assumption. split.
  - rewrite map_map. cbn [day_of_month cell_at slot_of snd]. rewrite map_id.
    apply filter_ext. intros d. apply is_weekday_weekday.
  - apply Forall_forall. intros c Hc. apply in_map_iff in Hc.
    destruct Hc as [d [<- _]]. cbn [day_idx week_idx day_of_month value cell_at slot_of fst snd].
    split; [|split; reflexivity]. symmetry. apply weekday_of_day.
Qed.

Lemma cells_are_the_weekdays_of_the_month_example :
  exists (month_days : list (list Z)) (ax1 : Axes),
    PyCalendar.monthdayscalendar 0 2024 2 = Ok month_days
    /\ Z.of_nat (List.length month_days) = 5
    /\ CalendarHeatmap.draw_calendar (Ax.new (0, 0)) 2024 2 [] norm_main_float cmap_main_float = Ok ax1.
Proof.
  destruct (cells_are_the_weekdays_of_the_month (Ax.new (0, 0)) 2024 2 []
              norm_main_float cmap_main_float ltac:(lia) ltac:(lia) ltac:(constructor))
    as (md & ax1 & H1 & H2 & H3 & _).
  exists md, ax1. split; [exact H1|]. split; [exact H2|exact H3].
Defined.

(** * The panels of the second script *)

(** X3. [calendar_heatmap_test.py] lays its panels out as the first script
    does: panel i on the axes in row i // 4 and column i % 4, without the
    line of the average, and every later axes empty and switched off. *)
Theorem test_script_panels_row_by_row
        (ticker : string) (start_date end_date : PyDatetime.date)
        (data : list Row) :
  series_ok data -> data <> [] ->
  let months := months_of data in
  let n_rows := (Z.of_nat (List.length months) + 4 - 1) / 4 in
  exists fig : Figure,
    CalendarHeatmapTest.render ticker start_date end_date data = Ok fig
    /\ Z.of_nat (List.length (fig_axes fig)) = n_rows * 4
    /\ (forall (i : nat) (y m : Z),
           nth_error months i = Some (y, m) ->
           exists ax : Axes,
             nth_error (fig_axes fig) i = Some ax
             /\ subplotspec ax = (Z.of_nat i / 4, Z.of_nat i mod 4)
             /\ patches ax
                = map (rect_of (style_test norm_test_float cmap_test_float))
                      (month_cells y m (select_month data y m) (month_days_of y m))
             /\ texts ax
                = map (text_of (style_test norm_test_float cmap_test_float))
                      (month_cells y m (select_month data y m) (month_days_of y m)))
    /\ (forall j : nat,
           (List.length months <= j)%nat -> Z.of_nat j < n_rows * 4 ->
           exists ax : Axes,
             nth_error (fig_axes fig) j = Some ax
             /\ patches ax = [] /\ texts ax = [] /\ axison ax = false).
Proof.
  intros Hs Hne months n_rows.
  eexists. split; [apply render_test; assumption|]. cbn [fig_axes].
  fold months. change (n_rows_of (List.length months)) with n_rows.
  assert (Z.of_nat (List.length months) <= 4 * n_rows) as Hle by apply n_rows_enough.
  split; [|split].
  - rewrite panels_length; rewrite length_map, range_length; lia.
  - intros i y m Hi. eexists. split; [apply panel_at; exact Hi|]. repeat split.
  - intros j H1 H2. eexists. split; [apply blank_at; [exact H1|]|].
    + change (n_rows_of (List.length months)) with n_rows. lia.
    + repeat split.
Qed.

Lemma test_script_panels_row_by_row_example :
  exists fig : Figure,
    CalendarHeatmapTest.render "T" (PyDatetime.mkdate 2023 1 6)
                               (PyDatetime.mkdate 2024 1 6) friday_saturday = Ok fig
    /\ Z.of_nat (List.length (fig_axes fig)) = 4.
Proof.
  assert (series_ok friday_saturday) as Hs.
  { split.
    - repeat constructor; vm_compute; congruence.
    - repeat constructor; simpl; intuition congruence. }
  destruct (test_script_panels_row_by_row "T" (PyDatetime.mkdate 2023 1 6)
              (PyDatetime.mkdate 2024 1 6) friday_saturday Hs ltac:(discriminate))
    as (fig & H1 & H2 & _).
  exists fig. split; [exact H1|exact H2].
Defined.


(** * The preparation of the download *)

Lemma filter_none {A : Type} (p : A -> bool) (l : list A) :
  Forall (fun x => p x = false) l -> filter p l = [].
Proof.
  induction 1 as [|x l Hx _ IH]; simpl; [reflexivity|]. rewrite Hx. exact IH.
Qed.

(** X4. A table that has rows and columns but no column whose name, in
    lower case, starts with close makes both scripts print that the close
    column was not found and exit: nothing is drawn and nothing is
    saved. *)
Theorem missing_close_column_exits
        (ticker : string) (start_date end_date : PyDatetime.date) (data : Download) :
  index data <> [] -> len_columns (columns data) <> O ->
  Forall (fun col => PyStr.startswith (PyStr.lower col) "close" = false)
         (flatten_columns (columns data)) ->
  CalendarHeatmap.main ticker start_date end_date data
  = mkOutcome ["Close price column not found after flattening."%string] None Exited
  /\ CalendarHeatmapTest.main ticker start_date end_date data
     = mkOutcome ["Close price column not found after flattening."%string] None Exited.
Proof.
  intros Hi Hc Hn. unfold CalendarHeatmap.main, CalendarHeatmapTest.main.
  assert (empty data = false) as ->.
  { unfold empty. destruct (index data); [congruence|].
    destruct (len_columns (columns data)); [congruence|]. reflexivity. }
  unfold possible_close_cols. rewrite (filter_none _ _ Hn). split; reflexivity.
Qed.

Lemma missing_close_column_exits_example :
  CalendarHeatmap.main "T" (PyDatetime.mkdate 2023 1 8) (PyDatetime.mkdate 2024 1 8)
    (mkDownload (Index ["Open"; "Adj Close"]%string)
                [PyDatetime.mkdate 2024 1 4; PyDatetime.mkdate 2024 1 5]
                [[100; 7]; [101; 9]]%Q)
  = mkOutcome ["Close price column not found after flattening."%string] None Exited.
Proof.
  apply (missing_close_column_exits "T" (PyDatetime.mkdate 2023 1 8)
           (PyDatetime.mkdate 2024 1 8)
           (mkDownload (Index ["Open"; "Adj Close"]%string)
                       [PyDatetime.mkdate 2024 1 4; PyDatetime.mkdate 2024 1 5]
                       [[100; 7]; [101; 9]]%Q)).
  - discriminate.
  - simpl. discriminate.
  - repeat constructor.
Defined.

Lemma prepare_single (data : Download) (close_col : string) (d0 : PyDatetime.date) :
  index data = [d0] ->
  prepare data close_col
  = if (1 <? count_occ string_dec (flatten_columns (columns data)) close_col)%nat
    then Raise (ValueError
           "Cannot set a DataFrame with multiple columns to the single column Daily Return %")
    else Ok [].
Proof.
  intros Hi. unfold prepare. rewrite Hi.
  destruct (1 <? _)%nat; [reflexivity|].
  destruct (values data) as [|v vs]; reflexivity.
Qed.

(** X5. A table with a close column and exactly one row passes the check
    for an empty table, but its only return is not-a-number and is
    dropped: no month is left, [plt.subplots(0, 4)] raises, and both
    scripts end with that error, with nothing printed and nothing saved.
    (When the label of the close column occurs more than once, the
    assignment of the return column has raised before; the scripts end
    with a [ValueError] in both cases.) *)
Theorem single_row_download_fails
        (ticker : string) (start_date end_date : PyDatetime.date) (data : Download)
        (close_col : string) (others : list string) (d0 : PyDatetime.date) :
  possible_close_cols (flatten_columns (columns data)) = close_col :: others ->
  index data = [d0] ->
  exists msg : string,
    CalendarHeatmap.main ticker start_date end_date data
    = mkOutcome [] None (Failed (ValueError msg))
    /\ CalendarHeatmapTest.main ticker start_date end_date data
       = mkOutcome [] None (Failed (ValueError msg))
    /\ (count_occ string_dec (flatten_columns (columns data)) close_col = 1%nat ->
        msg = "Number of rows must be a positive integer"%string).
Proof.
  intros Hc Hi. unfold CalendarHeatmap.main, CalendarHeatmapTest.main.
  assert (empty data = false) as ->.
  { unfold empty. rewrite Hi. cbn [List.length Nat.eqb orb].
    destruct (columns data) as [names|tuples]; cbn [len_columns flatten_columns] in *.
    - destruct names; [discriminate Hc|reflexivity].
    - destruct tuples; [discriminate Hc|reflexivity]. }
  rewrite Hc, (prepare_single data close_col d0 Hi).
  destruct (1 <? _)%nat eqn:E.
  - eexists. split; [reflexivity|]. split; [reflexivity|].
    intros Hu. rewrite Hu in E. discriminate E.
  - eexists. split; [reflexivity|]. split; [reflexivity|]. reflexivity.
Qed.

Lemma single_row_download_fails_example :
  CalendarHeatmap.main "T" (PyDatetime.mkdate 2023 1 8) (PyDatetime.mkdate 2024 1 8)
    (mkDownload (Index ["Close"]%string) [PyDatetime.mkdate 2024 1 5] [[100]]%Q)
  = mkOutcome [] None (Failed (ValueError "Number of rows must be a positive integer")).
Proof.
  destruct (single_row_download_fails "T" (PyDatetime.mkdate 2023 1 8)
              (PyDatetime.mkdate 2024 1 8)
              (mkDownload (Index ["Close"]%string) [PyDatetime.mkdate 2024 1 5] [[100]]%Q)
              "Close"%string [] (PyDatetime.mkdate 2024 1 5) eq_refl eq_refl)
    as (msg & H & _ & Hm).
  rewrite H, (Hm eq_refl). reflexivity.
Defined.


Lemma combine_nil_r {A B : Type} (l : list A) : combine l (@nil B) = [].
Proof. destruct l; reflexivity. Qed.

Lemma returns_after (idx : list PyDatetime.date) (prev : Q) (closes : list Q) :
  flat_map (fun dr : PyDatetime.date * Float64.binary64 =>
              if Float64.is_nan (snd dr) then []
              else [mkRow (strftime_Ymd (fst dr)) (fst dr)
                          (Float64.of_binary64 (snd dr))])
           (combine idx (map (fun r => Float64.mul r (Float64.of_Z 100))
                             (pct_change (Some (Float64.of_Q prev))
                                         (map Float64.of_Q closes))))
  = flat_map (fun x : PyDatetime.date * (Q * Q) =>
                if Float64.is_nan (return_of (fst (snd x)) (snd (snd x))) then []
                else [return_row x])
             (combine idx (combine (prev :: closes) closes)).
Proof.
  revert idx prev. induction closes as [|c closes IH]; intros idx prev.
  - simpl. rewrite !combine_nil_r. reflexivity.
  - destruct idx as [|d idx]; [reflexivity|].
    cbn [pct_change map combine flat_map snd fst].
    rewrite IH. reflexivity.
Qed.

(** The prepared frame in closed form: one row for each pair of
    consecutive closes whose return is not not-a-number. *)
Lemma prepare_closed_form (data : Download) (close_col : string) :
  count_occ string_dec (flatten_columns (columns data)) close_col = 1%nat ->
  prepare data close_col
  = Ok (flat_map (fun x : PyDatetime.date * (Q * Q) =>
                    if Float64.is_nan (return_of (fst (snd x)) (snd (snd x))) then []
                    else [return_row x])
                 (combine (tl (index data))
                          (combine (closes_of data close_col)
                                   (tl (closes_of data close_col))))).
Proof.
  intros Hu. unfold prepare. rewrite Hu. cbn [Nat.ltb Nat.leb]. f_equal.
  rewrite <- (map_map _ Float64.of_Q). fold (closes_of data close_col).
  destruct (closes_of data close_col) as [|c0 cs].
  - simpl. rewrite !combine_nil_r. reflexivity.
  - destruct (index data) as [|d0 ds]; [reflexivity|].
    cbn [pct_change map combine flat_map snd Float64.is_nan app tl].
    apply returns_after.
Qed.

Lemma rows_of_prices (idx : list PyDatetime.date) (pairs : list (Q * Q)) :
  Forall (fun qp => is_price (fst qp) = true /\ is_price (snd qp) = true) pairs ->
  flat_map (fun x : PyDatetime.date * (Q * Q) =>
              if Float64.is_nan (return_of (fst (snd x)) (snd (snd x))) then []
              else [return_row x])
           (combine idx pairs)
  = map return_row (combine idx pairs).
Proof.
  intros H. revert idx. induction H as [|[q p] pairs [Hq Hp] _ IH]; intros idx.
  - rewrite combine_nil_r. reflexivity.
  - destruct idx as [|d idx]; [reflexivity|].
    cbn [combine flat_map map fst snd]. cbn [fst snd] in Hq, Hp.
    rewrite (return_not_nan q p Hq Hp), IH. reflexivity.
Qed.

Lemma consecutive_prices (l : list Q) :
  Forall (fun c => is_price c = true) l ->
  Forall (fun qp => is_price (fst qp) = true /\ is_price (snd qp) = true)
         (combine l (tl l)).
Proof.
  intros H. apply Forall_forall. intros [q p] Hin.
  rewrite Forall_forall in H. cbn [fst snd]. split.
  - apply H. eapply in_combine_l, Hin.
  - apply H. apply in_combine_r in Hin. destruct l; [destruct Hin|right; exact Hin].
Qed.

Lemma combine_self_tl_length (l : list Q) :
  List.length (combine l (tl l)) = (List.length l - 1)%nat.
Proof.
  rewrite length_combine. destruct l; cbn [tl List.length]; lia.
Qed.

Lemma map_fst_combine {A B : Type} (l : list A) (l' : list B) :
  List.length l = List.length l' -> map fst (combine l l') = l.
Proof.
  revert l'. induction l as [|a l IH]; intros [|b l'] H; simpl in *; try lia;
    [reflexivity|]. rewrite IH by lia. reflexivity.
Qed.

(** X6. When the label of the close column occurs once and every close
    is a number other than 0, the prepared frame holds one row for every
    row of the table but the first: its date is the date of the table
    row, its label the formatted date, and its return the binary64 result
    of dividing the close by the close of the row before, subtracting 1
    and multiplying by 100.  The first date of the table never reaches
    the calendar.  From 100 to 110 the return is 10.000000000000009. *)
Theorem returns_of_consecutive_closes (data : Download) (close_col : string) :
  count_occ string_dec (flatten_columns (columns data)) close_col = 1%nat ->
  Forall (fun c => is_price c = true) (closes_of data close_col) ->
  List.length (values data) = List.length (index data) ->
  exists rows : list Row,
    prepare data close_col = Ok rows
    /\ rows = map return_row
                  (combine (tl (index data))
                           (combine (closes_of data close_col)
                                    (tl (closes_of data close_col))))
    /\ map Date rows = tl (index data)
    /\ List.length rows = (List.length (index data) - 1)%nat
    /\ Forall (fun r => Daily_Return r <> NaN) rows.
Proof.
  intros Hu Hp Hl. eexists. split; [apply prepare_closed_form, Hu|].
  rewrite rows_of_prices by (apply consecutive_prices, Hp).
  assert (List.length (tl (index data))
          = List.length (combine (closes_of data close_col) (tl (closes_of data close_col))))
    as E.
  { rewrite combine_self_tl_length. unfold closes_of. rewrite length_map, Hl.
    destruct (index data); cbn [tl List.length]; lia. }
  split; [reflexivity|]. split; [|split].
  - rewrite map_map. cbn [Date return_row]. rewrite <- (map_map fst (fun d => d)).
    rewrite map_fst_combine by exact E. apply map_id.
  - rewrite length_map, length_combine, <- E, Nat.min_id.
    destruct (index data); simpl; lia.
  - apply Forall_forall. intros r Hr. apply in_map_iff in Hr.
    destruct Hr as [[d [q p]] [<- Hin]]. apply in_combine_r in Hin.
    pose proof (consecutive_prices _ Hp) as Hc. rewrite Forall_forall in Hc.
    destruct (Hc _ Hin) as [Hq Hp']. cbn [fst snd] in Hq, Hp'.
    pose proof (return_not_nan q p Hq Hp') as Hn.
    unfold return_row. cbn [Daily_Return fst snd].
    destruct (return_of q p) as [s|s| |s m e]; try discriminate Hn;
      try destruct s; discriminate.
Qed.

Lemma returns_of_consecutive_closes_example :
  prepare (mkDownload (Index ["Open"; "Close"]%string)
                      [PyDatetime.mkdate 2024 1 4; PyDatetime.mkdate 2024 1 5;
                       PyDatetime.mkdate 2024 1 8]
                      [[7; 100]; [9; 110]; [9; 99]]%Q) "Close"
  = Ok [mkRow "2024-01-05" (PyDatetime.mkdate 2024 1 5)
              (Finite (5629499534213125 # 562949953421312));
        mkRow "2024-01-08" (PyDatetime.mkdate 2024 1 8)
              (Finite (-5629499534213119 # 562949953421312))].
Proof.
  destruct (returns_of_consecutive_closes
              (mkDownload (Index ["Open"; "Close"]%string)
                          [PyDatetime.mkdate 2024 1 4; PyDatetime.mkdate 2024 1 5;
                           PyDatetime.mkdate 2024 1 8]
                          [[7; 100]; [9; 110]; [9; 99]]%Q) "Close")
    as (rows & H1 & H2 & _).
  - reflexivity.
  - repeat constructor.
  - reflexivity.
  - rewrite H1, H2. vm_compute. reflexivity.
Defined.

(** * The close column *)

(** X7. The close column is the first column, in the order of the table,
    whose name in lower case starts with close; the prices are read at its
    position, and no column before it qualifies. *)
Theorem close_column_is_the_first_match
        (cols : list string) (close_col : string) (others : list string) :
  possible_close_cols cols = close_col :: others ->
  exists before after : list string,
    cols = before ++ close_col :: after
    /\ PyStr.startswith (PyStr.lower close_col) "close" = true
    /\ Forall (fun c => PyStr.startswith (PyStr.lower c) "close" = false) before
    /\ position close_col cols = List.length before
    /\ nth_error cols (position close_col cols) = Some close_col.
Proof.
  unfold possible_close_cols. induction cols as [|c cols IH]; intros H;
    [discriminate H|].
  cbn [filter] in H. destruct (PyStr.startswith (PyStr.lower c) "close") eqn:E.
  - inversion H; subst. exists [], cols. cbn [app position List.length].
    rewrite String.eqb_refl. repeat split; auto.
  - destruct (IH H) as (before & after & Hc & Hs & Hb & Hp & Hn).
    exists (c :: before), after. cbn [app position List.length].
    assert (String.eqb c close_col = false) as ->.
    { destruct (String.eqb c close_col) eqn:Q; [|reflexivity].
      apply String.eqb_eq in Q. subst. congruence. }
    rewrite Hp. repeat split; auto.
    + rewrite Hc. reflexivity.
    + cbn [nth_error]. rewrite <- Hp. exact Hn.
Qed.

Lemma close_column_is_the_first_match_example :
  exists before after : list string,
    ["Adj Close"; "close T"; "Close T"]%string = before ++ "close T"%string :: after
    /\ position "close T" ["Adj Close"; "close T"; "Close T"]%string = List.length before.
Proof.
  destruct (close_column_is_the_first_match
              ["Adj Close"; "close T"; "Close T"]%string "close T"%string
              ["Close T"%string] ltac:(reflexivity))
    as (before & after & H1 & _ & _ & H2 & _).
  exists before, after. split; assumption.
Defined.


(** * Looking a date up *)

(** X8. The key that [draw_calendar] builds for a day is the index label
    of the row of that date and of no other row: in the frame of a month
    of a well-formed series, the key of a day is in the index exactly when
    the series has a row for that date, and the lookup then returns the
    return of that row alone. *)
Theorem lookup_finds_the_row_of_the_date
        (data : list Row) (year month day : Z) :
  series_ok data -> 1 <= day <= 31 ->
  let df_month := select_month data year month in
  let key := date_str year month day in
  (index_contains df_month key = true
   <-> exists r, In r data /\ Date r = PyDatetime.mkdate year month day)
  /\ (forall r, In r data -> Date r = PyDatetime.mkdate year month day ->
                key = Date_str r /\ loc df_month key = [Daily_Return r])
  /\ ((forall r, In r data -> Date r <> PyDatetime.mkdate year month day) ->
      loc df_month key = []).
Proof.
  intros Hs Hd df_month key.
  assert (forall r, In r data -> Date r = PyDatetime.mkdate year month day ->
                    key = Date_str r /\ In (key, Daily_Return r) df_month) as Hrow.
  { intros r Hr Dr. pose proof Hs as [Hok _]. rewrite Forall_forall in Hok.
    pose proof (row_label r (Hok r Hr)) as L. rewrite Dr in L. simpl in L.
    split; [symmetry; exact L|]. unfold df_month. rewrite select_month_eq.
    apply in_map_iff. exists r. split; [unfold key; rewrite L; reflexivity|].
    apply filter_In. split; [exact Hr|]. apply in_month_true. rewrite Dr. auto. }
  assert (In key (map fst df_month) ->
          exists r, In r data /\ Date r = PyDatetime.mkdate year month day) as Hinv.
  { intros Hin. apply in_map_iff in Hin. destruct Hin as [[k v] [E Hin]].
    simpl in E. subst k.
    assert (cell_value df_month key = Some v) as C
        by (apply cell_value_In; [apply select_month_NoDup, Hs|exact Hin]).
    apply cell_value_inv in C; [|exact Hs|exact Hd].
    destruct C as [r [Hr [Dr _]]]. exists r. auto. }
  split; [|split].
  - rewrite index_contains_In. split; [exact Hinv|].
    intros [r [Hr Dr]]. destruct (Hrow r Hr Dr) as [_ Hin].
    apply in_map_iff. exists (key, Daily_Return r). auto.
  - intros r Hr Dr. destruct (Hrow r Hr Dr) as [Hk Hin]. split; [exact Hk|].
    apply loc_In; [apply select_month_NoDup, Hs|exact Hin].
  - intros Hno. apply loc_not_in. intros Hin. destruct (Hinv Hin) as [r [Hr Dr]].
    exact (Hno r Hr Dr).
Qed.

Lemma lookup_finds_the_row_of_the_date_example :
  loc (select_month friday_saturday 2024 1) (date_str 2024 1 5) = [Finite 1].
Proof.
  assert (series_ok friday_saturday) as Hs.
  { split.
    - repeat constructor; vm_compute; congruence.
    - repeat constructor; simpl; intuition congruence. }
  destruct (lookup_finds_the_row_of_the_date friday_saturday 2024 1 5 Hs ltac:(lia))
    as (_ & H & _).
  exact (proj2 (H (mkRow "2024-01-05" (PyDatetime.mkdate 2024 1 5) (Finite 1))
                  ltac:(left; reflexivity) eq_refl)).
Defined.

(** * A date that occurs twice *)

Lemma for_each_raises {A S : Type} (body : S -> A -> result S) (e : exn)
      (before : list A) (a : A) (after : list A) :
  (forall s x, In x before -> body s x = Raise e \/ exists s1, body s x = Ok s1) ->
  (forall s, body s a = Raise e) ->
  forall s, for_each (before ++ a :: after) body s = Raise e.
Proof.
  intros Hb Ha. induction before as [|x before IH]; intros s.
  - cbn [app for_each]. rewrite Ha. reflexivity.
  - cbn [app for_each].
    destruct (Hb s x (or_introl eq_refl)) as [E|[s1 E]]; rewrite E; cbn [bind];
      [reflexivity|].
    apply IH. intros s2 y Hy. apply Hb. right. exact Hy.
Qed.

Lemma for_each_ok_or_raises {A S : Type} (body : S -> A -> result S) (e : exn)
      (l : list A) :
  (forall s x, In x l -> body s x = Raise e \/ exists s1, body s x = Ok s1) ->
  forall s, for_each l body s = Raise e \/ exists s1, for_each l body s = Ok s1.
Proof.
  induction l as [|x l IH]; intros Hb s; [right; eexists; reflexivity|].
  cbn [for_each].
  destruct (Hb s x (or_introl eq_refl)) as [E|[s1 E]]; rewrite E; cbn [bind];
    [left; reflexivity|].
  apply IH. intros s2 y Hy. apply Hb. right. exact Hy.
Qed.

Lemma loc_index_contains (df : MonthFrame) (s : string) :
  loc df s <> [] -> index_contains df s = true.
Proof.
  intros H. destruct (index_contains df s) eqn:E; [reflexivity|].
  exfalso. apply H. apply loc_not_in. intros Hin.
  apply index_contains_In in Hin. congruence.
Qed.

Lemma draw_day_main_outcome (y m : Z) (df : MonthFrame) (norm : float64 -> float64)
      (cmap : float64 -> Mpl.rgba) (w : Z) (s : Axes) (x : Z * Z) :
  CalendarHeatmap.draw_day y m df norm cmap w s x
  = Raise (TypeError "unsupported format string passed to Series.__format__")
  \/ exists s1, CalendarHeatmap.draw_day y m df norm cmap w s x = Ok s1.
Proof.
  destruct x as [c d]. unfold CalendarHeatmap.draw_day.
  destruct (d =? 0); [right; eexists; reflexivity|].
  destruct (c >=? 5); [right; eexists; reflexivity|].
  destruct (index_contains df (date_str y m d)); [|right; eexists; reflexivity].
  destruct (loc df (date_str y m d)) as [|v [|v' l]]; cbn [bind];
    [left; reflexivity|right; eexists; reflexivity|left; reflexivity].
Qed.

Lemma draw_day_test_outcome (y m : Z) (df : MonthFrame) (norm : float64 -> float64)
      (cmap : float64 -> Mpl.rgba) (w : Z) (s : Axes) (x : Z * Z) :
  CalendarHeatmapTest.draw_day y m df norm cmap w s x
  = Raise (ValueError "The truth value of a Series is ambiguous. Use a.empty, a.bool(), a.item(), a.any() or a.all().")
  \/ exists s1, CalendarHeatmapTest.draw_day y m df norm cmap w s x = Ok s1.
Proof.
  destruct x as [c d]. unfold CalendarHeatmapTest.draw_day.
  destruct (d =? 0); [right; eexists; reflexivity|].
  destruct (c >=? 5); [right; eexists; reflexivity|].
  destruct (index_contains df (date_str y m d)); [|right; eexists; reflexivity].
  destruct (loc df (date_str y m d)) as [|v [|v' l]]; cbn [bind];
    [left; reflexivity|right; eexists; reflexivity|left; reflexivity].
Qed.

Lemma enumerate_split {A : Type} (l : list A) (i : nat) (x : A) :
  nth_error l i = Some x ->
  exists before after, enumerate l = before ++ (Z.of_nat i, x) :: after.
Proof. intros H. apply in_split. apply enumerate_In, H. Qed.

(** X9. When the index of the frame holds the label of a drawn day more
    than once, the lookup returns a series instead of a number and
    [draw_calendar] raises in both scripts, so that neither of the two
    values is drawn: in [calendar_heatmap.py] the label cannot be
    formatted, which is a type error; in [calendar_heatmap_test.py] the
    comparison inside [min] has no truth value, which is a value error
    raised before the label is built. *)
Theorem repeated_date_raises
        (ax : Axes) (year month : Z) (df_month : MonthFrame)
        (norm : float64 -> float64) (cmap : float64 -> Mpl.rgba)
        (month_days : list (list Z)) (w c : nat) (week : list Z) (day : Z)
        (v1 v2 : float64) (more : list float64) :
  PyCalendar.monthdayscalendar 0 year month = Ok month_days ->
  nth_error month_days w = Some week -> nth_error week c = Some day ->
  day <> 0 -> (c < 5)%nat ->
  loc df_month (date_str year month day) = v1 :: v2 :: more ->
  CalendarHeatmap.draw_calendar ax year month df_month norm cmap
  = Raise (TypeError "unsupported format string passed to Series.__format__")
  /\ CalendarHeatmapTest.draw_calendar ax year month df_month norm cmap
     = Raise
         (ValueError "The truth value of a Series is ambiguous. Use a.empty, a.bool(), a.item(), a.any() or a.all().").
Proof.
  intros Hmd Hw Hc Hd H5 Hl.
  assert (index_contains df_month (date_str year month day) = true) as Hi
      by (apply loc_index_contains; rewrite Hl; discriminate).
  assert ((day =? 0) = false) as E0 by (apply Z.eqb_neq; exact Hd).
  assert ((Z.of_nat c >=? 5) = false) as E5
      by (destruct (Z.of_nat c >=? 5) eqn:E; [rewrite Z.geb_le in E; lia|reflexivity]).
  destruct (enumerate_split month_days w week Hw) as (wb & wa & Ew).
  destruct (enumerate_split week c day Hc) as (cb & ca & Ec).
  split.
  - unfold CalendarHeatmap.draw_calendar. rewrite Hmd. cbn [bind].
    rewrite Ew.
    rewrite (for_each_raises _
               (TypeError "unsupported format string passed to Series.__format__"));
      [reflexivity| |].
    + intros s [w0 week0] _. unfold CalendarHeatmap.draw_week.
      apply for_each_ok_or_raises. intros s0 x _. apply draw_day_main_outcome.
    + intros s. unfold CalendarHeatmap.draw_week. rewrite Ec.
      apply for_each_raises.
      * intros s0 x _. apply draw_day_main_outcome.
      * intros s0. unfold CalendarHeatmap.draw_day. rewrite E0, E5, Hi, Hl.
        reflexivity.
  - unfold CalendarHeatmapTest.draw_calendar. rewrite Hmd. cbn [bind].
    rewrite Ew.
    rewrite (for_each_raises _
               (ValueError "The truth value of a Series is ambiguous. Use a.empty, a.bool(), a.item(), a.any() or a.all()."));
      [reflexivity| |].
    + intros s [w0 week0] _. unfold CalendarHeatmapTest.draw_week.
      apply for_each_ok_or_raises. intros s0 x _. apply draw_day_test_outcome.
    + intros s. unfold CalendarHeatmapTest.draw_week. rewrite Ec.
      apply for_each_raises.
      * intros s0 x _. apply draw_day_test_outcome.
      * intros s0. unfold CalendarHeatmapTest.draw_day. rewrite E0, E5, Hi, Hl.
        reflexivity.
Qed.

Lemma repeated_date_raises_example :
  CalendarHeatmap.draw_calendar (Ax.new (0, 0)) 2024 1
    [("2024-01-02"%string, Finite 1); ("2024-01-02"%string, Finite 2)]
    norm_main_float cmap_main_float
  = Raise (TypeError "unsupported format string passed to Series.__format__")
  /\ CalendarHeatmapTest.draw_calendar (Ax.new (0, 0)) 2024 1
       [("2024-01-02"%string, Finite 1); ("2024-01-02"%string, Finite 2)]
       norm_test_float cmap_test_float
     = Raise
         (ValueError "The truth value of a Series is ambiguous. Use a.empty, a.bool(), a.item(), a.any() or a.all().").
Proof.
  split.
  - apply (repeated_date_raises (Ax.new (0, 0)) 2024 1
             [("2024-01-02"%string, Finite 1); ("2024-01-02"%string, Finite 2)]
             norm_main_float cmap_main_float (month_days_of 2024 1) 0%nat 1%nat
             [1; 2; 3; 4; 5; 6; 7] 2 (Finite 1) (Finite 2) []);
      try reflexivity; lia.
  - apply (repeated_date_raises (Ax.new (0, 0)) 2024 1
             [("2024-01-02"%string, Finite 1); ("2024-01-02"%string, Finite 2)]
             norm_test_float cmap_test_float (month_days_of 2024 1) 0%nat 1%nat
             [1; 2; 3; 4; 5; 6; 7] 2 (Finite 1) (Finite 2) []);
      try reflexivity; lia.
Defined.

(** * A month that does not exist *)

(** X10. A month outside 1 to 12 makes [draw_calendar] raise the illegal
    month error of the calendar, whatever the year, the frame and the
    axes, in both scripts. *)
Theorem illegal_month_raises
        (ax : Axes) (year month : Z) (df_month : MonthFrame)
        (norm : float64 -> float64) (cmap : float64 -> Mpl.rgba) :
  month < 1 \/ 12 < month ->
  CalendarHeatmap.draw_calendar ax year month df_month norm cmap
  = Raise (IllegalMonthError month)
  /\ CalendarHeatmapTest.draw_calendar ax year month df_month norm cmap
     = Raise (IllegalMonthError month).
Proof.
  intros H.
  assert (PyCalendar.monthdayscalendar 0 year month = Raise (IllegalMonthError month)) as E.
  { unfold PyCalendar.monthdayscalendar, PyCalendar.itermonthdays, PyCalendar.monthrange.
    assert ((1 <=? month) && (month <=? 12) = false) as ->; [|reflexivity].
    apply andb_false_iff. rewrite Z.leb_gt, Z.leb_gt. lia. }
  unfold CalendarHeatmap.draw_calendar, CalendarHeatmapTest.draw_calendar.
  rewrite E. split; reflexivity.
Qed.

Lemma illegal_month_raises_example :
  CalendarHeatmap.draw_calendar (Ax.new (0, 0)) 2024 13 [] norm_main_float cmap_main_float
  = Raise (IllegalMonthError 13).
Proof.
  apply (illegal_month_raises (Ax.new (0, 0)) 2024 13 [] norm_main_float cmap_main_float).
  right. lia.
Defined.


(** * Values inside the domain *)

Lemma clipped_in_domain (val : Q) :
  (-5 <= val <= 5)%Q -> clipped val = val.
Proof.
  intros [Hlo Hhi]. unfold clipped, py_min, py_max, Qltb,
    CalendarHeatmapTest.RETURN_MAX, CalendarHeatmapTest.RETURN_MIN.
  assert (Qle_bool val 5 = true) as -> by (apply Qle_bool_iff; exact Hhi).
  cbn [negb].
  assert (Qle_bool (-5) val = true) as -> by (apply Qle_bool_iff; exact Hlo).
  reflexivity.
Qed.

Lemma clipped_bounds (val : Q) : (-5 <= clipped val <= 5)%Q.
Proof.
  unfold clipped, py_min, py_max, Qltb,
    CalendarHeatmapTest.RETURN_MAX, CalendarHeatmapTest.RETURN_MIN.
  destruct (Qle_bool val 5) eqn:E1; cbn [negb].
  - apply Qle_bool_iff in E1.
    destruct (Qle_bool (-5) val) eqn:E2; cbn [negb].
    + apply Qle_bool_iff in E2. split; assumption.
    + split; lra.
  - assert (Qle_bool (-5) 5 = true) as -> by reflexivity. cbn [negb]. split; lra.
Qed.

(** X11. The value that [calendar_heatmap_test.py] normalises always lies
    in the domain from -5 to 5, and a value inside the domain is passed on
    as it is: its cell is painted with the colour of the value itself, the
    colour [calendar_heatmap.py] computes for it with the same [norm] and
    [cmap]. *)
Theorem values_in_the_domain_are_not_clipped
        (ax : Axes) (year month : Z) (df_month : MonthFrame)
        (norm : float64 -> float64) (cmap : float64 -> Mpl.rgba)
        (month_days : list (list Z)) (w c : nat) (week : list Z) (day : Z)
        (val : Q) :
  NoDup (map fst df_month) ->
  PyCalendar.monthdayscalendar 0 year month = Ok month_days ->
  nth_error month_days w = Some week -> nth_error week c = Some day ->
  day <> 0 -> (c < 5)%nat ->
  In (date_str year month day, Finite val) df_month ->
  (-5 <= val <= 5)%Q ->
  (-5 <= clipped val <= 5)%Q
  /\ exists ax1 ax2 p1 t1 p2 t2,
      CalendarHeatmap.draw_calendar ax year month df_month norm cmap = Ok ax1
      /\ CalendarHeatmapTest.draw_calendar ax year month df_month norm cmap = Ok ax2
      /\ In (p1, t1) (combine (patches ax1) (texts ax1))
      /\ In (p2, t2) (combine (patches ax2) (texts ax2))
      /\ xy p1 = (Z.of_nat c, - Z.of_nat w) /\ xy p2 = xy p1
      /\ facecolor p1 = RGBA (cmap (norm (Finite val)))
      /\ facecolor p2 = facecolor p1.
Proof.
  intros Hn Hmd Hw Hc Hd H5 Hin Hdom. split; [apply clipped_bounds|].
  pose proof (drawn_cell (style_main norm cmap) (subplotspec ax) (ax_facecolor ax)
                year month df_month month_days (Z.of_nat (List.length month_days))
                (title_of year month 12 None) w c week day Hw Hc Hd H5) as H1.
  pose proof (drawn_cell (style_test norm cmap) (subplotspec ax) (Some "white"%string)
                year month df_month month_days (Z.of_nat (List.length month_days))
                (title_of year month 13 (Some 12)) w c week day Hw Hc Hd H5) as H2.
  cbv zeta in H1, H2. rewrite (cell_value_In df_month _ (Finite val) Hn Hin) in H1, H2.
  do 2 eexists. do 4 eexists.
  split; [apply draw_calendar_main; eassumption|].
  split; [apply draw_calendar_test; eassumption|].
  split; [exact H1|]. split; [exact H2|].
  unfold rect_of, paint, style_main, style_test.
  cbn [xy facecolor value found fst snd day_of_month week_idx day_idx].
  rewrite py_min_finite, py_max_finite.
  fold (clipped val). rewrite (clipped_in_domain val Hdom). repeat split.
Qed.

Lemma values_in_the_domain_are_not_clipped_example :
  (-5 <= clipped (25 # 10) <= 5)%Q.
Proof.
  refine (proj1 (values_in_the_domain_are_not_clipped (Ax.new (0, 0)) 2024 1
                   [("2024-01-01"%string, Finite (25 # 10))]
                   norm_test_float cmap_test_float
                   (month_days_of 2024 1) 0%nat 0%nat [1; 2; 3; 4; 5; 6; 7] 1
                   (25 # 10) _ _ _ _ _ _ _ _)).
  - repeat constructor. simpl. tauto.
  - reflexivity.
  - reflexivity.
  - reflexivity.
  - lia.
  - lia.
  - left. reflexivity.
  - split; discriminate.
Defined.

(** * The hue and the shade of a return *)

Lemma index_row (cm : Mpl.Colormap) (X : Q) :
  Mpl.N cm = 256 ->
  Mpl.Colormap_index cm X = row_of X
  \/ (Mpl.Colormap_index cm X = 257 /\ row_of X = 255)
  \/ (Mpl.Colormap_index cm X = 256 /\ row_of X = 0).
Proof.
  intros HN. unfold Mpl.Colormap_index, Mpl._i_over, Mpl._i_under, row_of.
  rewrite HN. change (inject_Z 256) with 256%Q. change (inject_Z (256 - 1)) with 255%Q.
  set (xa := (X * 256)%Q).
  pose proof (Qfloor_le xa) as F1. pose proof (Qlt_floor xa) as F2.
  destruct (Qeq_bool xa 256) eqn:E.
  - apply Qeq_bool_iff in E. left.
    assert (Qle_bool 256 255 = false) as -> by reflexivity.
    assert (Qle_bool 0 255 = true) as -> by reflexivity. cbn [negb].
    change (Qfloor 255) with 255. rewrite (Qfloor_comp _ _ E).
    change (Qfloor 256) with 256. reflexivity.
  - apply Qeq_bool_neq in E.
    destruct (Qle_bool 256 xa) eqn:E1.
    + apply Qle_bool_iff in E1. right. left. split; [reflexivity|].
      pose proof (Qfloor_resp_le _ _ E1) as G. change (Qfloor 256) with 256 in G. lia.
    + assert (xa < 256)%Q as L.
      { destruct (Qlt_le_dec xa 256) as [L|L]; [exact L|].
        apply Qle_bool_iff in L. congruence. }
      assert (Qfloor xa < 256) as G.
      { rewrite Zlt_Qlt. eapply Qle_lt_trans; [exact F1|exact L]. }
      destruct (Qle_bool 0 xa) eqn:E2; cbn [negb].
      * apply Qle_bool_iff in E2. left.
        pose proof (Qfloor_resp_le _ _ E2) as G0. change (Qfloor 0) with 0 in G0. lia.
      * right. right. split; [reflexivity|].
        assert (xa < 0)%Q as L0.
        { destruct (Qlt_le_dec xa 0) as [L0|L0]; [exact L0|].
          apply Qle_bool_iff in L0. congruence. }
        assert (Qfloor xa < 0) as G0.
        { rewrite Zlt_Qlt. eapply Qle_lt_trans; [exact F1|exact L0]. }
        lia.
Qed.

Lemma row_of_bounds (X : Q) : 0 <= row_of X <= 255.
Proof. unfold row_of. lia. Qed.

Lemma row_of_mono (X Y : Q) : (X <= Y)%Q -> row_of X <= row_of Y.
Proof.
  intros H. unfold row_of.
  assert (Qfloor (X * 256) <= Qfloor (Y * 256)) as G
      by (apply Qfloor_resp_le; lra).
  lia.
Qed.

Lemma row_of_low (X : Q) : (X < 1 # 2)%Q -> row_of X <= 127.
Proof.
  intros H. unfold row_of.
  assert (Qfloor (X * 256) < 128) as G.
  { rewrite Zlt_Qlt. eapply Qle_lt_trans; [apply Qfloor_le|].
    change (inject_Z 128) with 128%Q. lra. }
  lia.
Qed.

Lemma row_of_high (X : Q) : (1 # 2 <= X)%Q -> 128 <= row_of X.
Proof.
  intros H. unfold row_of.
  assert (Qfloor 128 <= Qfloor (X * 256)) as G by (apply Qfloor_resp_le; lra).
  change (Qfloor 128) with 128 in G. lia.
Qed.

(** The colour of a normalised value is the colour of its row, in both
    colour maps. *)
Lemma cmap_main_row (X : Q) :
  cmap_main X = Mpl.take (Mpl._lut CalendarHeatmap.heatmap_cmap) (row_of X).
Proof.
  unfold cmap_main, Mpl.Colormap_call.
  destruct (index_row CalendarHeatmap.heatmap_cmap X eq_refl) as [E|[[E R]|[E R]]];
    rewrite E; [reflexivity| |]; rewrite R; vm_compute; reflexivity.
Qed.

Lemma cmap_test_row (X : Q) :
  cmap_test X = Mpl.take (Mpl._lut CalendarHeatmapTest.cmap) (row_of X).
Proof.
  unfold cmap_test, Mpl.Colormap_call.
  destruct (index_row CalendarHeatmapTest.cmap X eq_refl) as [E|[[E R]|[E R]]];
    rewrite E; [reflexivity| |]; rewrite R; vm_compute; reflexivity.
Qed.

Lemma norm_test_eq (val : Q) : (norm_test val == (val + 5) * (1 # 10))%Q.
Proof. apply norm_main_eq. Qed.

Lemma clipped_sign (val : Q) :
  ((val < 0)%Q -> (clipped val < 0)%Q) /\ ((0 <= val)%Q -> (0 <= clipped val)%Q).
Proof.
  unfold clipped, py_min, py_max, Qltb,
    CalendarHeatmapTest.RETURN_MAX, CalendarHeatmapTest.RETURN_MIN.
  destruct (Qle_bool val 5) eqn:E1; cbn [negb].
  - destruct (Qle_bool (-5) val) eqn:E2; cbn [negb].
    + split; auto.
    + split; [intros _; reflexivity|]. intros H.
      assert (Qle_bool (-5) val = true) as C by (apply Qle_bool_iff; lra). congruence.
  - assert (Qle_bool (-5) 5 = true) as -> by reflexivity. cbn [negb].
    split; [|intros _; discriminate]. intros H.
    assert (Qle_bool val 5 = true) as C by (apply Qle_bool_iff; lra). congruence.
Qed.

Lemma clipped_mono (v w : Q) : (v <= w)%Q -> (clipped v <= clipped w)%Q.
Proof.
  intros H. unfold clipped, py_min, py_max, Qltb,
    CalendarHeatmapTest.RETURN_MAX, CalendarHeatmapTest.RETURN_MIN.
  destruct (Qle_bool v 5) eqn:V5; destruct (Qle_bool w 5) eqn:W5; cbn [negb];
    try (assert (Qle_bool (-5) 5 = true) as -> by reflexivity; cbn [negb]);
    try (apply Qle_bool_iff in V5); try (apply Qle_bool_iff in W5).
  - destruct (Qle_bool (-5) v) eqn:Vm; destruct (Qle_bool (-5) w) eqn:Wm; cbn [negb];
      try (apply Qle_bool_iff in Vm); try (apply Qle_bool_iff in Wm); try lra.
    assert (Qle_bool (-5) w = true) as C by (apply Qle_bool_iff; lra). congruence.
  - destruct (Qle_bool (-5) v) eqn:Vm; cbn [negb];
      try (apply Qle_bool_iff in Vm); lra.
  - assert (Qle_bool v 5 = true) as C by (apply Qle_bool_iff; lra). congruence.
  - lra.
Qed.

(** X12. The sign of a return decides the hue of its cell: in both scripts
    a loss is painted with red as its strongest channel, and a return of 0
    or a gain with green as its strongest channel. *)
Theorem sign_of_the_return_decides_the_hue (val : Q) :
  ((val < 0)%Q ->
   red_dominant (cmap_main (norm_main val)) = true
   /\ red_dominant (cmap_test (norm_test (clipped val))) = true)
  /\ ((0 <= val)%Q ->
      green_dominant (cmap_main (norm_main val)) = true
      /\ green_dominant (cmap_test (norm_test (clipped val))) = true).
Proof.
  assert (forallb (fun i => red_dominant (Mpl.take (Mpl._lut CalendarHeatmap.heatmap_cmap) i)
                            && red_dominant (Mpl.take (Mpl._lut CalendarHeatmapTest.cmap) i))
                  (PyCalendar.range 0 128) = true) as Lo by (vm_compute; reflexivity).
  assert (forallb (fun i => green_dominant (Mpl.take (Mpl._lut CalendarHeatmap.heatmap_cmap) i)
                            && green_dominant (Mpl.take (Mpl._lut CalendarHeatmapTest.cmap) i))
                  (PyCalendar.range 128 256) = true) as Hi by (vm_compute; reflexivity).
  pose proof (norm_main_eq val) as E1. pose proof (norm_test_eq (clipped val)) as E2.
  destruct (clipped_sign val) as [Sn Sp].
  rewrite cmap_main_row, cmap_test_row. split; intros H.
  - pose proof (Sn H) as Hc.
    pose proof (forallb_range _ _ _ Lo (row_of (norm_main val))) as A.
    pose proof (forallb_range _ _ _ Lo (row_of (norm_test (clipped val)))) as B.
    cbv beta in A, B.
    pose proof (row_of_bounds (norm_main val)).
    pose proof (row_of_bounds (norm_test (clipped val))).
    assert (row_of (norm_main val) <= 127) by (apply row_of_low; rewrite E1; lra).
    assert (row_of (norm_test (clipped val)) <= 127) by (apply row_of_low; rewrite E2; lra).
    apply andb_true_iff in A; [|lia]. apply andb_true_iff in B; [|lia]. tauto.
  - pose proof (Sp H) as Hc.
    pose proof (forallb_range _ _ _ Hi (row_of (norm_main val))) as A.
    pose proof (forallb_range _ _ _ Hi (row_of (norm_test (clipped val)))) as B.
    cbv beta in A, B.
    pose proof (row_of_bounds (norm_main val)).
    pose proof (row_of_bounds (norm_test (clipped val))).
    assert (128 <= row_of (norm_main val)) by (apply row_of_high; rewrite E1; lra).
    assert (128 <= row_of (norm_test (clipped val))) by (apply row_of_high; rewrite E2; lra).
    apply andb_true_iff in A; [|lia]. apply andb_true_iff in B; [|lia]. tauto.
Qed.

Lemma sign_of_the_return_decides_the_hue_example :
  red_dominant (cmap_main (norm_main (-1 # 100))) = true
  /\ green_dominant (cmap_main (norm_main 0)) = true.
Proof.
  split.
  - apply (proj1 (sign_of_the_return_decides_the_hue (-1 # 100))). reflexivity.
  - apply (proj2 (sign_of_the_return_decides_the_hue 0)). discriminate.
Defined.


(** X13. The shade follows the size of the return: in both scripts, of two
    losses the bigger one is painted at most as bright in every channel,
    and of two returns that are 0 or gains the bigger one is painted at
    most as bright in every channel. *)
Theorem bigger_moves_are_painted_darker (v w : Q) :
  (v <= w)%Q ->
  ((w < 0)%Q ->
   darker_or_equal (cmap_main (norm_main v)) (cmap_main (norm_main w)) = true
   /\ darker_or_equal (cmap_test (norm_test (clipped v)))
                      (cmap_test (norm_test (clipped w))) = true)
  /\ ((0 <= v)%Q ->
      darker_or_equal (cmap_main (norm_main w)) (cmap_main (norm_main v)) = true
      /\ darker_or_equal (cmap_test (norm_test (clipped w)))
                         (cmap_test (norm_test (clipped v))) = true).
Proof.
  intros Hvw.
  assert (forallb (fun i => forallb (fun j =>
            implb (i <=? j)
                  (darker_or_equal (Mpl.take (Mpl._lut CalendarHeatmap.heatmap_cmap) i)
                                   (Mpl.take (Mpl._lut CalendarHeatmap.heatmap_cmap) j)
                   && darker_or_equal (Mpl.take (Mpl._lut CalendarHeatmapTest.cmap) i)
                                      (Mpl.take (Mpl._lut CalendarHeatmapTest.cmap) j)))
            (PyCalendar.range 0 128)) (PyCalendar.range 0 128) = true) as Lo
      by (vm_compute; reflexivity).
  assert (forallb (fun i => forallb (fun j =>
            implb (i <=? j)
                  (darker_or_equal (Mpl.take (Mpl._lut CalendarHeatmap.heatmap_cmap) j)
                                   (Mpl.take (Mpl._lut CalendarHeatmap.heatmap_cmap) i)
                   && darker_or_equal (Mpl.take (Mpl._lut CalendarHeatmapTest.cmap) j)
                                      (Mpl.take (Mpl._lut CalendarHeatmapTest.cmap) i)))
            (PyCalendar.range 128 256)) (PyCalendar.range 128 256) = true) as Hi
      by (vm_compute; reflexivity).
  pose proof (norm_main_eq v) as Ev. pose proof (norm_main_eq w) as Ew.
  pose proof (norm_test_eq (clipped v)) as Tv. pose proof (norm_test_eq (clipped w)) as Tw.
  pose proof (clipped_mono v w Hvw) as Hc.
  assert (row_of (norm_main v) <= row_of (norm_main w)) as M1
      by (apply row_of_mono; rewrite Ev, Ew; lra).
  assert (row_of (norm_test (clipped v)) <= row_of (norm_test (clipped w))) as M2
      by (apply row_of_mono; rewrite Tv, Tw; lra).
  pose proof (row_of_bounds (norm_main v)). pose proof (row_of_bounds (norm_main w)).
  pose proof (row_of_bounds (norm_test (clipped v))).
  pose proof (row_of_bounds (norm_test (clipped w))).
  rewrite !cmap_main_row, !cmap_test_row. split; intros Hs.
  - assert (row_of (norm_main w) <= 127) by (apply row_of_low; rewrite Ew; lra).
    assert (row_of (norm_test (clipped w)) <= 127).
    { apply row_of_low. rewrite Tw. pose proof (proj1 (clipped_sign w) Hs). lra. }
    pose proof (forallb_range _ _ _ Lo (row_of (norm_main v)) ltac:(lia)) as A.
    cbv beta in A.
    pose proof (forallb_range _ _ _ A (row_of (norm_main w)) ltac:(lia)) as A1.
    pose proof (forallb_range _ _ _ Lo (row_of (norm_test (clipped v))) ltac:(lia)) as B.
    cbv beta in B.
    pose proof (forallb_range _ _ _ B (row_of (norm_test (clipped w))) ltac:(lia)) as B1.
    cbv beta in A1, B1. apply Z.leb_le in M1, M2. rewrite M1 in A1. rewrite M2 in B1.
    cbn [implb] in A1, B1. apply andb_true_iff in A1, B1. tauto.
  - assert (128 <= row_of (norm_main v)) by (apply row_of_high; rewrite Ev; lra).
    assert (128 <= row_of (norm_test (clipped v))).
    { apply row_of_high. rewrite Tv. pose proof (proj2 (clipped_sign v) Hs). lra. }
    pose proof (forallb_range _ _ _ Hi (row_of (norm_main v)) ltac:(lia)) as A.
    cbv beta in A.
    pose proof (forallb_range _ _ _ A (row_of (norm_main w)) ltac:(lia)) as A1.
    pose proof (forallb_range _ _ _ Hi (row_of (norm_test (clipped v))) ltac:(lia)) as B.
    cbv beta in B.
    pose proof (forallb_range _ _ _ B (row_of (norm_test (clipped w))) ltac:(lia)) as B1.
    cbv beta in A1, B1. apply Z.leb_le in M1, M2. rewrite M1 in A1. rewrite M2 in B1.
    cbn [implb] in A1, B1. apply andb_true_iff in A1, B1. tauto.
Qed.

Lemma bigger_moves_are_painted_darker_example :
  darker_or_equal (cmap_main (norm_main 3)) (cmap_main (norm_main 1)) = true.
Proof.
  apply (proj2 (bigger_moves_are_painted_darker 1 3 ltac:(discriminate))).
  discriminate.
Defined.

(** * The flattened column names *)

Lemma append_assoc (a b c : string) : ((a ++ b) ++ c)%string = (a ++ (b ++ c))%string.
Proof. induction a as [|x a IH]; simpl; [reflexivity|]. rewrite IH. reflexivity. Qed.

Lemma rev_acc (s acc : string) : PyStr.rev s acc = (PyStr.rev s EmptyString ++ acc)%string.
Proof.
  revert acc. induction s as [|x s IH]; intros acc; simpl; [reflexivity|].
  rewrite IH. rewrite (IH (String x EmptyString)). rewrite append_assoc. reflexivity.
Qed.

Lemma rev_append (a b acc : string) :
  PyStr.rev (a ++ b) acc = PyStr.rev b (PyStr.rev a acc).
Proof. revert acc. induction a as [|x a IH]; intros acc; simpl; [reflexivity|]. apply IH. Qed.

Lemma lstrip_append (a : string) (x : ascii) (b : string) :
  PyStr.isspace x = false ->
  PyStr.lstrip (a ++ String x b) = (PyStr.lstrip a ++ String x b)%string.
Proof.
  intros Hx. induction a as [|y a IH]; simpl.
  - rewrite Hx. reflexivity.
  - destruct (PyStr.isspace y); [exact IH|reflexivity].
Qed.

Lemma close_name (ticker : string) :
  exists rest : string,
    PyStr.strip (PyStr.join " " ["Close"%string; ticker]) = ("Close" ++ rest)%string.
Proof.
  unfold PyStr.strip, PyStr.join. cbn [String.concat].
  change ("Close" ++ " " ++ ticker)%string
    with (String "C" (String "l" (String "o" (String "s" (String "e" (String " " ticker)))))).
  assert (forall x, PyStr.lstrip (String "C" x) = String "C" x) as L by reflexivity.
  rewrite L. cbn [PyStr.rev]. rewrite (rev_acc ticker).
  change (PyStr.rev ticker EmptyString ++ " esolC")%string
    with (PyStr.rev ticker EmptyString ++ (" " ++ String "e" "solC"))%string.
  rewrite <- append_assoc. rewrite lstrip_append by reflexivity.
  rewrite rev_append. cbn [PyStr.rev].
  eexists. reflexivity.
Qed.

(** X14. In a table with two-level columns, a column (Close, ticker) is
    flattened to a name that starts with Close whatever the ticker is,
    empty or blank included; so the close column is always found, and the
    script does not stop for a missing close column. *)
Theorem two_level_close_column_is_found
        (ticker : string) (start_date end_date : PyDatetime.date) (data : Download)
        (tuples : list (list string)) (symbol : string) :
  columns data = MultiIndex tuples -> In ["Close"%string; symbol] tuples ->
  index data <> [] ->
  possible_close_cols (flatten_columns (columns data)) <> []
  /\ CalendarHeatmap.main ticker start_date end_date data
     <> mkOutcome ["Close price column not found after flattening."%string] None Exited
  /\ CalendarHeatmap.main ticker start_date end_date data
     <> mkOutcome ["No data fetched. Check the ticker symbol and try again."%string]
                  None Exited.
Proof.
  intros Hc Hin Hi.
  assert (possible_close_cols (flatten_columns (columns data)) <> []) as Hp.
  { rewrite Hc. cbn [flatten_columns]. unfold possible_close_cols. intros E.
    destruct (close_name symbol) as [rest Hr].
    assert (In (PyStr.strip (PyStr.join " " ["Close"%string; symbol]))
               (filter (fun col => PyStr.startswith (PyStr.lower col) "close")
                       (map (fun col => PyStr.strip (PyStr.join " " col)) tuples))) as F.
    { apply filter_In. split.
      - apply in_map_iff. exists ["Close"%string; symbol]. auto.
      - rewrite Hr. destruct rest; reflexivity. }
    rewrite E in F. exact F. }
  split; [exact Hp|].
  unfold CalendarHeatmap.main.
  assert (empty data = false) as ->.
  { unfold empty. destruct (index data); [congruence|]. rewrite Hc.
    destruct tuples; [destruct Hin|reflexivity]. }
  destruct (possible_close_cols (flatten_columns (columns data))) as [|cc others];
    [congruence|].
  destruct (rows <- prepare data cc ;; CalendarHeatmap.render _ _ _ rows);
    split; discriminate.
Qed.

Lemma two_level_close_column_is_found_example :
  possible_close_cols
    (flatten_columns (MultiIndex [["Open"; "T"]; ["Close"; " "]]%string)) <> [].
Proof.
  apply (two_level_close_column_is_found "T" (PyDatetime.mkdate 2023 1 8)
           (PyDatetime.mkdate 2024 1 8)
           (mkDownload (MultiIndex [["Open"; "T"]; ["Close"; " "]]%string)
                       [PyDatetime.mkdate 2024 1 5] [[1; 100]]%Q)
           [["Open"; "T"]; ["Close"; " "]]%string " "%string).
  - reflexivity.
  - right. left. reflexivity.
  - discriminate.
Defined.


(** * Where the rectangles lie *)

(** X15. Every rectangle that [draw_calendar] adds is a unit square whose
    lower left corner is at a column from 0 to 4 and at minus the index of
    its week: the squares fill the x range from 0 to 5, which is the x
    limit, and lie between minus (weeks - 1) and 1 in y, while the y limit
    is set from minus weeks to 0.5.  The label of a square is anchored
    0.5 to the right of and 0.6 above that corner. *)
Theorem rectangles_are_unit_squares_by_column_and_week
        (ax : Axes) (year month : Z) (df_month : MonthFrame)
        (norm : float64 -> float64) (cmap : float64 -> Mpl.rgba) :
  1 <= month <= 12 -> NoDup (map fst df_month) ->
  exists (month_days : list (list Z)) (ax1 ax2 : Axes),
    let weeks := Z.of_nat (List.length month_days) in
    PyCalendar.monthdayscalendar 0 year month = Ok month_days
    /\ CalendarHeatmap.draw_calendar ax year month df_month norm cmap = Ok ax1
    /\ CalendarHeatmapTest.draw_calendar ax year month df_month norm cmap = Ok ax2
    /\ xlim ax1 = (0, 5)%Q /\ ylim ax1 = (inject_Z (- weeks), 1 # 2)%Q
    /\ xlim ax2 = xlim ax1 /\ ylim ax2 = ylim ax1
    /\ Forall (fun pt : Rectangle * Text =>
                 width (fst pt) = 1 /\ height (fst pt) = 1
                 /\ 0 <= fst (xy (fst pt)) <= 4
                 /\ - (weeks - 1) <= snd (xy (fst pt)) <= 0
                 /\ text_x (snd pt) = (inject_Z (fst (xy (fst pt))) + (1 # 2))%Q
                 /\ text_y (snd pt) = (inject_Z (snd (xy (fst pt))) + (6 # 10))%Q)
              (combine (patches ax1) (texts ax1) ++ combine (patches ax2) (texts ax2)).
Proof.
  intros Hm Hn.
  destruct (monthrange_total year month Hm) as (day1 & ndays & Hr & H1 & H2).
  pose proof (monthdayscalendar_layout year month day1 ndays Hr) as Hmd.
  destruct (layout_shape day1 ndays H1 H2) as [Hl Hf].
  exists (layout day1 ndays). do 2 eexists. cbv zeta.
  split; [exact Hmd|].
  split; [apply draw_calendar_main; eassumption|].
  split; [apply draw_calendar_test; eassumption|].
  cbn [drawn xlim ylim patches texts]. do 4 (split; [reflexivity|]).
  rewrite !combine_map. apply Forall_app.
  split; apply Forall_forall; intros pt Hpt; apply in_map_iff in Hpt;
    destruct Hpt as [cell [<- Hc]]; unfold month_cells in Hc;
    apply in_map_iff in Hc; destruct Hc as [s [<- Hs]];
    rewrite Forall_forall in Hf; destruct (Hf s Hs) as [Hw Hcol];
    cbn [fst snd rect_of text_of width height xy text_x text_y week_idx day_idx];
    repeat split; try reflexivity; lia.
Qed.

Lemma rectangles_are_unit_squares_by_column_and_week_example :
  exists (month_days : list (list Z)) (ax1 : Axes),
    PyCalendar.monthdayscalendar 0 2024 1 = Ok month_days
    /\ CalendarHeatmap.draw_calendar (Ax.new (0, 0)) 2024 1 [] norm_main_float cmap_main_float = Ok ax1
    /\ ylim ax1 = (inject_Z (- Z.of_nat (List.length month_days)), 1 # 2)%Q.
Proof.
  destruct (rectangles_are_unit_squares_by_column_and_week (Ax.new (0, 0)) 2024 1 []
              norm_main_float cmap_main_float ltac:(lia) ltac:(constructor))
    as (md & ax1 & ax2 & H1 & H2 & _ & _ & H3 & _).
  exists md, ax1. split; [exact H1|]. split; [exact H2|exact H3].
Defined.

(** * Which months get a panel *)

(** X16. The months of the figure are exactly the months in which the
    series has a row, each once: a month without any row gets no panel,
    so a gap in the series is a gap in the sequence of panels, and there
    are never more panels than rows. *)
Theorem panels_are_the_months_with_rows (data : list Row) (year month : Z) :
  (In (year, month) (months_of data)
   <-> exists r, In r data /\ PyDatetime.year (Date r) = year
                 /\ PyDatetime.month (Date r) = month)
  /\ (count_occ ym_eq_dec (months_of data) (year, month) <= 1)%nat
  /\ (select_month data year month = [] -> ~ In (year, month) (months_of data))
  /\ (List.length (months_of data) <= List.length data)%nat.
Proof.
  split; [|split; [|split]].
  - rewrite months_of_In. split.
    + intros [r [Hr E]]. inversion E. exists r. auto.
    + intros [r [Hr [<- <-]]]. exists r. auto.
  - apply NoDup_count_occ, months_of_NoDup.
  - intros E Hin. apply months_of_In in Hin. destruct Hin as [r [Hr Ey]].
    inversion Ey; subst.
    assert (In (Date_str r, Daily_Return r)
               (select_month data (PyDatetime.year (Date r)) (PyDatetime.month (Date r)))) as F.
    { rewrite select_month_eq. apply in_map_iff. exists r. split; [reflexivity|].
      apply filter_In. split; [exact Hr|]. apply in_month_true. auto. }
    rewrite E in F. exact F.
  - unfold months_of, set_of.
    rewrite <- (Permutation_length (sorted_perm _)).
    rewrite <- (length_map (fun r => (PyDatetime.year (Date r), PyDatetime.month (Date r))) data).
    apply NoDup_incl_length; [apply NoDup_nodup|].
    intros x Hx. apply nodup_In in Hx. exact Hx.
Qed.

(** * The cell of a date in the second script *)

(** X17. In [calendar_heatmap_test.py] too, every date of a well-formed
    series that falls on Monday to Friday is shown by exactly one cell of
    exactly one panel, drawn from its value, and a date on a weekend by
    none. *)
Theorem test_script_each_weekday_date_in_exactly_one_cell
        (ticker : string) (start_date end_date : PyDatetime.date)
        (data : list Row) (r : Row) :
  series_ok data -> In r data ->
  let y := PyDatetime.year (Date r) in
  let m := PyDatetime.month (Date r) in
  let d := PyDatetime.day (Date r) in
  let st := style_test norm_test_float cmap_test_float in
  let cells := month_cells y m (select_month data y m) (month_days_of y m) in
  exists (fig : Figure) (i : nat) (ax : Axes),
    CalendarHeatmapTest.render ticker start_date end_date data = Ok fig
    /\ (forall j, nth_error (months_of data) j = Some (y, m) <-> j = i)
    /\ nth_error (fig_axes fig) i = Some ax
    /\ patches ax = map (rect_of st) cells
    /\ texts ax = map (text_of st) cells
    /\ filter (fun c => day_of_month c =? d) cells
       = if PyDatetime.weekday (Date r) <? 5
         then [mkCell ((day1_of y m + d - 1) / 7) (PyDatetime.weekday (Date r)) d
                      (Some (Daily_Return r))]
         else [].
Proof.
  intros Hs Hr y m d st cells.
  assert (data <> []) as Hne by (intros ->; contradiction).
  destruct (month_index data r Hr) as [i [Hi Hu]].
  pose proof (proj2 (Hu i) eq_refl) as Hym.
  eexists. exists i. eexists.
  split; [apply render_test; assumption|].
  split; [exact Hu|].
  split; [cbn [fig_axes]; apply panel_at; exact Hym|].
  split; [reflexivity|]. split; [reflexivity|].
  apply (cells_of_row data r Hs Hr).
Qed.

Lemma test_script_each_weekday_date_in_exactly_one_cell_example :
  exists (fig : Figure),
    CalendarHeatmapTest.render "T" (PyDatetime.mkdate 2023 1 6)
                               (PyDatetime.mkdate 2024 1 6) friday_saturday = Ok fig
    /\ filter (fun c => day_of_month c =? 6)
              (month_cells 2024 1 (select_month friday_saturday 2024 1)
                           (month_days_of 2024 1)) = [].
Proof.
  assert (series_ok friday_saturday) as Hs.
  { split.
    - repeat constructor; vm_compute; congruence.
    - repeat constructor; simpl; intuition congruence. }
  destruct (test_script_each_weekday_date_in_exactly_one_cell "T"
              (PyDatetime.mkdate 2023 1 6) (PyDatetime.mkdate 2024 1 6) friday_saturday
              (mkRow "2024-01-06" (PyDatetime.mkdate 2024 1 6) (Finite (-3))) Hs
              ltac:(right; left; reflexivity))
    as (fig & i & ax & H1 & _ & _ & _ & _ & H6).
  exists fig. split; [exact H1|exact H6].
Defined.


(** * A close of 0 *)

Lemma binary_round_aux_sign (s : bool) (m e : Z) (l : SpecFloat.location)
      (s' : bool) (m' : positive) (e' : Z) :
  SpecFloat.binary_round_aux Float64.prec Float64.emax s m e l
  = SpecFloat.S754_finite s' m' e' -> s' = s.
Proof.
  unfold SpecFloat.binary_round_aux.
  destruct (SpecFloat.shr_fexp Float64.prec Float64.emax m e l) as [mrs1 e1].
  destruct (SpecFloat.shr_fexp Float64.prec Float64.emax _ e1 SpecFloat.loc_Exact)
    as [mrs2 e2].
  destruct (SpecFloat.shr_m mrs2) as [|p|p]; try discriminate.
  destruct (e2 <=? _); [|discriminate]. intros H. inversion H. reflexivity.
Qed.

(** The double of a rational has the sign of its numerator. *)
Lemma of_Q_sign (p : Q) (s : bool) (m : positive) (e : Z) :
  Float64.of_Q p = SpecFloat.S754_finite s m e -> s = (Qnum p <? 0).
Proof.
  unfold Float64.of_Q, Float64.div, SpecFloat.SFdiv.
  destruct (Qnum p) as [|n|n]; [discriminate| |];
    destruct (SpecFloat.SFdiv_core_binary _ _ _ _ _ _) as [[mz ez] lz];
    intros H; apply binary_round_aux_sign in H; exact H.
Qed.

Lemma of_Q_zero (q : Q) : Qnum q = 0 -> Float64.of_Q q = SpecFloat.S754_zero false.
Proof. intros H. unfold Float64.of_Q. rewrite H. reflexivity. Qed.

(** X18. After a close of 0 the return is not a number when the next
    close is 0 as well, and the row is dropped; it is an infinity with the
    sign of the next close otherwise, and the row is kept. *)
Theorem return_after_a_close_of_zero
        (data : Download) (close_col : string) (d0 d1 : PyDatetime.date) (q p : Q) :
  count_occ string_dec (flatten_columns (columns data)) close_col = 1%nat ->
  index data = [d0; d1] -> closes_of data close_col = [q; p] ->
  Qnum q = 0 ->
  (Qnum p = 0 -> prepare data close_col = Ok [])
  /\ (is_price p = true ->
      prepare data close_col
      = Ok [mkRow (strftime_Ymd d1) d1 (if Qnum p <? 0 then NegInf else PosInf)]).
Proof.
  intros Hu Hi Hc Hq. unfold prepare. rewrite Hu, Hi. cbn [Nat.ltb Nat.leb].
  unfold closes_of in Hc. rewrite <- (map_map _ Float64.of_Q), Hc.
  cbn [map pct_change combine flat_map fst snd Float64.is_nan app].
  rewrite (of_Q_zero q Hq). split.
  - intros Hp. rewrite (of_Q_zero p Hp). reflexivity.
  - intros Hp. unfold is_price in Hp.
    destruct (Float64.of_Q p) as [| | |s m e] eqn:E; try discriminate Hp.
    rewrite (of_Q_sign p s m e E). destruct (Qnum p <? 0); reflexivity.
Qed.

Lemma return_after_a_close_of_zero_example :
  prepare (mkDownload (Index ["Close"]%string)
                      [PyDatetime.mkdate 2024 1 4; PyDatetime.mkdate 2024 1 5]
                      [[0]; [5]]%Q) "Close"
  = Ok [mkRow "2024-01-05" (PyDatetime.mkdate 2024 1 5) PosInf].
Proof.
  apply (proj2 (return_after_a_close_of_zero
                  (mkDownload (Index ["Close"]%string)
                              [PyDatetime.mkdate 2024 1 4; PyDatetime.mkdate 2024 1 5]
                              [[0]; [5]]%Q) "Close"
                  (PyDatetime.mkdate 2024 1 4) (PyDatetime.mkdate 2024 1 5) 0 5
                  eq_refl eq_refl eq_refl eq_refl)).
  reflexivity.
Defined.

(** * Infinite returns in the grid *)

(** X19. An infinite return is drawn like a value beyond the domain: the
    drawing does not fail, plus infinity is painted with the colour of the
    upper bound and minus infinity with the colour of the lower bound, in
    both scripts, and the label reads inf or -inf ([calendar_heatmap.py])
    and +inf or -inf ([calendar_heatmap_test.py]) after the day. *)
Theorem infinite_returns_are_painted_like_the_bounds
        (ax : Axes) (year month : Z) (df_month : MonthFrame)
        (month_days : list (list Z)) (w c : nat) (week : list Z) (day : Z)
        (negative : bool) :
  NoDup (map fst df_month) ->
  PyCalendar.monthdayscalendar 0 year month = Ok month_days ->
  nth_error month_days w = Some week -> nth_error week c = Some day ->
  day <> 0 -> (c < 5)%nat ->
  In (date_str year month day, if negative then NegInf else PosInf) df_month ->
  let bound : Q := if negative then (-5)%Q else 5%Q in
  let position :=
    (inject_Z (Z.of_nat c) + (1 # 2), inject_Z (- Z.of_nat w) + (6 # 10))%Q in
  (forall (norm : float64 -> float64) (cmap : float64 -> Mpl.rgba),
      exists ax1,
        CalendarHeatmapTest.draw_calendar ax year month df_month norm cmap = Ok ax1 /\
        In (mkRectangle (Z.of_nat c, - Z.of_nat w) 1 1 (8 # 10) "gray"
                        (RGBA (cmap (norm (Finite bound)))),
            mkText (fst position) (snd position)
                   (PyFormat.str day ++ PyFormat.nl
                    ++ (if negative then "-inf" else "+inf") ++ "%")%string
                   "center" "top" 7 (Some "black"%string))
           (combine (patches ax1) (texts ax1)))
  /\ (exists ax1,
         CalendarHeatmap.draw_calendar ax year month df_month
                                       norm_main_float cmap_main_float
         = Ok ax1 /\
         In (mkRectangle (Z.of_nat c, - Z.of_nat w) 1 1 (8 # 10) "lightgray"
                         (RGBA (cmap_main (norm_main bound))),
             mkText (fst position) (snd position)
                    (PyFormat.str day ++ PyFormat.nl
                     ++ (if negative then "-inf" else "inf") ++ "%")%string
                    "center" "top" 7 None)
            (combine (patches ax1) (texts ax1))).
Proof.
  intros Hn Hmd Hw Hc Hd H5 Hin bound position. split.
  - intros norm cmap. eexists.
    split; [apply draw_calendar_test; eassumption|].
    pose proof (drawn_cell (style_test norm cmap) (subplotspec ax)
                  (Some "white"%string) year month df_month month_days
                  (Z.of_nat (List.length month_days))
                  (title_of year month 13 (Some 12)) w c week day Hw Hc Hd H5) as H.
    cbv zeta in H. rewrite (cell_value_In df_month _ _ Hn Hin) in H.
    unfold bound. destruct negative; exact H.
  - eexists. split; [apply draw_calendar_main; eassumption|].
    pose proof (drawn_cell (style_main norm_main_float cmap_main_float) (subplotspec ax)
                  (ax_facecolor ax) year month df_month month_days
                  (Z.of_nat (List.length month_days))
                  (title_of year month 12 None) w c week day Hw Hc Hd H5) as H.
    cbv zeta in H. rewrite (cell_value_In df_month _ _ Hn Hin) in H.
    unfold rect_of, text_of, paint, style_main in H.
    cbn [value found fst snd day_of_month week_idx day_idx edge ink] in H.
    assert (cmap_main_float (norm_main_float (if negative then NegInf else PosInf))
            = cmap_main (norm_main bound)) as E
        by (unfold bound; destruct negative; vm_compute; reflexivity).
    rewrite E in H. unfold bound. destruct negative; exact H.
Qed.

Lemma infinite_returns_are_painted_like_the_bounds_example :
  exists ax1,
    CalendarHeatmap.draw_calendar (Ax.new (0, 0)) 2024 3
      [("2024-03-15"%string, PosInf)] norm_main_float cmap_main_float = Ok ax1
    /\ In (mkRectangle (4, -2) 1 1 (8 # 10) "lightgray"
                       (RGBA (0, 11 # 20, 0, 1)%Q),
           mkText (4 + (1 # 2)) (-2 + (6 # 10))
                  (String "1" (String "5" (String (ascii_of_nat 10) "inf%")))
                  "center" "top" 7 None)
          (combine (patches ax1) (texts ax1)).
Proof.
  destruct (infinite_returns_are_painted_like_the_bounds (Ax.new (0, 0)) 2024 3
              [("2024-03-15"%string, PosInf)]
              [[0; 0; 0; 0; 1; 2; 3]; [4; 5; 6; 7; 8; 9; 10];
               [11; 12; 13; 14; 15; 16; 17]; [18; 19; 20; 21; 22; 23; 24];
               [25; 26; 27; 28; 29; 30; 31]]
              2%nat 4%nat [11; 12; 13; 14; 15; 16; 17] 15 false) as [_ (ax1 & H1 & H2)].
  - repeat constructor. simpl. tauto.
  - reflexivity.
  - reflexivity.
  - reflexivity.
  - lia.
  - lia.
  - left. reflexivity.
  - exists ax1. split; [exact H1|]. exact H2.
Defined.
